(** * Store billing: invoice, cart and ledger persistence

    A shallow embedding of the billing application of [another-up.py]
    (the version with the ledger tab) and of the invoice path of [app.py].

    - Python [float] values are IEEE binary64 numbers: they are modelled by
      the kernel's primitive floats, so sums and products round exactly as
      the program's do.  The built-in [sum] is the one of the interpreter
      the window runs under; the rational number a float stands for is
      [Py.exact].
    - The SQLite database is a record of tables; a table is the list of its
      rows in rowid order together with its AUTOINCREMENT counter.
    - A handler of the window is a function on the application state; the
      answers of the dialogs it opens are arguments, and the dialogs it shows
      are appended to a log. *)

From Stdlib Require Import ZArith List String Ascii Bool Lia.
From Stdlib Require Import PrimFloat Uint63 FloatOps SpecFloat.
From Stdlib Require Import QArith Qabs DecimalString.
From Stdlib Require Import Sorted Permutation.
Import ListNotations.

Local Open Scope string_scope.
Local Open Scope list_scope.
Local Open Scope Z_scope.

(** ** Python values *)

Module Py.

(** [float(n)] for an [int] n, as the mixed products [price * qty] and the
    divisions by [100] convert their integer operand: the nearest binary64
    number, ties to even.  Below 2^63 in magnitude the conversion is the
    primitive one; beyond, the integer is rounded as the specification of
    the format rounds it (beyond the range of the format Python raises
    OverflowError, and the rounding gives an infinity). *)
Definition float_of_int (z : Z) : float :=
  if Z.abs z <? 9223372036854775808
  then
    if z <? 0
    then PrimFloat.opp (PrimFloat.of_uint63 (Uint63.of_Z (- z)))
    else PrimFloat.of_uint63 (Uint63.of_Z z)
  else SF2Prim (binary_normalize prec emax z 0 false).

(** A running total kept by a loop: [total = 0] and then [total += x] for
    each [x], every addition rounded to binary64. *)
Definition add_up (xs : list float) : float :=
  fold_left PrimFloat.add xs (float_of_int 0).

(** The interpreter the window runs under.  The built-in [sum] adds floats
    one after the other up to CPython 3.11 and keeps a compensation term
    from CPython 3.12 on. *)
Inductive version := Before312 | From312.

(** One turn of the float loop of [sum] in CPython 3.12 ([t = f + x], then
    [c += (f - t) + x] when [fabs(f) >= fabs(x)] and [c += (x - t) + f]
    otherwise): the running total [f] and the compensation [c]. *)
Definition compensate (acc : float * float) (x : float) : float * float :=
  let '(f, c) := acc in
  let t := (f + x)%float in
  (t, if (abs x <=? abs f)%float
      then (c + ((f - t) + x))%float
      else (c + ((x - t) + f))%float).

(** The built-in [sum] over floats, from the integer [0].  Before 3.12 it is
    the running total.  From 3.12 on the first float is added to the
    integer [0], the others go through the compensated loop, and the
    compensation is added at the end when it is finite and not zero. *)
Definition sum (v : version) (xs : list float) : float :=
  match v with
  | Before312 => add_up xs
  | From312 =>
      match xs with
      | [] => float_of_int 0
      | x :: rest =>
          let '(f, c) := fold_left compensate rest ((float_of_int 0 + x)%float, 0%float) in
          if negb (c =? 0)%float && is_finite c then (f + c)%float else f
      end
  end.

(** [str.isspace] for one character.  A [string] here is a sequence of
    code points below 256; the whitespace among them is tab to carriage
    return, the four separators 28 to 31, the blank, NEL (133) and the
    no-break space (160). *)
Definition isspace (c : ascii) : bool :=
  let n := Z.of_nat (nat_of_ascii c) in
  ((9 <=? n) && (n <=? 13)) || ((28 <=? n) && (n <=? 32)) || (n =? 133) || (n =? 160).

Fixpoint lstrip (s : string) : string :=
  match s with
  | EmptyString => EmptyString
  | String c s' => if isspace c then lstrip s' else s
  end.

Fixpoint rstrip (s : string) : string :=
  match s with
  | EmptyString => EmptyString
  | String c s' =>
      let r := rstrip s' in
      if isspace c && (r =? "")%string then EmptyString else String c r
  end.

(** [s.strip()] *)
Definition strip (s : string) : string := rstrip (lstrip s).

(** Truth value of a [str]: the empty string is false. *)
Definition truthy (s : string) : bool := negb (s =? "")%string.

(** [a or b] on strings. *)
Definition or_else (a b : string) : string := if truthy a then a else b.

(** Exceptions the handlers can let escape. *)
Inductive exn := IntegrityError | AttributeError | IndexError | TypeError.

(** [s.replace(c, by)] for a single character [c]. *)
Fixpoint replace_char (c : ascii) (by_text : string) (s : string) : string :=
  match s with
  | EmptyString => EmptyString
  | String x s' =>
      if Ascii.eqb x c
      then (by_text ++ replace_char c by_text s')%string
      else String x (replace_char c by_text s')
  end.

(** The rational number a finite float stands for; an infinity or a NaN
    stands for none. *)
Definition exact (x : float) : option Q :=
  match Prim2SF x with
  | S754_zero _ => Some 0%Q
  | S754_finite s m e => Some (inject_Z (if s then Z.neg m else Z.pos m) * Qpower 2 e)%Q
  | S754_infinity _ | S754_nan => None
  end.

(** [x] is a finite float at most [tol] away from the rational [q]. *)
Definition within (tol : Q) (x : float) (q : Q) : bool :=
  match exact x with
  | Some r => Qle_bool (Qabs (r - q)) tol
  | None => false
  end.

End Py.

(** ** The schema *)

Record Product := mkProduct {
  p_id : Z;
  p_name : string;
  p_category : string;
  p_price : float;
  p_cost_price : float;
  p_stock : Z;
  p_tax_rate : float;
  p_barcode : string;
  p_description : string
}.

Record Customer := mkCustomer {
  c_id : Z;
  c_name : string;
  c_phone : string;
  c_email : option string;
  c_address : option string;
  c_total_purchases : float;
  c_last_visit : option string
}.

(** The amounts of an invoice are floats computed from the cart; prices,
    tax rates and the discount percent come from spin boxes, which bound
    them, so none of the amounts is a NaN (which would be stored as NULL). *)
Record Invoice := mkInvoice {
  i_id : Z;
  i_invoice_number : string;
  i_date : string;
  i_customer_id : option Z;
  i_subtotal : float;
  i_discount_name : string;
  i_discount_percent : float;
  i_tax : float;
  i_total : float
}.

Record InvoiceItem := mkInvoiceItem {
  ii_id : Z;
  ii_invoice_id : Z;
  ii_product_id : Z;
  ii_quantity : Z;
  ii_price : float;
  ii_cost_price : float;
  ii_tax_rate : float
}.

Record Ledger := mkLedger {
  l_id : Z;
  l_name : string
}.

(** The three amounts are REAL columns that can hold NULL ([None]). *)
Record LedgerEntry := mkLedgerEntry {
  le_id : Z;
  le_ledger_id : Z;
  le_entry_date : string;
  le_particulars : string;
  le_bill_amount : option float;
  le_paid : option float;
  le_remaining : option float
}.

(** The connection's view of [store.db].  [seq_t] is the largest rowid the
    AUTOINCREMENT table [t] has ever handed out. *)
Record DB := mkDB {
  products : list Product;
  customers : list Customer;
  invoices : list Invoice;
  invoice_items : list InvoiceItem;
  ledgers : list Ledger;
  ledger_entries : list LedgerEntry;
  seq_products : Z;
  seq_customers : Z;
  seq_invoices : Z;
  seq_invoice_items : Z;
  seq_ledgers : Z;
  seq_ledger_entries : Z
}.

Definition empty_db : DB := mkDB [] [] [] [] [] [] 0 0 0 0 0 0.

Definition with_products (ps : list Product) (d : DB) : DB :=
  mkDB ps (customers d) (invoices d) (invoice_items d) (ledgers d)
       (ledger_entries d) (seq_products d) (seq_customers d) (seq_invoices d)
       (seq_invoice_items d) (seq_ledgers d) (seq_ledger_entries d).

Definition with_invoices (rows : list Invoice) (d : DB) : DB :=
  mkDB (products d) (customers d) rows (invoice_items d) (ledgers d)
       (ledger_entries d) (seq_products d) (seq_customers d) (seq_invoices d)
       (seq_invoice_items d) (seq_ledgers d) (seq_ledger_entries d).

Definition with_invoice_items (rows : list InvoiceItem) (d : DB) : DB :=
  mkDB (products d) (customers d) (invoices d) rows (ledgers d)
       (ledger_entries d) (seq_products d) (seq_customers d) (seq_invoices d)
       (seq_invoice_items d) (seq_ledgers d) (seq_ledger_entries d).

Definition with_customers (rows : list Customer) (d : DB) : DB :=
  mkDB (products d) rows (invoices d) (invoice_items d) (ledgers d)
       (ledger_entries d) (seq_products d) (seq_customers d) (seq_invoices d)
       (seq_invoice_items d) (seq_ledgers d) (seq_ledger_entries d).

Definition with_ledger_entries (rows : list LedgerEntry) (d : DB) : DB :=
  mkDB (products d) (customers d) (invoices d) (invoice_items d) (ledgers d)
       rows (seq_products d) (seq_customers d) (seq_invoices d)
       (seq_invoice_items d) (seq_ledgers d) (seq_ledger_entries d).

Definition with_stock (n : Z) (p : Product) : Product :=
  mkProduct (p_id p) (p_name p) (p_category p) (p_price p) (p_cost_price p) n
            (p_tax_rate p) (p_barcode p) (p_description p).

(** ** The SQL statements the handlers execute *)

Module Sql.

(** [SELECT id FROM customers WHERE phone=?], [fetchone]. *)
Definition customer_id_by_phone (phone : string) (d : DB) : option Z :=
  option_map c_id (find (fun c => (c_phone c =? phone)%string) (customers d)).

(** [SELECT name, phone FROM customers WHERE id=?], [fetchone]; a NULL id
    matches no row. *)
Definition customer_by_id (cid : option Z) (d : DB) : option Customer :=
  match cid with
  | Some k => find (fun c => c_id c =? k) (customers d)
  | None => None
  end.

(** [INSERT INTO customers(name, phone) VALUES(?,?)]; the result carries
    [lastrowid].  The other columns take their defaults. *)
Definition insert_customer (name phone : string) (d : DB) : DB * Z :=
  let k := seq_customers d + 1 in
  (mkDB (products d)
        (customers d ++ [mkCustomer k name phone None None (Py.float_of_int 0) None])
        (invoices d) (invoice_items d) (ledgers d) (ledger_entries d)
        (seq_products d) k (seq_invoices d) (seq_invoice_items d)
        (seq_ledgers d) (seq_ledger_entries d),
   k).

(** [UPDATE customers SET total_purchases=total_purchases+?, last_visit=? WHERE id=?] *)
Definition update_customer_purchases (amount : float) (date : string) (cid : Z) (d : DB) : DB :=
  with_customers
    (map (fun c => if c_id c =? cid
                   then mkCustomer (c_id c) (c_name c) (c_phone c) (c_email c) (c_address c)
                          (PrimFloat.add (c_total_purchases c) amount) (Some date)
                   else c)
         (customers d)) d.

(** [SELECT * FROM invoices WHERE invoice_number=?], [fetchone]. *)
Definition invoice_by_number (num : string) (d : DB) : option Invoice :=
  find (fun i => (i_invoice_number i =? num)%string) (invoices d).

(** [SELECT * FROM invoices WHERE id=?], [fetchone]. *)
Definition invoice_by_id (k : Z) (d : DB) : option Invoice :=
  find (fun i => i_id i =? k) (invoices d).

(** [INSERT INTO invoices(invoice_number, date, customer_id, subtotal,
    discount_name, discount_percent, tax, total) VALUES(?,?,?,?,?,?,?,?)].
    [invoice_number] is UNIQUE: the statement raises [IntegrityError]
    ([None]) when the number is already stored. *)
Definition insert_invoice (num date : string) (cust_id : option Z)
    (subtotal : float) (dname : string) (dpercent tax total : float) (d : DB)
  : option (DB * Z) :=
  match invoice_by_number num d with
  | Some _ => None
  | None =>
      let k := seq_invoices d + 1 in
      Some (mkDB (products d) (customers d)
                 (invoices d ++ [mkInvoice k num date cust_id subtotal dname dpercent tax total])
                 (invoice_items d) (ledgers d) (ledger_entries d)
                 (seq_products d) (seq_customers d) k (seq_invoice_items d)
                 (seq_ledgers d) (seq_ledger_entries d),
            k)
  end.

(** [UPDATE invoices SET customer_id=?, subtotal=?, discount_name=?,
    discount_percent=?, tax=?, total=? WHERE id=?] *)
Definition update_invoice (cust_id : option Z) (subtotal : float) (dname : string)
    (dpercent tax total : float) (k : Z) (d : DB) : DB :=
  with_invoices
    (map (fun i => if i_id i =? k
                   then mkInvoice (i_id i) (i_invoice_number i) (i_date i) cust_id
                          subtotal dname dpercent tax total
                   else i)
         (invoices d)) d.

(** [INSERT INTO invoice_items(invoice_id, product_id, quantity, price,
    cost_price, tax_rate) VALUES(?,?,?,?,?,?)] *)
Definition insert_invoice_item (inv_id prod_id qty : Z) (price cost tax_rate : float) (d : DB) : DB :=
  let k := seq_invoice_items d + 1 in
  mkDB (products d) (customers d) (invoices d)
       (invoice_items d ++ [mkInvoiceItem k inv_id prod_id qty price cost tax_rate])
       (ledgers d) (ledger_entries d)
       (seq_products d) (seq_customers d) (seq_invoices d) k
       (seq_ledgers d) (seq_ledger_entries d).

(** [SELECT ... FROM invoice_items WHERE invoice_id=?] *)
Definition items_of_invoice (inv_id : Z) (d : DB) : list InvoiceItem :=
  filter (fun it => ii_invoice_id it =? inv_id) (invoice_items d).

(** [UPDATE products SET stock=stock-? WHERE id=?] *)
Definition decrement_stock (qty prod_id : Z) (d : DB) : DB :=
  with_products
    (map (fun p => if p_id p =? prod_id then with_stock (p_stock p - qty) p else p)
         (products d)) d.

(** [DELETE FROM products WHERE id=?] *)
Definition delete_product (prod_id : Z) (d : DB) : DB :=
  with_products (filter (fun p => negb (p_id p =? prod_id)) (products d)) d.

(** [DELETE FROM invoice_items WHERE invoice_id=?] *)
Definition delete_invoice_items (inv_id : Z) (d : DB) : DB :=
  with_invoice_items (filter (fun it => negb (ii_invoice_id it =? inv_id)) (invoice_items d)) d.

(** [DELETE FROM invoices WHERE id=?] *)
Definition delete_invoice (inv_id : Z) (d : DB) : DB :=
  with_invoices (filter (fun i => negb (i_id i =? inv_id)) (invoices d)) d.

(** [SELECT id FROM ledgers WHERE name=?], [fetchone]. *)
Definition ledger_id_by_name (name : string) (d : DB) : option Z :=
  option_map l_id (find (fun l => (l_name l =? name)%string) (ledgers d)).

(** Insertion of a row into rows already ordered by [entry_date]; a row
    goes after the rows of the same date, so the sort below is stable. *)
Fixpoint insert_by_date (e : LedgerEntry) (rows : list LedgerEntry) : list LedgerEntry :=
  match rows with
  | [] => [e]
  | r :: rows' =>
      if (le_entry_date r <=? le_entry_date e)%string
      then r :: insert_by_date e rows'
      else e :: r :: rows'
  end.

(** [ORDER BY entry_date]: text compared byte by byte, rows of equal date
    kept in rowid order. *)
Definition order_by_entry_date (rows : list LedgerEntry) : list LedgerEntry :=
  fold_left (fun acc e => insert_by_date e acc) rows [].

(** [SELECT * FROM ledger_entries WHERE ledger_id=? ORDER BY entry_date] *)
Definition entries_of_ledger (lid : Z) (d : DB) : list LedgerEntry :=
  order_by_entry_date (filter (fun e => le_ledger_id e =? lid) (ledger_entries d)).

(** [SELECT id FROM ledger_entries WHERE ledger_id=? ORDER BY entry_date
    LIMIT 1 OFFSET ?]; a negative offset counts as zero. *)
Definition entry_id_at (lid row : Z) (d : DB) : option Z :=
  option_map le_id (nth_error (entries_of_ledger lid d) (Z.to_nat row)).

(** A Python float bound to a parameter of a statement: SQLite stores a
    NaN as NULL and every other float as it is. *)
Definition real (x : float) : option float :=
  if PrimFloat.is_nan x then None else Some x.

(** [UPDATE ledger_entries SET entry_date=?, particulars=?, bill_amount=?,
    paid=?, remaining=? WHERE id=?] with three floats bound. *)
Definition update_ledger_entry (date particulars : string) (bill paid rem : float)
    (entry_id : Z) (d : DB) : DB :=
  with_ledger_entries
    (map (fun e => if le_id e =? entry_id
                   then mkLedgerEntry (le_id e) (le_ledger_id e) date particulars
                          (real bill) (real paid) (real rem)
                   else e)
         (ledger_entries d)) d.

(** [DELETE FROM ledger_entries WHERE id=?] *)
Definition delete_ledger_entry (entry_id : Z) (d : DB) : DB :=
  with_ledger_entries (filter (fun e => negb (le_id e =? entry_id)) (ledger_entries d)) d.

(** [INSERT INTO ledger_entries(ledger_id, entry_date, particulars,
    bill_amount, paid, remaining) VALUES(?, ?, '', 0, 0, 0)]; the REAL
    columns turn the three integers into floats. *)
Definition insert_ledger_entry (lid : Z) (today : string) (d : DB) : DB :=
  let k := seq_ledger_entries d + 1 in
  mkDB (products d) (customers d) (invoices d) (invoice_items d) (ledgers d)
       (ledger_entries d ++
          [mkLedgerEntry k lid today "" (Some (Py.float_of_int 0)) (Some (Py.float_of_int 0))
             (Some (Py.float_of_int 0))])
       (seq_products d) (seq_customers d) (seq_invoices d) (seq_invoice_items d)
       (seq_ledgers d) k.

(** [INSERT INTO ledgers(name) VALUES(?)]; [name] is UNIQUE: [None] is
    [IntegrityError]. *)
Definition insert_ledger (name : string) (d : DB) : option DB :=
  match ledger_id_by_name name d with
  | Some _ => None
  | None =>
      let k := seq_ledgers d + 1 in
      Some (mkDB (products d) (customers d) (invoices d) (invoice_items d)
                 (ledgers d ++ [mkLedger k name]) (ledger_entries d)
                 (seq_products d) (seq_customers d) (seq_invoices d)
                 (seq_invoice_items d) k (seq_ledger_entries d))
  end.

(** [INSERT INTO products(name,category,price,cost_price,stock,tax_rate,
    barcode,description) VALUES(?,?,?,?,?,?,?,?)]; [barcode] is UNIQUE. *)
Definition insert_product (name category : string) (price cost_price : float) (stock : Z)
    (tax_rate : float) (barcode description : string) (d : DB) : option DB :=
  if existsb (fun p => (p_barcode p =? barcode)%string) (products d) then None
  else
    let k := seq_products d + 1 in
    Some (mkDB (products d ++
                  [mkProduct k name category price cost_price stock tax_rate barcode description])
               (customers d) (invoices d) (invoice_items d) (ledgers d) (ledger_entries d)
               k (seq_customers d) (seq_invoices d) (seq_invoice_items d)
               (seq_ledgers d) (seq_ledger_entries d)).

(** [INSERT INTO customers(name,phone,email,address) VALUES(?,?,?,?)];
    [phone] is UNIQUE. *)
Definition insert_customer_contact (name phone email address : string) (d : DB) : option DB :=
  match customer_id_by_phone phone d with
  | Some _ => None
  | None =>
      let k := seq_customers d + 1 in
      Some (mkDB (products d)
                 (customers d ++
                    [mkCustomer k name phone (Some email) (Some address) (Py.float_of_int 0) None])
                 (invoices d) (invoice_items d) (ledgers d) (ledger_entries d)
                 (seq_products d) k (seq_invoices d) (seq_invoice_items d)
                 (seq_ledgers d) (seq_ledger_entries d))
  end.

(** The rows of [FROM invoice_items ii JOIN products p ON p.id =
    ii.product_id]: for each line item, in rowid order, the products of its
    product id. *)
Definition join_products (items : list InvoiceItem) (ps : list Product)
  : list (InvoiceItem * Product) :=
  flat_map (fun it => map (fun p => (it, p))
                          (filter (fun p => p_id p =? ii_product_id it) ps))
           items.

(** The count of [SELECT ... FROM products WHERE stock < 10]. *)
Definition low_stock_count (d : DB) : nat :=
  List.length (filter (fun p => p_stock p <? 10) (products d)).

End Sql.

(** ** The window's state *)

(** A cart line: the dict [add_to_cart] appends to [self.cart]. *)
Record CartItem := mkCartItem {
  item_id : Z;
  item_name : string;
  item_price : float;
  item_cost_price : float;
  item_tax_rate : float;
  item_qty : Z
}.

(** A row of [ledger_table]: the texts of columns 0 to 4 (column 5 holds
    the row's Delete button). *)
Record LedgerRow := mkLedgerRow {
  cell_date : string;
  cell_particulars : string;
  cell_bill : string;
  cell_paid : string;
  cell_remaining : string
}.

Inductive Reply := Yes | No.

(** What the user sees of a handler. *)
Inductive Event :=
| Warning (title text : string)
| Information (title text : string)
| Question (title text : string) (reply : Reply)
| PdfWritten (path : string) (inv_id : Z)
| PrintDialog (path : string)
| Raised (e : Py.exn).

(** [py] is the interpreter the window runs under, the other fields are the
    database connection, [self.cart] and the widgets the handlers read or
    write. *)
Record App := mkApp {
  py : Py.version;
  db : DB;
  cart : list CartItem;
  inv_lbl_num : string;
  inv_date : string;
  cust_name : string;
  cust_phone : string;
  discount_name : string;
  discount_percent : float;
  ledger_combo : string;
  ledger_table : list LedgerRow;
  log : list Event
}.

Definition set_db (d : DB) (st : App) : App :=
  mkApp (py st) d (cart st) (inv_lbl_num st) (inv_date st) (cust_name st) (cust_phone st)
        (discount_name st) (discount_percent st) (ledger_combo st) (ledger_table st) (log st).

Definition set_cart (c : list CartItem) (st : App) : App :=
  mkApp (py st) (db st) c (inv_lbl_num st) (inv_date st) (cust_name st) (cust_phone st)
        (discount_name st) (discount_percent st) (ledger_combo st) (ledger_table st) (log st).

Definition set_ledger_table (t : list LedgerRow) (st : App) : App :=
  mkApp (py st) (db st) (cart st) (inv_lbl_num st) (inv_date st) (cust_name st) (cust_phone st)
        (discount_name st) (discount_percent st) (ledger_combo st) t (log st).

Definition show (evs : list Event) (st : App) : App :=
  mkApp (py st) (db st) (cart st) (inv_lbl_num st) (inv_date st) (cust_name st) (cust_phone st)
        (discount_name st) (discount_percent st) (ledger_combo st) (ledger_table st)
        (log st ++ evs).

(** The "reset UI" block that ends [save_invoice]: the cart is cleared, a
    new invoice number is drawn, the discount and customer fields are
    emptied. *)
Definition reset_billing (fresh_num : string) (st : App) : App :=
  mkApp (py st) (db st) [] fresh_num (inv_date st) "" "" "" (Py.float_of_int 0)
        (ledger_combo st) (ledger_table st) (log st).

Definition initial (v : Py.version) (num today : string) : App :=
  mkApp v empty_db [] num today "" "" "" (Py.float_of_int 0) "" [] [].

(** ** The cart (the same code in both files) *)

(** A cart line with its quantity raised: [item['qty'] += qty]. *)
Definition add_qty (qty : Z) (i : CartItem) : CartItem :=
  mkCartItem (item_id i) (item_name i) (item_price i) (item_cost_price i)
             (item_tax_rate i) (item_qty i + qty).

(** The [for item in self.cart: if item['id'] == prod_id: item['qty'] += qty;
    break] loop: [Some] of the updated cart when a line matched, [None] when
    the loop ran to its [else]. *)
Fixpoint merge_qty (prod_id qty : Z) (c : list CartItem) : option (list CartItem) :=
  match c with
  | [] => None
  | item :: rest =>
      if item_id item =? prod_id
      then Some (add_qty qty item :: rest)
      else option_map (cons item) (merge_qty prod_id qty rest)
  end.

(** [add_to_cart]: [selected] is the row of [product_table] under the cursor
    as the table shows it ([None] for [currentRow() == -1]), [qty] and [ok]
    are the answer of the quantity dialog. *)
Definition add_to_cart (selected : option Product) (qty : Z) (ok : bool) (st : App) : App :=
  match selected with
  | None => st
  | Some row =>
      let prod_id := p_id row in
      if negb ok then st
      else
        let stock := p_stock row in
        if qty >? stock then show [Warning "Stock" "Not enough stock."] st
        else
          match merge_qty prod_id qty (cart st) with
          | Some c => set_cart c st
          | None =>
              set_cart (cart st ++ [mkCartItem prod_id (p_name row) (p_price row)
                                      (p_cost_price row) (p_tax_rate row) qty]) st
          end
  end.

(** [del self.cart[row]] for a row of the cart table. *)
Fixpoint del_at {A : Type} (row : nat) (l : list A) : option (list A) :=
  match row, l with
  | _, [] => None
  | O, _ :: rest => Some rest
  | S k, x :: rest => option_map (cons x) (del_at k rest)
  end.

Definition remove_from_cart (row : nat) (st : App) : App :=
  match del_at row (cart st) with
  | Some c => set_cart c st
  | None => show [Raised Py.IndexError] st
  end.

(** The totals block of [save_invoice] and [record_and_generate_pdf]: the
    subtotal and the tax are [sum]s over the cart, so they depend on the
    interpreter [v]. *)
Definition line_amount (i : CartItem) : float :=
  (item_price i * Py.float_of_int (item_qty i))%float.

Definition line_tax (i : CartItem) : float :=
  (item_price i * Py.float_of_int (item_qty i) * item_tax_rate i / Py.float_of_int 100)%float.

Definition cart_subtotal (v : Py.version) (c : list CartItem) : float :=
  Py.sum v (map line_amount c).

Definition cart_tax (v : Py.version) (c : list CartItem) : float :=
  Py.sum v (map line_tax c).

Definition discount_amount (subtotal percent : float) : float :=
  (subtotal * percent / Py.float_of_int 100)%float.

Definition grand_total (subtotal discount tax : float) : float :=
  (subtotal - discount + tax)%float.

(** The [for item in self.cart] loop of [save_invoice]: one [invoice_items]
    row and one stock update per line. *)
Definition record_line (inv_id : Z) (d : DB) (item : CartItem) : DB :=
  Sql.decrement_stock (item_qty item) (item_id item)
    (Sql.insert_invoice_item inv_id (item_id item) (item_qty item) (item_price item)
       (item_cost_price item) (item_tax_rate item) d).

Definition record_lines (inv_id : Z) (c : list CartItem) (d : DB) : DB :=
  fold_left (record_line inv_id) c d.

(** The "quick customer lookup / create" block of [save_invoice], the same
    statements in both files. *)
Definition resolve_customer (cust_name cust_phone : string) (d : DB) : DB * option Z :=
  if Py.truthy cust_phone then
    match Sql.customer_id_by_phone cust_phone d with
    | Some k => (d, Some k)
    | None =>
        let '(d', k) := Sql.insert_customer (Py.or_else cust_name "Walk-in") cust_phone d in
        (d', Some k)
    end
  else (d, None).

(** ** Settings, labels, PDF and history rows *)

(** The [settings] table: its (key, value) rows in rowid order. *)
Definition Settings : Type := list (string * string).

(** [SELECT value FROM settings WHERE key=?], [fetchone]. *)
Definition setting_row (k : string) (s : Settings) : option string :=
  option_map snd (find (fun r => (fst r =? k)%string) s).

(** [set_setting(k, v)]: [REPLACE INTO settings(key,value) VALUES(?,?)].
    [key] is the PRIMARY KEY, so a row of that key is deleted before the new
    row is inserted.  The same function in both files. *)
Definition set_setting (k v : string) (s : Settings) : Settings :=
  filter (fun r => negb (fst r =? k)%string) s ++ [(k, v)].

(** One row of [INSERT OR IGNORE INTO settings(key,value) VALUES ...]. *)
Definition insert_or_ignore (s : Settings) (r : string * string) : Settings :=
  match setting_row (fst r) s with
  | Some _ => s
  | None => s ++ [r]
  end.

Definition newline : string := String (ascii_of_nat 10) EmptyString.

(** The rows the schema script seeds. *)
Definition default_settings : Settings :=
  [("store_name", "Lilly's Closet");
   ("store_address",
    ("6351 Fringilla Avenue" ++ newline ++ "Gardena Colorado 37" ++ newline ++ "United States")%string);
   ("store_email", "lillyscloset@gmail.com");
   ("store_phone", "559-104-5475");
   ("dark_mode", "0")].

(** The settings part of the schema script, run at every start. *)
Definition seed_settings (s : Settings) : Settings :=
  fold_left insert_or_ignore default_settings s.

(** [save_settings]: the four texts of the settings tab and the dark mode
    flag, written as [str(int(self.dark_mode))].  The same function in both
    files. *)
Definition save_settings (store_name store_addr store_email store_phone : string)
    (dark_mode : bool) (s : Settings) : Settings :=
  set_setting "dark_mode" (if dark_mode then "1" else "0")
    (set_setting "store_phone" store_phone
       (set_setting "store_email" store_email
          (set_setting "store_address" store_addr
             (set_setting "store_name" store_name s)))).

(** The labels of the billing tab, as the numbers [refresh_cart] formats
    with two decimals. *)
Record Labels := mkLabels {
  lbl_subtotal : float;
  lbl_discount : float;
  lbl_tax : float;
  lbl_total : float
}.

(** A line of the invoice PDF: description, quantity, price, line total. *)
Record PdfLine := mkPdfLine {
  line_name : string;
  line_qty : Z;
  line_price : float;
  line_total : float
}.

(** What the PDF routine draws; the amounts are the numbers it formats with
    two decimals. *)
Record Pdf := mkPdf {
  pdf_store_name : string;
  pdf_bill_to : string;
  pdf_phone : string;
  pdf_address : string;
  pdf_invoice_no : string;
  pdf_issue_date : string;
  pdf_due_date : string;
  pdf_lines : list PdfLine;
  pdf_subtotal : float;
  pdf_discount : option (string * float);
  pdf_tax : float;
  pdf_total : float;
  pdf_email : string;
  pdf_store_phone : string
}.

(** A row of the history query. *)
Record HistoryRow := mkHistoryRow {
  h_id : Z;
  h_invoice_number : string;
  h_date : string;
  h_customer : string;
  h_subtotal : float;
  h_discount_name : string;
  h_tax : float;
  h_total : float
}.

(** [ORDER BY i.date DESC, i.id DESC]: [newer a b] when [a] may stand before
    [b]. *)
Definition newer (a b : HistoryRow) : bool :=
  if (h_date a =? h_date b)%string then h_id b <=? h_id a
  else (h_date b <=? h_date a)%string.

(** [ORDER BY i.date DESC] alone. *)
Definition newer_date (a b : HistoryRow) : bool := (h_date b <=? h_date a)%string.

(** Insertion into rows already in order; a row goes after the rows that
    may stand before it, so rows the order does not tell apart keep the order
    the join yields them in. *)
Fixpoint insert_row (before : HistoryRow -> HistoryRow -> bool) (r : HistoryRow)
    (rows : list HistoryRow) : list HistoryRow :=
  match rows with
  | [] => [r]
  | x :: rest => if before x r then x :: insert_row before r rest else r :: x :: rest
  end.

Definition order_rows (before : HistoryRow -> HistoryRow -> bool) (rows : list HistoryRow)
  : list HistoryRow :=
  fold_left (fun acc r => insert_row before r acc) rows [].

Definition history_row (i : Invoice) (customer : string) : HistoryRow :=
  mkHistoryRow (i_id i) (i_invoice_number i) (i_date i) customer (i_subtotal i)
               (i_discount_name i) (i_tax i) (i_total i).

(** The customer column of [another-up.py]'s history:
    [COALESCE(c.name, i.invoice_number)]. *)
Definition customer_column (d : DB) (i : Invoice) : string :=
  match Sql.customer_by_id (i_customer_id i) d with
  | Some c => c_name c
  | None => i_invoice_number i
  end.

(** The customers an invoice joins with: [ON c.id = i.customer_id]. *)
Definition customers_of (i : Invoice) (d : DB) : list Customer :=
  match i_customer_id i with
  | Some k => filter (fun c => c_id c =? k) (customers d)
  | None => []
  end.

Definition set_ledger_combo (text : string) (st : App) : App :=
  mkApp (py st) (db st) (cart st) (inv_lbl_num st) (inv_date st) (cust_name st) (cust_phone st)
        (discount_name st) (discount_percent st) text (ledger_table st) (log st).

(** The fields of the billing tab as the user leaves them. *)
Definition fill_billing (date name phone dname : string) (dpercent : float) (st : App) : App :=
  mkApp (py st) (db st) (cart st) (inv_lbl_num st) date name phone dname dpercent
        (ledger_combo st) (ledger_table st) (log st).

(** ** [another-up.py] *)

Module AnotherUp.

(** [save_invoice(mode)].  [file_path] is the answer of the save-file
    dialog (empty when it is cancelled), [fresh_num] the number drawn for
    the next invoice. *)
Definition save_invoice (mode file_path fresh_num : string) (st : App) : App :=
  match cart st with
  | [] => show [Warning "Empty" "Cart is empty."] st
  | _ :: _ =>
      let inv_num := inv_lbl_num st in
      let date_str := inv_date st in
      let cust_name := Py.strip (cust_name st) in
      let cust_phone := Py.strip (cust_phone st) in
      let '(d1, cust_id) := resolve_customer cust_name cust_phone (db st) in
      let subtotal := cart_subtotal (py st) (cart st) in
      let tax := cart_tax (py st) (cart st) in
      let discount := discount_amount subtotal (discount_percent st) in
      let total := grand_total subtotal discount tax in
      match Sql.insert_invoice inv_num date_str cust_id subtotal (discount_name st)
              (discount_percent st) tax total d1 with
      | None => show [Raised Py.IntegrityError] (set_db d1 st)
      | Some (d2, inv_id) =>
          let d3 := record_lines inv_id (cart st) d2 in
          let st3 := set_db d3 st in
          let st4 :=
            if Py.truthy file_path then
              show ([PdfWritten file_path inv_id]
                      ++ (if (mode =? "print")%string then [PrintDialog file_path] else [])
                      ++ [Information "Done" ("Saved to" ++ String (ascii_of_nat 10) file_path)])
                   st3
            else st3 in
          reset_billing fresh_num st4
      end
  end.

(** [record_and_generate_pdf(path, inv_id, inv_num, date, cust_name,
    cust_phone)]: steps 1 to 3 write to the database, step 4 only reads it
    to draw the PDF. *)
Definition record_and_generate_pdf (path : string) (inv_id : Z)
    (inv_num date cust_name cust_phone : string) (st : App) : App :=
  (* 1. make sure customer exists *)
  let '(d1, cust_id) :=
    if Py.truthy cust_name || Py.truthy cust_phone then
      match Sql.customer_id_by_phone cust_phone (db st) with
      | Some k => (db st, Some k)
      | None =>
          let '(d', k) := Sql.insert_customer (Py.or_else cust_name "Walk-in")
                            (Py.or_else cust_phone "") (db st) in
          (d', Some k)
      end
    else (db st, None) in
  (* 3. real totals (recalc from cart) *)
  let subtotal := cart_subtotal (py st) (cart st) in
  let tax := cart_tax (py st) (cart st) in
  let discount := discount_amount subtotal (discount_percent st) in
  let total := grand_total subtotal discount tax in
  let finish (d2 : DB) (inv_id : Z) : App :=
    let d3 := Sql.update_invoice cust_id subtotal (discount_name st) (discount_percent st)
                tax total inv_id d2 in
    (* 4. build the PDF *)
    show [PdfWritten path inv_id] (set_db d3 st) in
  (* 2. create / update invoice row *)
  match Sql.invoice_by_number inv_num d1 with
  | None =>
      match Sql.insert_invoice inv_num date cust_id (Py.float_of_int 0) ""
              (Py.float_of_int 0) (Py.float_of_int 0) (Py.float_of_int 0) d1 with
      | Some (d2, inv_id) => finish d2 inv_id
      | None => show [Raised Py.IntegrityError] (set_db d1 st)
      end
  | Some inv_row => finish d1 (i_id inv_row)
  end.

(** [open_history_pdf]: [selected] is the invoice number in the current
    row of the history table ([None] for [currentRow() == -1]), [path] the
    answer of the save-file dialog. *)
Definition open_history_pdf (selected : option string) (path : string) (st : App) : App :=
  match selected with
  | None => st
  | Some inv_num =>
      match Sql.invoice_by_number inv_num (db st) with
      | None => st
      | Some inv =>
          let cust := Sql.customer_by_id (i_customer_id inv) (db st) in
          let cust_name := match cust with Some c => c_name c | None => i_invoice_number inv end in
          let cust_phone := match cust with Some c => c_phone c | None => "" end in
          if Py.truthy path
          then record_and_generate_pdf path (i_id inv) inv_num (i_date inv) cust_name cust_phone st
          else st
      end
  end.

(** [delete_product]: [selected] is the id and name in the current row of
    the products table, [reply] the answer to the question box. *)
Definition delete_product (selected : option (Z * string)) (reply : Reply) (st : App) : App :=
  match selected with
  | None => st
  | Some (prod_id, name) =>
      let st1 := show [Question "Delete" ("Delete " ++ name ++ "?") reply] st in
      match reply with
      | Yes => set_db (Sql.delete_product prod_id (db st1)) st1
      | No => st1
      end
  end.

(** [delete_invoice(inv_id)] *)
Definition delete_invoice (inv_id : Z) (reply : Reply) (st : App) : App :=
  let st1 := show [Question "Confirm Delete"
                     "Delete this invoice permanently?  This cannot be undone." reply] st in
  match reply with
  | No => st1
  | Yes => set_db (Sql.delete_invoice inv_id (Sql.delete_invoice_items inv_id (db st1))) st1
  end.

(** [delete_ledger_entry(entry_id, row)]: the row's Delete button. *)
Definition delete_ledger_entry (entry_id : Z) (row : nat) (st : App) : App :=
  let d := Sql.delete_ledger_entry entry_id (db st) in
  set_ledger_table
    (match del_at row (ledger_table st) with Some t => t | None => ledger_table st end)
    (set_db d st).

(** The cell texts of a row, [None] where [item(row, col)] is. *)
Definition table_row (row : Z) (st : App) : option LedgerRow :=
  if row <? 0 then None else nth_error (ledger_table st) (Z.to_nat row).

Fixpoint set_remaining (row : nat) (text : string) (t : list LedgerRow) : list LedgerRow :=
  match row, t with
  | _, [] => []
  | O, r :: rest =>
      mkLedgerRow (cell_date r) (cell_particulars r) (cell_bill r) (cell_paid r) text :: rest
  | S k, r :: rest => r :: set_remaining k text rest
  end.

Section LedgerTab.

(** The built-ins [float(text)] ([None] for [ValueError]) and [str(x)]
    on floats. *)
Variable py_float : string -> option float.
Variable py_str : float -> string.

(** [str(r[column])] for a REAL column: a NULL reads as [None]. *)
Definition cell_text (x : option float) : string :=
  match x with
  | Some f => py_str f
  | None => "None"
  end.

(** [load_ledger_entries]; signals of the table are blocked while it is
    filled, so no slot runs. *)
Definition load_ledger_entries (st : App) : App :=
  let ledger_name := Py.strip (ledger_combo st) in
  if negb (Py.truthy ledger_name) then set_ledger_table [] st
  else
    match Sql.ledger_id_by_name ledger_name (db st) with
    | None => set_ledger_table [] st
    | Some lid =>
        set_ledger_table
          (map (fun r => mkLedgerRow (le_entry_date r) (le_particulars r)
                           (cell_text (le_bill_amount r)) (cell_text (le_paid r))
                           (cell_text (le_remaining r)))
               (Sql.entries_of_ledger lid (db st)))
          st
    end.

(** [add_ledger_entry] *)
Definition add_ledger_entry (today : string) (st : App) : App :=
  let ledger_name := Py.strip (ledger_combo st) in
  if negb (Py.truthy ledger_name)
  then show [Warning "Ledger" "Select or create a ledger first."] st
  else
    match Sql.ledger_id_by_name ledger_name (db st) with
    | None => show [Warning "Ledger" "Save ledger first."] st
    | Some lid => load_ledger_entries (set_db (Sql.insert_ledger_entry lid today (db st)) st)
    end.

(** The body of [ledger_cell_changed(row, col)], run once.  The flag of the
    result tells whether the final [setText] has changed the text of the
    remaining cell: the item reports a change of its text only when the
    new text differs from the old one. *)
Definition ledger_cell_run (row : Z) (st : App) : App * bool :=
  let ledger_name := Py.strip (ledger_combo st) in
  match Sql.ledger_id_by_name ledger_name (db st) with
  | None => (st, false)
  | Some lid =>
      match Sql.entry_id_at lid row (db st) with
      | None => (st, false)
      | Some entry_id =>
          match table_row row st with
          | None => (show [Raised Py.AttributeError] st, false)
          | Some cells =>
              match py_float (cell_bill cells) with
              | None => (show [Warning "Ledger" "Enter valid numbers."] st, false)
              | Some bill =>
                  match py_float (cell_paid cells) with
                  | None => (show [Warning "Ledger" "Enter valid numbers."] st, false)
                  | Some paid =>
                      let rem := (bill - paid)%float in
                      let d := Sql.update_ledger_entry (cell_date cells)
                                 (cell_particulars cells) bill paid rem entry_id (db st) in
                      (set_ledger_table
                         (set_remaining (Z.to_nat row) (py_str rem) (ledger_table st))
                         (set_db d st),
                       negb (py_str rem =? cell_remaining cells)%string)
                  end
              end
          end
      end
  end.

(** [ledger_cell_changed(row, col)] as the table's [cellChanged] signal
    runs it.  Unlike [load_ledger_entries] the slot does not block the
    signals of the table around its [setText]: when the text of the
    remaining cell changes, [cellChanged(row, 4)] is emitted inside the
    first run and the slot runs a second time for the same row, on the
    database and the table the first run has left.  The second run sets the
    same text again, which emits nothing (see [nested_run_is_the_last]). *)
Definition ledger_cell_changed (row col : Z) (st : App) : App :=
  let '(st1, emitted) := ledger_cell_run row st in
  if emitted then fst (ledger_cell_run row st1) else st1.

End LedgerTab.

(** [get_setting(k, default)] *)
Definition get_setting (k default : string) (s : Settings) : string :=
  match setting_row k s with
  | Some v => v
  | None => default
  end.

(** The dark mode [__init__] starts with: [bool(int(get_setting('dark_mode')))],
    replaced by the theme the system reports unless
    [int(get_setting('dark_mode_override', '0'))] is non-zero.  [py_int] is
    the built-in [int] on texts ([None] for [ValueError], which ends
    [__init__]), [detected] the answer of [detect_system_theme]. *)
Definition startup_dark_mode (py_int : string -> option Z) (detected : bool) (s : Settings)
  : option bool :=
  match py_int (get_setting "dark_mode" "" s) with
  | None => None
  | Some n =>
      let dark_mode := negb (n =? 0) in
      match py_int (get_setting "dark_mode_override" "0" s) with
      | None => None
      | Some o => Some (if o =? 0 then detected else dark_mode)
      end
  end.

(** [refresh_cart]: the Line Total column of the cart table and the four
    labels. *)
Definition refresh_cart (st : App) : list float * Labels :=
  let '(subtotal, tax) :=
    fold_left (fun (acc : float * float) item =>
                 let '(subtotal, tax) := acc in
                 ((subtotal + item_price item * Py.float_of_int (item_qty item))%float,
                  (tax + item_price item * Py.float_of_int (item_qty item) * item_tax_rate item
                         / Py.float_of_int 100)%float))
              (cart st) (Py.float_of_int 0, Py.float_of_int 0) in
  let discount := (subtotal * discount_percent st / Py.float_of_int 100)%float in
  let total := (subtotal - discount + tax)%float in
  (map (fun item => (item_price item * Py.float_of_int (item_qty item))%float) (cart st),
   mkLabels subtotal discount tax total).

(** [_make_pdf(path, inv_id, inv_num, date, cust_name, cust_phone)]: what is
    drawn, or the [TypeError] of subscripting a missing invoice row. *)
Definition _make_pdf (s : Settings) (inv_id : Z) (inv_num date cust_name cust_phone : string)
    (d : DB) : Py.exn + Pdf :=
  let store_name := get_setting "store_name" "" s in
  let store_addr := get_setting "store_address" "" s in
  let store_email := get_setting "store_email" "" s in
  let store_phone := get_setting "store_phone" "" s in
  let items := Sql.join_products (Sql.items_of_invoice inv_id d) (products d) in
  match Sql.invoice_by_id inv_id d with
  | None => inl Py.TypeError
  | Some inv =>
      let lines :=
        map (fun r : InvoiceItem * Product =>
               let '(it, p) := r in
               mkPdfLine (p_name p) (ii_quantity it) (ii_price it)
                         (ii_price it * Py.float_of_int (ii_quantity it))%float)
            items in
      let subtotal := Py.add_up (map line_total lines) in
      inr (mkPdf store_name cust_name cust_phone
             (Py.replace_char (ascii_of_nat 10) ", " store_addr)
             inv_num date date lines subtotal
             (if (0 <? i_discount_percent inv)%float
              then Some (i_discount_name inv,
                         (subtotal * i_discount_percent inv / Py.float_of_int 100)%float)
              else None)
             (i_tax inv) (i_total inv) store_email store_phone)
  end.

(** The PDF [save_invoice] writes once the invoice [inv_id] is stored and a
    file has been chosen: [_make_pdf(file_path, inv_id, inv_num, date_str,
    cust_name or inv_num, cust_phone or "")] with the fields as they were
    when the button was pressed. *)
Definition saved_pdf (s : Settings) (inv_id : Z) (before after : App) : Py.exn + Pdf :=
  _make_pdf s inv_id (inv_lbl_num before) (inv_date before)
            (Py.or_else (Py.strip (cust_name before)) (inv_lbl_num before))
            (Py.or_else (Py.strip (cust_phone before)) "")
            (db after).

(** The query of [load_history]: every invoice LEFT JOINed with its
    customer, [COALESCE(c.name, i.invoice_number)] as the customer column,
    newest first.  [populate_history] shows one table row per result row. *)
Definition load_history (d : DB) : list HistoryRow :=
  order_rows newer
    (flat_map (fun i => match customers_of i d with
                        | [] => [history_row i (i_invoice_number i)]
                        | cs => map (fun c => history_row i (c_name c)) cs
                        end)
              (invoices d)).

(** [add_product_dialog]: [accepted] is the dialog's result, the other
    arguments its fields. *)
Definition add_product_dialog (accepted : bool) (name cat : string) (price cost_price : float)
    (stock : Z) (tax : float) (barcode desc : string) (st : App) : App :=
  if accepted then
    match Sql.insert_product name cat price cost_price stock tax barcode desc (db st) with
    | Some d => set_db d st
    | None => show [Raised Py.IntegrityError] st
    end
  else st.

(** [add_customer_dialog] *)
Definition add_customer_dialog (accepted : bool) (name phone email addr : string) (st : App)
  : App :=
  if accepted then
    match Sql.insert_customer_contact name phone email addr (db st) with
    | Some d => set_db d st
    | None => show [Raised Py.IntegrityError] st
    end
  else st.

Section LedgerAccounts.

Variable py_str : float -> string.

(** [add_ledger].  After the INSERT the combo is filled again and set to the
    new name, and the slot of its text change loads that ledger's table. *)
Definition add_ledger (st : App) : App :=
  let name := Py.strip (ledger_combo st) in
  if negb (Py.truthy name) then show [Warning "Ledger" "Name cannot be empty."] st
  else
    match Sql.insert_ledger name (db st) with
    | Some d => load_ledger_entries py_str (set_ledger_combo name (set_db d st))
    | None => show [Warning "Ledger" "Ledger already exists."] st
    end.

(** [save_ledger] *)
Definition save_ledger (st : App) : App :=
  let ledger_name := Py.strip (ledger_combo st) in
  if negb (Py.truthy ledger_name) then st
  else show [Information "Ledger" "Ledger saved."] (add_ledger st).

End LedgerAccounts.

End AnotherUp.

(** ** [app.py] *)

Module AppPy.

(** [save_invoice(mode)].  [app.py] has a backslash inside a replacement
    field of an f-string (line 378), which is a syntax error before
    CPython 3.12: the file runs from 3.12 on only, so its [sum] is the
    compensated one whatever [py] says. *)
Definition save_invoice (mode file_path fresh_num : string) (st : App) : App :=
  match cart st with
  | [] => show [Warning "Empty" "Cart is empty."] st
  | _ :: _ =>
      let inv_num := inv_lbl_num st in
      let date := inv_date st in
      let cust_name := cust_name st in
      let cust_phone := cust_phone st in
      let '(d1, cust_id) := resolve_customer cust_name cust_phone (db st) in
      let subtotal := cart_subtotal Py.From312 (cart st) in
      let tax := cart_tax Py.From312 (cart st) in
      let discount := discount_amount subtotal (discount_percent st) in
      let total := grand_total subtotal discount tax in
      match Sql.insert_invoice inv_num date cust_id subtotal (discount_name st)
              (discount_percent st) tax total d1 with
      | None => show [Raised Py.IntegrityError] (set_db d1 st)
      | Some (d2, inv_id) =>
          let d3 := record_lines inv_id (cart st) d2 in
          let d4 :=
            match cust_id with
            | Some k => if k =? 0 then d3 else Sql.update_customer_purchases total date k d3
            | None => d3
            end in
          let st4 := set_db d4 st in
          if negb (Py.truthy file_path) then st4
          else
            reset_billing fresh_num
              (show ([PdfWritten file_path inv_id]
                       ++ (if (mode =? "print")%string then [PrintDialog file_path] else [])
                       ++ [Information "Saved"
                             ("Invoice saved at" ++ String (ascii_of_nat 10) file_path)])
                    st4)
      end
  end.

(** [open_history_pdf]: the invoice is read and drawn by [generate_pdf];
    nothing is written. *)
Definition open_history_pdf (selected : option string) (path : string) (st : App) : App :=
  match selected with
  | None => st
  | Some inv_num =>
      match Sql.invoice_by_number inv_num (db st) with
      | None => show [Raised Py.TypeError] st
      | Some inv =>
          if negb (Py.truthy path) then st
          else show [PdfWritten path (i_id inv); Information "PDF" "History bill saved."] st
      end
  end.

(** [get_setting(k, default)]: [fetchone()['value'] or default]; a missing
    row is a [TypeError], an empty value gives the default. *)
Definition get_setting (k default : string) (s : Settings) : Py.exn + string :=
  match setting_row k s with
  | None => inl Py.TypeError
  | Some v => inr (Py.or_else v default)
  end.

(** The query of [load_history]: the invoices JOINed with their customer,
    by date, newest first. *)
Definition load_history (d : DB) : list HistoryRow :=
  order_rows newer_date
    (flat_map (fun i => map (fun c => history_row i (c_name c)) (customers_of i d))
              (invoices d)).

(** The dark mode [__init__] starts with: [bool(int(get_setting('dark_mode')))];
    [None] when [get_setting] or [int] raises. *)
Definition startup_dark_mode (py_int : string -> option Z) (s : Settings) : option bool :=
  match get_setting "dark_mode" "" s with
  | inl _ => None
  | inr text => option_map (fun n => negb (n =? 0)) (py_int text)
  end.

End AppPy.

(** ** Reading an invoice back *)

(** What was sold on a line: product, quantity, unit price, cost, tax rate. *)
Definition Sold : Type := (Z * Z * float * float * float)%type.

Definition sold_of_cart (i : CartItem) : Sold :=
  (item_id i, item_qty i, item_price i, item_cost_price i, item_tax_rate i).

Definition sold_of_item (it : InvoiceItem) : Sold :=
  (ii_product_id it, ii_quantity it, ii_price it, ii_cost_price it, ii_tax_rate it).

(** The stored line total, as the PDF routines add it up:
    [it['price'] * it['quantity']]. *)
Definition item_amount (it : InvoiceItem) : float :=
  (ii_price it * Py.float_of_int (ii_quantity it))%float.

(** The invoice of a given number with its [invoice_items] rows: the
    [SELECT * FROM invoices WHERE invoice_number=?] of [open_history_pdf]
    followed by the rows [WHERE invoice_id=?]. *)
Definition reload_invoice (num : string) (d : DB) : option (Invoice * list InvoiceItem) :=
  match Sql.invoice_by_number num d with
  | Some inv => Some (inv, Sql.items_of_invoice (i_id inv) d)
  | None => None
  end.

(** ** The totals as the specification writes them *)

(** Written after the specification, to be compared with what the code
    stores: the sums and the total in exact arithmetic over the numbers the
    prices, rates and percent stand for, and the tolerance of 1e-6.  (A
    float that stands for no number counts as 0.) *)
Module Claimed.

Definition number (x : float) : Q :=
  match Py.exact x with Some q => q | None => 0%Q end.

(** Σ(unit_price × quantity) over the lines of a cart. *)
Definition subtotal (c : list CartItem) : Q :=
  fold_right Qplus 0%Q
    (map (fun i => (number (item_price i) * inject_Z (item_qty i))%Q) c).

(** Σ(unit_price × quantity × tax_rate / 100), on the amount before
    discount. *)
Definition tax (c : list CartItem) : Q :=
  fold_right Qplus 0%Q
    (map (fun i => (number (item_price i) * inject_Z (item_qty i) * number (item_tax_rate i)
                    / inject_Z 100)%Q) c).

(** subtotal − subtotal·d/100 + tax. *)
Definition total (c : list CartItem) (d : float) : Q :=
  (subtotal c - subtotal c * number d / inject_Z 100 + tax c)%Q.

Definition tolerance : Q := (1 # 1000000)%Q.

(** The three stored amounts of an invoice row are within the tolerance of
    the formulas. *)
Definition totals_hold (c : list CartItem) (d : float) (row : Invoice) : bool :=
  Py.within tolerance (i_subtotal row) (subtotal c)
  && Py.within tolerance (i_tax row) (tax c)
  && Py.within tolerance (i_total row) (total c d).

(** Σ(invoice_item.price × invoice_item.quantity) over stored line items. *)
Definition items_sum (rows : list InvoiceItem) : Q :=
  fold_right Qplus 0%Q
    (map (fun it => (number (ii_price it) * inject_Z (ii_quantity it))%Q) rows).

(** The stored subtotal is that sum. *)
Definition items_sum_is (rows : list InvoiceItem) (row : Invoice) : bool :=
  match Py.exact (i_subtotal row) with
  | Some r => Qeq_bool r (items_sum rows)
  | None => false
  end.

End Claimed.

(** ** Integrity of the stored rows *)

(** What the schema and the handlers keep true of the stored rows: a line
    item belongs to an invoice id that was handed out, ledger entry ids are
    unique (PRIMARY KEY) and never above the AUTOINCREMENT counter, customer
    phones are UNIQUE. *)
Record db_wf (d : DB) : Prop := mk_db_wf {
  wf_item_invoice : forall it, In it (invoice_items d) -> ii_invoice_id it <= seq_invoices d;
  wf_entry_ids : NoDup (map le_id (ledger_entries d));
  wf_entry_seq : forall e, In e (ledger_entries d) -> le_id e <= seq_ledger_entries d;
  wf_phone_unique : NoDup (map c_phone (customers d))
}.

(** Keys: rowids are unique and were handed out by the table's counter
    (INTEGER PRIMARY KEY AUTOINCREMENT, from 1 on); invoice numbers and
    ledger names are UNIQUE. *)
Record db_keys (d : DB) : Prop := mk_db_keys {
  k_products : NoDup (map p_id (products d));
  k_products_seq : forall p, In p (products d) -> p_id p <= seq_products d;
  k_customers : NoDup (map c_id (customers d));
  k_customers_seq : forall c, In c (customers d) -> 0 < c_id c <= seq_customers d;
  k_customers_seq0 : 0 <= seq_customers d;
  k_invoices : NoDup (map i_id (invoices d));
  k_invoices_seq : forall i, In i (invoices d) -> i_id i <= seq_invoices d;
  k_invoice_numbers : NoDup (map i_invoice_number (invoices d));
  k_ledgers : NoDup (map l_name (ledgers d));
  k_ledgers_seq : forall l, In l (ledgers d) -> l_id l <= seq_ledgers d
}.

(** References: a line item belongs to a stored invoice, a ledger entry to
    a stored ledger.  The schema declares no foreign key. *)
Record db_refs (d : DB) : Prop := mk_db_refs {
  r_items : forall it, In it (invoice_items d) -> In (ii_invoice_id it) (map i_id (invoices d));
  r_entries : forall e, In e (ledger_entries d) -> In (le_ledger_id e) (map l_id (ledgers d))
}.

(** The order of [ORDER BY entry_date]. *)
Definition date_le (a b : LedgerEntry) : Prop :=
  (le_entry_date a <=? le_entry_date b)%string = true.

(** Every ledger entry whose bill and paid amounts hold numbers has the
    difference as its remaining amount, stored as a float is stored. *)
Definition balanced (d : DB) : Prop :=
  forall e, In e (ledger_entries d) ->
    forall bill paid, le_bill_amount e = Some bill -> le_paid e = Some paid ->
      le_remaining e = Sql.real (bill - paid)%float.

(** The four conditions together. *)
Definition sound (d : DB) : Prop := db_wf d /\ db_keys d /\ db_refs d /\ balanced d.

(** At most one cart line per product. *)
Definition one_line_per_product (c : list CartItem) : Prop := NoDup (map item_id c).

(** ** The handlers as user actions *)

Inductive Action :=
| AddToCart (selected : option Product) (qty : Z) (ok : bool)
| RemoveFromCart (row : nat)
| SaveInvoice (mode file_path fresh_num : string)
| OpenHistoryPdf (selected : option string) (path : string)
| DeleteProduct (selected : option (Z * string)) (reply : Reply)
| DeleteInvoice (inv_id : Z) (reply : Reply)
| DeleteLedgerEntry (entry_id : Z) (row : nat)
| LoadLedgerEntries
| AddLedgerEntry (today : string)
| LedgerCellChanged (row col : Z).

Section Run.

Variable py_float : string -> option float.
Variable py_str : float -> string.

Definition run (a : Action) (st : App) : App :=
  match a with
  | AddToCart selected qty ok => add_to_cart selected qty ok st
  | RemoveFromCart row => remove_from_cart row st
  | SaveInvoice mode file_path fresh_num => AnotherUp.save_invoice mode file_path fresh_num st
  | OpenHistoryPdf selected path => AnotherUp.open_history_pdf selected path st
  | DeleteProduct selected reply => AnotherUp.delete_product selected reply st
  | DeleteInvoice inv_id reply => AnotherUp.delete_invoice inv_id reply st
  | DeleteLedgerEntry entry_id row => AnotherUp.delete_ledger_entry entry_id row st
  | LoadLedgerEntries => AnotherUp.load_ledger_entries py_str st
  | AddLedgerEntry today => AnotherUp.add_ledger_entry py_str today st
  | LedgerCellChanged row col => AnotherUp.ledger_cell_changed py_float py_str row col st
  end.

Definition run_all (actions : list Action) (st : App) : App :=
  fold_left (fun s a => run a s) actions st.

End Run.

(** What happens to the settings table over the life of the database file:
    a start of the program runs the schema script, the settings tab saves. *)
Inductive SettingsEvent :=
| Start
| SaveSettings (store_name store_addr store_email store_phone : string) (dark_mode : bool).

Definition settings_step (s : Settings) (e : SettingsEvent) : Settings :=
  match e with
  | Start => seed_settings s
  | SaveSettings store_name store_addr store_email store_phone dark_mode =>
      save_settings store_name store_addr store_email store_phone dark_mode s
  end.

(** The table after the events, from a new database file; the program has
    started before anything else happens. *)
Definition settings_after (events : list SettingsEvent) : Settings :=
  fold_left settings_step events (seed_settings []).

(** A cell of the ledger table typed over by the user (columns 0 to 3; the
    remaining column is not editable). *)
Definition type_cell (col : Z) (text : string) (r : LedgerRow) : LedgerRow :=
  if col =? 0 then mkLedgerRow text (cell_particulars r) (cell_bill r) (cell_paid r) (cell_remaining r)
  else if col =? 1 then mkLedgerRow (cell_date r) text (cell_bill r) (cell_paid r) (cell_remaining r)
  else if col =? 2 then mkLedgerRow (cell_date r) (cell_particulars r) text (cell_paid r) (cell_remaining r)
  else if col =? 3 then mkLedgerRow (cell_date r) (cell_particulars r) (cell_bill r) text (cell_remaining r)
  else r.

Fixpoint type_row (row : nat) (col : Z) (text : string) (t : list LedgerRow) : list LedgerRow :=
  match row, t with
  | _, [] => []
  | O, r :: rest => type_cell col text r :: rest
  | S k, r :: rest => r :: type_row k col text rest
  end.

(** The handlers of the billing, history and ledger tabs together with
    those of the other tabs and with what the user types. *)
Inductive Command :=
| Handler (a : Action)
| FillBilling (date name phone dname : string) (dpercent : float)
| TypeLedger (text : string)
| TypeCell (row : nat) (col : Z) (text : string)
| AddLedger
| SaveLedger
| AddProduct (accepted : bool) (name cat : string) (price cost_price : float) (stock : Z)
    (tax : float) (barcode desc : string)
| AddCustomer (accepted : bool) (name phone email addr : string).

Section Exec.

Variable py_float : string -> option float.
Variable py_str : float -> string.

Definition exec (c : Command) (st : App) : App :=
  match c with
  | Handler a => run py_float py_str a st
  | FillBilling date name phone dname dpercent => fill_billing date name phone dname dpercent st
  | TypeLedger text =>
      (* currentTextChanged is connected to load_ledger_entries *)
      AnotherUp.load_ledger_entries py_str (set_ledger_combo text st)
  | TypeCell row col text =>
      (* cellChanged is connected to ledger_cell_changed *)
      AnotherUp.ledger_cell_changed py_float py_str (Z.of_nat row) col
        (set_ledger_table (type_row row col text (ledger_table st)) st)
  | AddLedger => AnotherUp.add_ledger py_str st
  | SaveLedger => AnotherUp.save_ledger py_str st
  | AddProduct accepted name cat price cost_price stock tax barcode desc =>
      AnotherUp.add_product_dialog accepted name cat price cost_price stock tax barcode desc st
  | AddCustomer accepted name phone email addr =>
      AnotherUp.add_customer_dialog accepted name phone email addr st
  end.

Definition exec_all (commands : list Command) (st : App) : App :=
  fold_left (fun s c => exec c s) commands st.

End Exec.

(** The three destructive handlers, each run against the answer the user
    gives to a confirmation box. *)
Inductive Destructive :=
| Delete_product (selected : option (Z * string))
| Delete_invoice (inv_id : Z)
| Delete_ledger_entry (entry_id : Z) (row : nat).

Definition destroy (op : Destructive) (reply : Reply) (st : App) : App :=
  match op with
  | Delete_product selected => AnotherUp.delete_product selected reply st
  | Delete_invoice inv_id => AnotherUp.delete_invoice inv_id reply st
  | Delete_ledger_entry entry_id row => AnotherUp.delete_ledger_entry entry_id row st
  end.

(** ** Sample data *)

Module Sample.

Definition tshirt : Product := mkProduct 1 "T-shirt" "tops" 100 60 10 18 "890001" "".
Definition jeans : Product := mkProduct 2 "Jeans" "bottoms" 250 150 5 12 "890002" "".

Definition stocked : DB :=
  mkDB [tshirt; jeans] [] [] [] [] [] 2 0 0 0 0 0.

(** Two T-shirts in the cart, a 10 % discount, no customer. *)
Definition billing : App :=
  mkApp Py.Before312 stocked [mkCartItem 1 "T-shirt" 100 60 18 2] "AB12CD34" "2024-05-01"
        "" "" "SALE" 10 "" [] [].

(** The same cart for a customer who is not on file. *)
Definition billing_new_customer : App :=
  mkApp Py.Before312 stocked [mkCartItem 1 "T-shirt" 100 60 18 2] "AB12CD34" "2024-05-01"
        " Asha " " 5550100 " "SALE" 10 "" [] [].

Definition saved : App := AnotherUp.save_invoice "save" "" "0F0F0F0F" billing.

(** Two bolts of cloth of the highest price range, sold by the thousand.
    The prices are the binary64 numbers next to 913436.29 and 925506.65. *)
Definition wholesale (v : Py.version) : App :=
  mkApp v
        (mkDB [mkProduct 1 "Silk" "cloth" 0x1.be038947ae148p+19 800000 9999 5 "890003" "";
               mkProduct 2 "Wool" "cloth" 0x1.c3e854ccccccdp+19 800000 9999 12 "890004" ""]
              [] [] [] [] [] 2 0 0 0 0 0)
        [mkCartItem 1 "Silk" 0x1.be038947ae148p+19 800000 5 9867;
         mkCartItem 2 "Wool" 0x1.c3e854ccccccdp+19 800000 12 9507]
        "AB12CD34" "2024-05-01" "" "" "BULK" 10 "" [] [].

(** Three small items under CPython 3.12 or later; the prices are the
    binary64 numbers next to 0.1, 0.2 and 0.3. *)
Definition small_change : App :=
  mkApp Py.From312
        (mkDB [mkProduct 1 "Button" "notions" 0x1.999999999999ap-4 0 50 0 "890005" "";
               mkProduct 2 "Thread" "notions" 0x1.999999999999ap-3 0 50 0 "890006" "";
               mkProduct 3 "Needle" "notions" 0x1.3333333333333p-2 0 50 0 "890007" ""]
              [] [] [] [] [] 3 0 0 0 0 0)
        [mkCartItem 1 "Button" 0x1.999999999999ap-4 0 0 1;
         mkCartItem 2 "Thread" 0x1.999999999999ap-3 0 0 1;
         mkCartItem 3 "Needle" 0x1.3333333333333p-2 0 0 1]
        "AB12CD34" "2024-05-01" "" "" "" 0 "" [] [].

(** The sample cart for a customer who was entered on the customers tab
    with a blank after the number; the phone is typed the same way on the
    billing tab. *)
Definition padded : App :=
  fill_billing "2024-05-01" "Asha" "5550100 " "SALE" 10
    (AnotherUp.add_customer_dialog true "Asha" "5550100 " "" "" billing).

(** [float(text)] on a string of decimal digits. *)
Fixpoint digits (acc : Z) (s : string) : option Z :=
  match s with
  | EmptyString => Some acc
  | String c s' =>
      let n := Z.of_nat (nat_of_ascii c) in
      if (48 <=? n) && (n <=? 57) then digits (10 * acc + (n - 48)) s' else None
  end.

Definition float_of_digits (s : string) : option float :=
  match s with
  | EmptyString => None
  | _ => option_map Py.float_of_int (digits 0 s)
  end.

Definition no_text (x : float) : string := "".

(** [int(text)] on a string of decimal digits. *)
Definition int_of_digits (s : string) : option Z :=
  match s with
  | EmptyString => None
  | _ => digits 0 s
  end.

(** A ledger with two entries; the table shows the second one edited to
    bill 500, paid 200. *)
Definition books : App :=
  mkApp Py.Before312 (mkDB [] [] [] [] [mkLedger 1 "Supplier"]
           [mkLedgerEntry 1 1 "2024-05-02" "cloth" (Some 0%float) (Some 0%float) (Some 0%float);
            mkLedgerEntry 2 1 "2024-05-01" "thread" (Some 0%float) (Some 0%float) (Some 0%float)]
           0 0 0 0 1 2)
        [] "AB12CD34" "2024-05-03" "" "" "" 0 "Supplier"
        [mkLedgerRow "2024-05-01" "thread" "500" "200" "0.0";
         mkLedgerRow "2024-05-02" "cloth" "0.0" "0.0" "0.0"]
        [].

(** [str(x)] on the floats of the samples: a whole number that is not
    negative reads as its decimal digits followed by [.0], an infinity as
    [inf], a NaN as [nan]. *)
Definition text_of_float (x : float) : string :=
  match Prim2SF x with
  | S754_zero _ => "0.0"
  | S754_finite false m e =>
      let n := if 0 <=? e then Z.shiftl (Z.pos m) e else Z.shiftr (Z.pos m) (- e) in
      (NilZero.string_of_int (Z.to_int n) ++ ".0")%string
  | S754_finite true _ _ => "-"
  | S754_infinity false => "inf"
  | S754_infinity true => "-inf"
  | S754_nan => "nan"
  end.

(** The text before a final [.0]. *)
Fixpoint whole_part (s : string) : string :=
  match s with
  | EmptyString => EmptyString
  | String c s' => if (s =? ".0")%string then EmptyString else String c (whole_part s')
  end.

(** [float(text)] on the texts of the samples: decimal digits, with or
    without a final [.0], and [inf]. *)
Definition float_of_text (s : string) : option float :=
  if (s =? "inf")%string then Some infinity else float_of_digits (whole_part s).

(** The ledger of a supplier with two entries, as [load_ledger_entries]
    shows it. *)
Definition ledger_loaded : App :=
  AnotherUp.load_ledger_entries text_of_float
    (mkApp Py.Before312
       (mkDB [] [] [] [] [mkLedger 1 "Supplier"]
          [mkLedgerEntry 1 1 "2024-05-01" "cloth" (Some 0%float) (Some 0%float) (Some 0%float);
           mkLedgerEntry 2 1 "2024-05-02" "thread" (Some 0%float) (Some 0%float) (Some 0%float)]
          0 0 0 0 1 2)
       [] "AB12CD34" "2024-05-03" "" "" "" 0 "Supplier" [] []).

(** A text [float] reads back as zero, standing for [str(x)] where the
    amounts shown are the zeros of a new entry. *)
Definition zero_text (x : float) : string := "0".

(** The sample cart for a customer who is on file. *)
Definition regular : App :=
  mkApp Py.Before312 (mkDB [tshirt; jeans] [mkCustomer 1 "Asha" "5550100" None None 50 None] [] [] [] []
           2 1 0 0 0 0)
        [mkCartItem 1 "T-shirt" 100 60 18 2] "AB12CD34" "2024-05-01"
        "Asha" "5550100" "SALE" 10 "" [] [].

(** A session on a new database: a product is entered and sold to a new
    customer, a ledger is opened, an entry is added and its bill typed in. *)
Definition session : list Command :=
  [AddProduct true "T-shirt" "tops" 100 60 10 18 "890001" "";
   Handler (AddToCart (Some tshirt) 2 true);
   FillBilling "2024-05-01" "Asha" "5550100" "SALE" 10;
   Handler (SaveInvoice "save" "" "0F0F0F0F");
   TypeLedger "Supplier";
   AddLedger;
   Handler (AddLedgerEntry "2024-05-02");
   TypeCell 0 2 "500"].

End Sample.

(** The quantity of a product on the lines of a cart. *)
Fixpoint sold_qty (prod_id : Z) (c : list CartItem) : Z :=
  match c with
  | [] => 0
  | i :: rest => (if item_id i =? prod_id then item_qty i else 0) + sold_qty prod_id rest
  end.

(** * Properties *)

(** ** What each statement leaves alone *)

Lemma find_app_none {A : Type} (f : A -> bool) (l l' : list A) :
  find f l = None -> find f (l ++ l') = find f l'.
Proof.
  induction l as [|x l IH]; simpl; [reflexivity|].
  destruct (f x); [discriminate | exact IH].
Qed.

Lemma resolve_customer_frame (name phone : string) (d : DB) :
  let d' := fst (resolve_customer name phone d) in
  products d' = products d /\ invoices d' = invoices d /\
  invoice_items d' = invoice_items d /\ seq_invoices d' = seq_invoices d /\
  ledger_entries d' = ledger_entries d.
Proof.
  unfold resolve_customer.
  destruct (Py.truthy phone); [|simpl; tauto].
  destruct (Sql.customer_id_by_phone phone d); simpl; tauto.
Qed.

Lemma insert_invoice_fresh (num date : string) (c : option Z) (s : float) (dn : string)
    (dp t tot : float) (d : DB) :
  Sql.invoice_by_number num d = None ->
  exists d2,
    Sql.insert_invoice num date c s dn dp t tot d = Some (d2, seq_invoices d + 1) /\
    invoices d2 = invoices d ++ [mkInvoice (seq_invoices d + 1) num date c s dn dp t tot] /\
    seq_invoices d2 = seq_invoices d + 1 /\
    products d2 = products d /\ customers d2 = customers d /\
    invoice_items d2 = invoice_items d /\ ledger_entries d2 = ledger_entries d.
Proof.
  intros Hfree. unfold Sql.insert_invoice. rewrite Hfree.
  eexists. split; [reflexivity|]. simpl. tauto.
Qed.

Lemma record_line_frame (inv_id : Z) (d : DB) (item : CartItem) :
  let d' := record_line inv_id d item in
  invoices d' = invoices d /\ customers d' = customers d /\
  seq_invoices d' = seq_invoices d /\ ledger_entries d' = ledger_entries d.
Proof. simpl. tauto. Qed.

Lemma record_lines_frame (inv_id : Z) (c : list CartItem) (d : DB) :
  invoices (record_lines inv_id c d) = invoices d /\
  customers (record_lines inv_id c d) = customers d /\
  seq_invoices (record_lines inv_id c d) = seq_invoices d /\
  ledger_entries (record_lines inv_id c d) = ledger_entries d /\
  seq_ledger_entries (record_lines inv_id c d) = seq_ledger_entries d.
Proof.
  unfold record_lines. revert d.
  induction c as [|item c IH]; intro d; simpl; [tauto|].
  destruct (IH (record_line inv_id d item)) as (H1 & H2 & H3 & H4 & H5).
  rewrite H1, H2, H3, H4, H5. simpl. tauto.
Qed.

(** A save with lines in the cart and an unused invoice number goes through:
    the customer is resolved, the invoice row is inserted under the next
    rowid, the lines are recorded, the cart is emptied. *)
Lemma save_invoice_succeeds (mode path fresh : string) (st : App) :
  cart st <> [] ->
  Sql.invoice_by_number (inv_lbl_num st) (db st) = None ->
  exists d1 cust_id d2,
    resolve_customer (Py.strip (cust_name st)) (Py.strip (cust_phone st)) (db st)
      = (d1, cust_id) /\
    invoices d2 = invoices (db st) ++
      [mkInvoice (seq_invoices (db st) + 1) (inv_lbl_num st) (inv_date st) cust_id
         (cart_subtotal (py st) (cart st)) (discount_name st) (discount_percent st)
         (cart_tax (py st) (cart st))
         (grand_total (cart_subtotal (py st) (cart st))
            (discount_amount (cart_subtotal (py st) (cart st)) (discount_percent st))
            (cart_tax (py st) (cart st)))] /\
    seq_invoices d2 = seq_invoices (db st) + 1 /\
    products d2 = products (db st) /\ customers d2 = customers d1 /\
    invoice_items d2 = invoice_items (db st) /\
    ledger_entries d2 = ledger_entries (db st) /\
    db (AnotherUp.save_invoice mode path fresh st)
      = record_lines (seq_invoices (db st) + 1) (cart st) d2 /\
    cart (AnotherUp.save_invoice mode path fresh st) = [].
Proof.
  intros Hcart Hfree. unfold AnotherUp.save_invoice.
  destruct (cart st) as [|line rest] eqn:Ec; [congruence|].
  pose proof (resolve_customer_frame (Py.strip (cust_name st)) (Py.strip (cust_phone st)) (db st))
    as Hframe.
  destruct (resolve_customer _ _ (db st)) as [d1 cust_id].
  simpl in Hframe. destruct Hframe as (Hp & Hi & Hit & Hs & Hle).
  assert (Hfree1 : Sql.invoice_by_number (inv_lbl_num st) d1 = None).
  { unfold Sql.invoice_by_number in *. rewrite Hi. exact Hfree. }
  destruct (insert_invoice_fresh (inv_lbl_num st) (inv_date st) cust_id
              (cart_subtotal (py st) (line :: rest)) (discount_name st) (discount_percent st)
              (cart_tax (py st) (line :: rest))
              (grand_total (cart_subtotal (py st) (line :: rest))
                 (discount_amount (cart_subtotal (py st) (line :: rest)) (discount_percent st))
                 (cart_tax (py st) (line :: rest))) d1 Hfree1)
    as (d2 & Hins & Hinv & Hseq & Hp2 & Hc2 & Hit2 & Hle2).
  rewrite Hins. rewrite Hs in *. rewrite Hi in Hinv.
  exists d1, cust_id, d2.
  repeat split; try congruence.
  destruct (Py.truthy path); reflexivity.
Qed.

(** ** Empty cart *)

(** C4. With an empty cart [save_invoice] writes nothing: the database
    (invoices, invoice items, customers, stock) and every field of the window
    are as before, and the only effect is the warning box "Cart is empty.". *)
Theorem save_invoice_empty_cart (mode path fresh : string) (st : App) :
  cart st = [] ->
  db (AnotherUp.save_invoice mode path fresh st) = db st /\
  AnotherUp.save_invoice mode path fresh st = show [Warning "Empty" "Cart is empty."] st /\
  log (AnotherUp.save_invoice mode path fresh st) = log st ++ [Warning "Empty" "Cart is empty."].
Proof.
  intro Hc. unfold AnotherUp.save_invoice. rewrite Hc. simpl. auto.
Qed.

Lemma save_invoice_empty_cart_witness :
  let st := initial Py.Before312 "AB12CD34" "2024-05-01" in
  cart st = [] /\
  db (AnotherUp.save_invoice "save" "out.pdf" "0F0F0F0F" st) = empty_db.
Proof.
  split; [reflexivity|].
  exact (proj1 (save_invoice_empty_cart "save" "out.pdf" "0F0F0F0F"
                  (initial Py.Before312 "AB12CD34" "2024-05-01") eq_refl)).
Defined.

(** ** Totals *)

Lemma update_customer_purchases_invoices (amount : float) (date : string) (k : Z) (d : DB) :
  invoices (Sql.update_customer_purchases amount date k d) = invoices d.
Proof. reflexivity. Qed.

(** The invoice row [app.py] stores is the one [another-up.py] stores. *)
Lemma app_save_invoice_invoices (mode path fresh : string) (st : App) :
  cart st <> [] ->
  Sql.invoice_by_number (inv_lbl_num st) (db st) = None ->
  exists cust_id,
    invoices (db (AppPy.save_invoice mode path fresh st)) = invoices (db st) ++
      [mkInvoice (seq_invoices (db st) + 1) (inv_lbl_num st) (inv_date st) cust_id
         (cart_subtotal Py.From312 (cart st)) (discount_name st) (discount_percent st)
         (cart_tax Py.From312 (cart st))
         (grand_total (cart_subtotal Py.From312 (cart st))
            (discount_amount (cart_subtotal Py.From312 (cart st)) (discount_percent st))
            (cart_tax Py.From312 (cart st)))].
Proof.
  intros Hcart Hfree. unfold AppPy.save_invoice.
  destruct (cart st) as [|line rest] eqn:Ec; [congruence|].
  pose proof (resolve_customer_frame (cust_name st) (cust_phone st) (db st)) as Hframe.
  destruct (resolve_customer _ _ (db st)) as [d1 cust_id].
  simpl in Hframe. destruct Hframe as (Hp & Hi & Hit & Hs & Hle).
  assert (Hfree1 : Sql.invoice_by_number (inv_lbl_num st) d1 = None).
  { unfold Sql.invoice_by_number in *. rewrite Hi. exact Hfree. }
  destruct (insert_invoice_fresh (inv_lbl_num st) (inv_date st) cust_id
              (cart_subtotal Py.From312 (line :: rest)) (discount_name st) (discount_percent st)
              (cart_tax Py.From312 (line :: rest))
              (grand_total (cart_subtotal Py.From312 (line :: rest))
                 (discount_amount (cart_subtotal Py.From312 (line :: rest)) (discount_percent st))
                 (cart_tax Py.From312 (line :: rest))) d1 Hfree1)
    as (d2 & Hins & Hinv & Hseq & _).
  rewrite Hins. rewrite Hs, Hi in Hinv. exists cust_id.
  destruct (record_lines_frame (seq_invoices (db st) + 1) (line :: rest) d2) as (Hri & _).
  rewrite Hs.
  assert (Hd4 : forall d4 : DB,
             invoices d4 = invoices (record_lines (seq_invoices (db st) + 1) (line :: rest) d2) ->
             invoices d4 = invoices (db st) ++
               [mkInvoice (seq_invoices (db st) + 1) (inv_lbl_num st) (inv_date st) cust_id
                  (cart_subtotal Py.From312 (line :: rest)) (discount_name st) (discount_percent st)
                  (cart_tax Py.From312 (line :: rest))
                  (grand_total (cart_subtotal Py.From312 (line :: rest))
                     (discount_amount (cart_subtotal Py.From312 (line :: rest)) (discount_percent st))
                     (cart_tax Py.From312 (line :: rest)))]).
  { intros d4 H4. rewrite H4, Hri. exact Hinv. }
  destruct (negb (Py.truthy path)); simpl; apply Hd4;
    destruct cust_id as [k|]; try reflexivity;
    destruct (k =? 0); reflexivity.
Qed.

(** C1 (amended). A save with lines in the cart stores one new invoice row
    whose subtotal is [sum] of unit price times quantity over the lines,
    whose tax is [sum] of the per-line tax on the undiscounted amount, and
    whose total is subtotal - subtotal * d / 100 + tax computed from the
    stored subtotal and tax, for every discount percent d.  Every product,
    quotient, sum and difference is the binary64 one, in the program's
    order, and [sum] is the one of the interpreter: of the interpreter the
    window runs under for [another-up.py], of CPython 3.12 or later for
    [app.py].  Nothing is rounded to cents and no bound of 1e-6 on the
    distance from the exact value is part of the statement: the cart that
    follows the witness is stored further away than that.  (A number that
    is already stored makes the INSERT raise; the hypothesis excludes it.) *)
Theorem save_invoice_totals (mode path fresh : string) (st : App) :
  cart st <> [] ->
  Sql.invoice_by_number (inv_lbl_num st) (db st) = None ->
  forall save v,
    (save = AnotherUp.save_invoice /\ v = py st) \/
    (save = AppPy.save_invoice /\ v = Py.From312) ->
  exists row,
    invoices (db (save mode path fresh st)) = invoices (db st) ++ [row] /\
    i_invoice_number row = inv_lbl_num st /\
    i_discount_percent row = discount_percent st /\
    i_subtotal row =
      Py.sum v (map (fun i => (item_price i * Py.float_of_int (item_qty i))%float) (cart st)) /\
    i_tax row =
      Py.sum v (map (fun i => (item_price i * Py.float_of_int (item_qty i) * item_tax_rate i
                               / Py.float_of_int 100)%float) (cart st)) /\
    i_total row =
      (i_subtotal row - i_subtotal row * i_discount_percent row / Py.float_of_int 100
       + i_tax row)%float.
Proof.
  intros Hcart Hfree save v [[-> ->] | [-> ->]].
  - destruct (save_invoice_succeeds mode path fresh st Hcart Hfree)
      as (d1 & cust_id & d2 & _ & Hinv & _ & _ & _ & _ & _ & Hdb & _).
    destruct (record_lines_frame (seq_invoices (db st) + 1) (cart st) d2) as (Hri & _).
    eexists. split; [rewrite Hdb, Hri; exact Hinv|].
    simpl. repeat split; reflexivity.
  - destruct (app_save_invoice_invoices mode path fresh st Hcart Hfree) as (cust_id & Hinv).
    eexists. split; [exact Hinv|].
    simpl. repeat split; reflexivity.
Qed.

Lemma save_invoice_totals_witness :
  exists row,
    invoices (db (AnotherUp.save_invoice "save" "" "0F0F0F0F" Sample.billing)) = [row] /\
    i_subtotal row = 200%float /\ i_tax row = 36%float /\ i_total row = 216%float /\
    Claimed.totals_hold (cart Sample.billing) 10 row = true.
Proof.
  destruct (save_invoice_totals "save" "" "0F0F0F0F" Sample.billing
              ltac:(discriminate) eq_refl AnotherUp.save_invoice Py.Before312
              (or_introl (conj eq_refl eq_refl)))
    as (row & Hrows & _ & Hd & Hs & Ht & Htot).
  exists row. split; [exact Hrows|].
  unfold Claimed.totals_hold. rewrite Htot, Hd, Hs, Ht.
  repeat split; vm_compute; reflexivity.
Defined.

(** C1, as the specification states it.  A cart the window can hold (prices
    913436.29 and 925506.65, quantities 9867 and 9507, tax rates 5 and 12,
    discount 10 %) is stored with a subtotal 2.7e-6 and a total 1.3e-6 away
    from the formulas of the specification, more than the tolerance of 1e-6; so it is by
    [another-up.py] under either interpreter and by [app.py]. *)
Lemma save_invoice_totals_counterexample :
  (exists row,
     invoices (db (AnotherUp.save_invoice "save" "" "0F0F0F0F" (Sample.wholesale Py.Before312)))
     = [row] /\
     Py.within Claimed.tolerance (i_subtotal row)
       (Claimed.subtotal (cart (Sample.wholesale Py.Before312))) = false /\
     Py.within Claimed.tolerance (i_total row)
       (Claimed.total (cart (Sample.wholesale Py.Before312)) 10) = false /\
     Claimed.totals_hold (cart (Sample.wholesale Py.Before312)) 10 row = false) /\
  (exists row,
     invoices (db (AnotherUp.save_invoice "save" "" "0F0F0F0F" (Sample.wholesale Py.From312)))
     = [row] /\
     Claimed.totals_hold (cart (Sample.wholesale Py.From312)) 10 row = false) /\
  (exists row,
     invoices (db (AppPy.save_invoice "save" "" "0F0F0F0F" (Sample.wholesale Py.From312)))
     = [row] /\
     Claimed.totals_hold (cart (Sample.wholesale Py.From312)) 10 row = false).
Proof.
  split; [|split]; eexists; (split; [reflexivity|]); repeat split; vm_compute; reflexivity.
Qed.

(** ** Line items *)

Lemma record_lines_items (inv_id : Z) (c : list CartItem) (d : DB) :
  exists rows,
    invoice_items (record_lines inv_id c d) = invoice_items d ++ rows /\
    map sold_of_item rows = map sold_of_cart c /\
    Forall (fun it => ii_invoice_id it = inv_id) rows.
Proof.
  unfold record_lines. revert d.
  induction c as [|item c IH]; intro d; simpl.
  - exists []. rewrite app_nil_r. auto.
  - destruct (IH (record_line inv_id d item)) as (rows & Hrows & Hsold & Hall).
    exists (mkInvoiceItem (seq_invoice_items d + 1) inv_id (item_id item) (item_qty item)
              (item_price item) (item_cost_price item) (item_tax_rate item) :: rows).
    rewrite Hrows. simpl. rewrite <- app_assoc. simpl.
    repeat split.
    + unfold sold_of_item at 1, sold_of_cart at 1. simpl. now rewrite Hsold.
    + constructor; [reflexivity | exact Hall].
Qed.

Lemma filter_all {A : Type} (f : A -> bool) (l : list A) :
  Forall (fun x => f x = true) l -> filter f l = l.
Proof.
  induction 1 as [|x l Hx _ IH]; simpl; [reflexivity|]. now rewrite Hx, IH.
Qed.

Lemma filter_none {A : Type} (f : A -> bool) (l : list A) :
  (forall x, In x l -> f x = false) -> filter f l = [].
Proof.
  induction l as [|x l IH]; intro H; simpl; [reflexivity|].
  rewrite (H x (or_introl eq_refl)). apply IH. intros y Hy. apply H. now right.
Qed.

(** The rows of a freshly numbered invoice are exactly the cart's lines. *)
Lemma items_of_new_invoice (c : list CartItem) (d : DB) :
  (forall it, In it (invoice_items d) -> ii_invoice_id it <= seq_invoices d - 1) ->
  exists rows,
    Sql.items_of_invoice (seq_invoices d) (record_lines (seq_invoices d) c d) = rows /\
    map sold_of_item rows = map sold_of_cart c.
Proof.
  intro Hold.
  destruct (record_lines_items (seq_invoices d) c d) as (rows & Hrows & Hsold & Hall).
  exists rows. split; [|exact Hsold].
  unfold Sql.items_of_invoice. rewrite Hrows, filter_app.
  rewrite filter_none, filter_all; [reflexivity | |].
  - eapply Forall_impl; [|exact Hall]. intros it Hit. simpl in Hit. rewrite Hit. apply Z.eqb_refl.
  - intros it Hit. apply Z.eqb_neq. specialize (Hold it Hit). lia.
Qed.

Lemma item_amount_of_sold (rows : list InvoiceItem) (c : list CartItem) :
  map sold_of_item rows = map sold_of_cart c ->
  map item_amount rows = map line_amount c.
Proof.
  intro H.
  assert (Hrows : map item_amount rows
                  = map (fun s : Sold => let '(_, q, p, _, _) := s in
                                         (p * Py.float_of_int q)%float)
                        (map sold_of_item rows))
    by (rewrite map_map; reflexivity).
  rewrite Hrows, H, map_map. reflexivity.
Qed.

(** After a successful save, the invoice found under the number is the row
    just inserted, and its lines are the cart's. *)
Lemma save_then_reload (mode path fresh : string) (st : App) :
  db_wf (db st) ->
  cart st <> [] ->
  Sql.invoice_by_number (inv_lbl_num st) (db st) = None ->
  exists inv rows,
    invoices (db (AnotherUp.save_invoice mode path fresh st)) = invoices (db st) ++ [inv] /\
    reload_invoice (inv_lbl_num st) (db (AnotherUp.save_invoice mode path fresh st))
      = Some (inv, rows) /\
    i_subtotal inv = cart_subtotal (py st) (cart st) /\
    i_tax inv = cart_tax (py st) (cart st) /\
    i_discount_percent inv = discount_percent st /\
    i_total inv = grand_total (cart_subtotal (py st) (cart st))
                    (discount_amount (cart_subtotal (py st) (cart st)) (discount_percent st))
                    (cart_tax (py st) (cart st)) /\
    map sold_of_item rows = map sold_of_cart (cart st).
Proof.
  intros Hwf Hcart Hfree.
  destruct (save_invoice_succeeds mode path fresh st Hcart Hfree)
    as (d1 & cust_id & d2 & _ & Hinv & Hseq & _ & _ & Hit & _ & Hdb & _).
  destruct (record_lines_frame (seq_invoices (db st) + 1) (cart st) d2) as (Hri & _).
  destruct (items_of_new_invoice (cart st) d2) as (rows & Hrows & Hsold).
  { intros it Hin. rewrite Hit in Hin. rewrite Hseq.
    pose proof (wf_item_invoice _ Hwf it Hin). lia. }
  rewrite Hseq in Hrows.
  eexists. exists rows. split; [rewrite Hdb, Hri; exact Hinv|].
  split.
  - unfold reload_invoice, Sql.invoice_by_number. rewrite Hdb, Hri, Hinv.
    rewrite find_app_none by exact Hfree.
    simpl. rewrite String.eqb_refl. simpl. now rewrite Hrows.
  - simpl. repeat split; auto.
Qed.

(** C7 (amended). For the invoice a save creates, the stored subtotal is
    [sum], as the interpreter the window runs under computes it, of the
    binary64 products price times quantity of its [invoice_items] rows in
    rowid order.  Before CPython 3.12 this is the running total of a loop
    over the rows, as the PDF routine adds them up; for an invoice of one
    row it is that row's product on every interpreter.  It is not the sum
    of the exact products, as the cart that follows the witness shows. *)
Theorem invoice_items_sum_to_subtotal (mode path fresh : string) (st : App) :
  db_wf (db st) ->
  cart st <> [] ->
  Sql.invoice_by_number (inv_lbl_num st) (db st) = None ->
  exists inv,
    invoices (db (AnotherUp.save_invoice mode path fresh st)) = invoices (db st) ++ [inv] /\
    let amounts :=
      map (fun it => (ii_price it * Py.float_of_int (ii_quantity it))%float)
          (Sql.items_of_invoice (i_id inv) (db (AnotherUp.save_invoice mode path fresh st))) in
    i_subtotal inv = Py.sum (py st) amounts /\
    (py st = Py.Before312 -> i_subtotal inv = Py.add_up amounts) /\
    (forall x, amounts = [x] -> i_subtotal inv = (Py.float_of_int 0 + x)%float).
Proof.
  intros Hwf Hcart Hfree.
  destruct (save_then_reload mode path fresh st Hwf Hcart Hfree)
    as (inv & rows & Hinv & Hre & Hsub & _ & _ & _ & Hsold).
  exists inv. split; [exact Hinv|].
  unfold reload_invoice in Hre.
  destruct (Sql.invoice_by_number (inv_lbl_num st)
              (db (AnotherUp.save_invoice mode path fresh st))) as [inv'|]; [|discriminate].
  injection Hre as -> <-.
  change (map (fun it => (ii_price it * Py.float_of_int (ii_quantity it))%float)
              (Sql.items_of_invoice (i_id inv) (db (AnotherUp.save_invoice mode path fresh st))))
    with (map item_amount
              (Sql.items_of_invoice (i_id inv) (db (AnotherUp.save_invoice mode path fresh st)))).
  rewrite (item_amount_of_sold _ _ Hsold), Hsub. unfold cart_subtotal. cbv zeta.
  split; [reflexivity|]. split.
  - intros ->. reflexivity.
  - intros x Hx. rewrite Hx. destruct (py st); reflexivity.
Qed.

Lemma invoice_items_sum_to_subtotal_witness :
  exists inv,
    invoices (db Sample.saved) = [inv] /\
    i_subtotal inv = 200%float /\
    Py.add_up (map (fun it => (ii_price it * Py.float_of_int (ii_quantity it))%float)
                   (Sql.items_of_invoice (i_id inv) (db Sample.saved)))
    = 200%float.
Proof.
  destruct (invoice_items_sum_to_subtotal "save" "" "0F0F0F0F" Sample.billing)
    as (inv & Hinv & Hsum & Hloop & _).
  - constructor; simpl; first [intros ? [] | constructor].
  - discriminate.
  - reflexivity.
  - exists inv. split; [exact Hinv|].
    unfold Sample.saved. rewrite <- (Hloop eq_refl).
    vm_compute in Hinv. injection Hinv as <-. split; vm_compute; reflexivity.
Defined.

(** C7, as the specification states it.  For the two bolts of
    [Sample.wholesale] the stored subtotal is not the sum of price times
    quantity over the stored line items, and is more than 1e-6 away from it,
    under either interpreter.  From CPython 3.12 on it is not even the
    running total of the binary64 products: for three items of 0.1, 0.2 and
    0.3 the loop of the PDF routine gives 0.6000000000000001 and the row
    holds 0.6. *)
Lemma invoice_items_sum_to_subtotal_counterexample :
  (exists inv,
     invoices (db (AnotherUp.save_invoice "save" "" "0F0F0F0F" (Sample.wholesale Py.Before312)))
     = [inv] /\
     let rows := Sql.items_of_invoice (i_id inv)
                   (db (AnotherUp.save_invoice "save" "" "0F0F0F0F"
                          (Sample.wholesale Py.Before312))) in
     List.length rows = 2%nat /\
     Claimed.items_sum_is rows inv = false /\
     Py.within Claimed.tolerance (i_subtotal inv) (Claimed.items_sum rows) = false) /\
  (exists inv,
     invoices (db (AnotherUp.save_invoice "save" "" "0F0F0F0F" (Sample.wholesale Py.From312)))
     = [inv] /\
     let rows := Sql.items_of_invoice (i_id inv)
                   (db (AnotherUp.save_invoice "save" "" "0F0F0F0F"
                          (Sample.wholesale Py.From312))) in
     Claimed.items_sum_is rows inv = false /\
     Py.within Claimed.tolerance (i_subtotal inv) (Claimed.items_sum rows) = false) /\
  (exists inv,
     invoices (db (AnotherUp.save_invoice "save" "" "0F0F0F0F" Sample.small_change)) = [inv] /\
     let amounts :=
       map (fun it => (ii_price it * Py.float_of_int (ii_quantity it))%float)
           (Sql.items_of_invoice (i_id inv)
              (db (AnotherUp.save_invoice "save" "" "0F0F0F0F" Sample.small_change))) in
     i_subtotal inv = 0x1.3333333333333p-1%float /\
     Py.add_up amounts = 0x1.3333333333334p-1%float /\
     (Py.add_up amounts =? i_subtotal inv)%float = false).
Proof.
  split; [|split]; eexists; (split; [reflexivity|]); repeat split; vm_compute; reflexivity.
Qed.

(** ** Round trip *)

(** C3. An invoice saved from a cart and read back by its number has the
    subtotal, tax, discount percent and total computed at save time, and its
    [invoice_items] rows carry the cart's lines (product id, quantity, unit
    price, cost price, tax rate) in order; the same rows come back whatever
    the [products] table holds afterwards, because the rows keep copies of
    price, cost and tax rate and the reload does not read [products]. *)
Theorem invoice_round_trip (mode path fresh : string) (st : App) :
  db_wf (db st) ->
  cart st <> [] ->
  Sql.invoice_by_number (inv_lbl_num st) (db st) = None ->
  exists inv rows,
    reload_invoice (inv_lbl_num st) (db (AnotherUp.save_invoice mode path fresh st))
      = Some (inv, rows) /\
    i_subtotal inv = cart_subtotal (py st) (cart st) /\
    i_tax inv = cart_tax (py st) (cart st) /\
    i_discount_percent inv = discount_percent st /\
    i_total inv = grand_total (cart_subtotal (py st) (cart st))
                    (discount_amount (cart_subtotal (py st) (cart st)) (discount_percent st))
                    (cart_tax (py st) (cart st)) /\
    map sold_of_item rows = map sold_of_cart (cart st) /\
    forall ps : list Product,
      reload_invoice (inv_lbl_num st)
        (with_products ps (db (AnotherUp.save_invoice mode path fresh st)))
      = Some (inv, rows).
Proof.
  intros Hwf Hcart Hfree.
  destruct (save_then_reload mode path fresh st Hwf Hcart Hfree)
    as (inv & rows & _ & Hre & Hsub & Htax & Hd & Htot & Hsold).
  exists inv, rows. repeat split; try assumption.
  intro ps. exact Hre.
Qed.

Lemma invoice_round_trip_witness :
  exists inv rows,
    reload_invoice "AB12CD34"
      (with_products [mkProduct 1 "T-shirt (old stock)" "tops" 80 75 0 5 "890001" ""]
         (db Sample.saved))
      = Some (inv, rows) /\
    i_subtotal inv = 200%float /\ i_tax inv = 36%float /\ i_total inv = 216%float /\
    map sold_of_item rows = [(1, 2, 100%float, 60%float, 18%float)].
Proof.
  destruct (invoice_round_trip "save" "" "0F0F0F0F" Sample.billing)
    as (inv & rows & _ & Hsub & Htax & _ & Htot & Hsold & Hedit).
  - constructor; simpl; first [intros ? [] | constructor].
  - discriminate.
  - reflexivity.
  - exists inv, rows. split; [apply Hedit|].
    rewrite Hsub, Htax, Htot, Hsold. repeat split; vm_compute; reflexivity.
Defined.

(** ** The cart holds one line per product *)

Lemma merge_qty_ids (prod_id qty : Z) (c c' : list CartItem) :
  merge_qty prod_id qty c = Some c' -> map item_id c' = map item_id c.
Proof.
  revert c'. induction c as [|item rest IH]; intros c' H; simpl in H; [discriminate|].
  destruct (item_id item =? prod_id).
  - injection H as <-. reflexivity.
  - destruct (merge_qty prod_id qty rest) as [r|]; [|discriminate].
    injection H as <-. simpl. now rewrite (IH r eq_refl).
Qed.

Lemma merge_qty_none (prod_id qty : Z) (c : list CartItem) :
  merge_qty prod_id qty c = None -> ~ In prod_id (map item_id c).
Proof.
  induction c as [|item rest IH]; intro H; simpl in *; [tauto|].
  destruct (item_id item =? prod_id) eqn:E; [discriminate|].
  apply Z.eqb_neq in E.
  destruct (merge_qty prod_id qty rest); [discriminate|].
  intros [Heq | Hin]; [congruence | exact (IH eq_refl Hin)].
Qed.

Lemma merge_qty_present (prod_id qty : Z) (c : list CartItem) :
  In prod_id (map item_id c) -> exists c', merge_qty prod_id qty c = Some c'.
Proof.
  intro Hin. destruct (merge_qty prod_id qty c) as [c'|] eqn:E; [eauto|].
  exfalso. exact (merge_qty_none _ _ _ E Hin).
Qed.

Lemma merge_qty_lines (prod_id qty : Z) (c c' : list CartItem) :
  one_line_per_product c ->
  merge_qty prod_id qty c = Some c' ->
  forall k line, nth_error c k = Some line ->
    nth_error c' k = Some (if item_id line =? prod_id then add_qty qty line else line).
Proof.
  unfold one_line_per_product. revert c'.
  induction c as [|item rest IH]; intros c' Hnd H k line Hk; simpl in H; [discriminate|].
  inversion Hnd as [|? ? Hnotin Hnd']; subst.
  destruct (item_id item =? prod_id) eqn:E.
  - injection H as <-. destruct k as [|k]; simpl in *.
    + injection Hk as <-. now rewrite E.
    + rewrite Hk. apply Z.eqb_eq in E.
      assert (Hne : item_id line <> prod_id).
      { intro Heq. apply Hnotin. rewrite E, <- Heq.
        apply in_map. eapply nth_error_In; eassumption. }
      apply Z.eqb_neq in Hne. now rewrite Hne.
  - destruct (merge_qty prod_id qty rest) as [r|] eqn:Er; [|discriminate].
    injection H as <-. destruct k as [|k]; simpl in *.
    + injection Hk as <-. now rewrite E.
    + exact (IH r Hnd' eq_refl k line Hk).
Qed.

Lemma NoDup_snoc {A : Type} (x : A) (l : list A) :
  NoDup l -> ~ In x l -> NoDup (l ++ [x]).
Proof.
  induction 1 as [|y l Hy Hnd IH]; intro Hx; simpl.
  - constructor; [tauto | constructor].
  - constructor.
    + rewrite in_app_iff. simpl. intros [Hin | [Heq | []]]; [tauto|].
      apply Hx. now left.
    + apply IH. intro Hin. apply Hx. now right.
Qed.

Lemma add_to_cart_one_line (selected : option Product) (qty : Z) (ok : bool) (st : App) :
  one_line_per_product (cart st) ->
  one_line_per_product (cart (add_to_cart selected qty ok st)).
Proof.
  intro Hnd. unfold add_to_cart.
  destruct selected as [row|]; [|exact Hnd].
  destruct (negb ok); [exact Hnd|].
  destruct (qty >? p_stock row); [exact Hnd|].
  destruct (merge_qty (p_id row) qty (cart st)) as [c|] eqn:E; simpl.
  - unfold one_line_per_product. rewrite (merge_qty_ids _ _ _ _ E). exact Hnd.
  - unfold one_line_per_product in *. rewrite map_app. simpl.
    apply NoDup_snoc; [exact Hnd | exact (merge_qty_none _ _ _ E)].
Qed.

Lemma del_at_NoDup {A B : Type} (f : A -> B) (row : nat) (l l' : list A) :
  del_at row l = Some l' -> NoDup (map f l) -> NoDup (map f l') /\ incl l' l.
Proof.
  revert row l'. induction l as [|x l IH]; intros row l' H Hnd.
  - destruct row; discriminate.
  - inversion Hnd as [|? ? Hnotin Hnd']; subst.
    destruct row as [|k]; simpl in H.
    + injection H as <-. split; [exact Hnd' | apply incl_tl, incl_refl].
    + destruct (del_at k l) as [r|] eqn:E; [|discriminate].
      injection H as <-. destruct (IH k r E Hnd') as [Hr Hincl].
      split.
      * simpl. constructor; [|exact Hr].
        intro Hin. apply Hnotin. apply in_map_iff in Hin.
        destruct Hin as (y & Hy & Hiny). apply in_map_iff. exists y. auto.
      * intros y [<- | Hy]; [now left | right; auto].
Qed.

Lemma remove_from_cart_one_line (row : nat) (st : App) :
  one_line_per_product (cart st) ->
  one_line_per_product (cart (remove_from_cart row st)).
Proof.
  intro Hnd. unfold remove_from_cart.
  destruct (del_at row (cart st)) as [c|] eqn:E; simpl; [|exact Hnd].
  exact (proj1 (del_at_NoDup item_id row _ _ E Hnd)).
Qed.

Ltac break_match :=
  repeat match goal with
         | |- context [match ?x with _ => _ end] => destruct x
         end.

Lemma save_invoice_cart (mode path fresh : string) (st : App) :
  cart (AnotherUp.save_invoice mode path fresh st) = cart st \/
  cart (AnotherUp.save_invoice mode path fresh st) = [].
Proof.
  unfold AnotherUp.save_invoice.
  destruct (cart st) eqn:E; [left; simpl; exact E|].
  destruct (resolve_customer _ _ _) as [d1 cust_id].
  destruct (Sql.insert_invoice _ _ _ _ _ _ _ _ _) as [[d2 k]|]; simpl; auto.
Qed.

Lemma app_save_invoice_cart (mode path fresh : string) (st : App) :
  cart (AppPy.save_invoice mode path fresh st) = cart st \/
  cart (AppPy.save_invoice mode path fresh st) = [].
Proof.
  unfold AppPy.save_invoice.
  destruct (cart st) eqn:E; [left; simpl; exact E|].
  destruct (resolve_customer _ _ _) as [d1 cust_id].
  destruct (Sql.insert_invoice _ _ _ _ _ _ _ _ _) as [[d2 k]|]; simpl; auto.
  destruct (negb (Py.truthy path)); simpl; auto.
Qed.

Lemma open_history_pdf_cart (selected : option string) (path : string) (st : App) :
  cart (AnotherUp.open_history_pdf selected path st) = cart st.
Proof.
  unfold AnotherUp.open_history_pdf, AnotherUp.record_and_generate_pdf.
  break_match; reflexivity.
Qed.

Section Slot.

Variable py_float : string -> option float.
Variable py_str : float -> string.

(** What every run of the slot keeps, the slot keeps: it is one run or two. *)
Lemma ledger_cell_changed_runs (P : App -> Prop) (row col : Z) (st : App) :
  (forall s, P s -> P (fst (AnotherUp.ledger_cell_run py_float py_str row s))) ->
  P st -> P (AnotherUp.ledger_cell_changed py_float py_str row col st).
Proof.
  intros Hrun H. unfold AnotherUp.ledger_cell_changed.
  pose proof (Hrun st H) as H1.
  destruct (AnotherUp.ledger_cell_run py_float py_str row st) as [st1 emitted].
  simpl in H1. destruct emitted; [apply Hrun|]; exact H1.
Qed.

Lemma ledger_cell_run_cart (row : Z) (st : App) :
  cart (fst (AnotherUp.ledger_cell_run py_float py_str row st)) = cart st.
Proof. unfold AnotherUp.ledger_cell_run. break_match; reflexivity. Qed.

End Slot.

Section Reachable.

Variable py_float : string -> option float.
Variable py_str : float -> string.

Lemma run_one_line (a : Action) (st : App) :
  one_line_per_product (cart st) ->
  one_line_per_product (cart (run py_float py_str a st)).
Proof.
  intro Hnd. destruct a; simpl.
  - now apply add_to_cart_one_line.
  - now apply remove_from_cart_one_line.
  - destruct (save_invoice_cart mode file_path fresh_num st) as [-> | ->];
      [exact Hnd | constructor].
  - now rewrite open_history_pdf_cart.
  - unfold AnotherUp.delete_product. break_match; exact Hnd.
  - unfold AnotherUp.delete_invoice. break_match; exact Hnd.
  - exact Hnd.
  - unfold AnotherUp.load_ledger_entries. break_match; exact Hnd.
  - unfold AnotherUp.add_ledger_entry, AnotherUp.load_ledger_entries. break_match; exact Hnd.
  - apply ledger_cell_changed_runs; [|exact Hnd].
    intros s Hs. now rewrite ledger_cell_run_cart.
Qed.

(** Whatever the user does from a window that starts with an empty cart,
    the cart never holds two lines of one product. *)
Lemma run_all_one_line (actions : list Action) (st : App) :
  one_line_per_product (cart st) ->
  one_line_per_product (cart (run_all py_float py_str actions st)).
Proof.
  unfold run_all. revert st.
  induction actions as [|a actions IH]; intros st Hnd; simpl; [exact Hnd|].
  apply IH. now apply run_one_line.
Qed.

End Reachable.

Lemma sold_product_ids (rows : list InvoiceItem) (c : list CartItem) :
  map sold_of_item rows = map sold_of_cart c ->
  map ii_product_id rows = map item_id c.
Proof.
  intro H.
  assert (Hrows : map ii_product_id rows
                  = map (fun s : Sold => let '(prod_id, _, _, _, _) := s in prod_id)
                        (map sold_of_item rows))
    by (rewrite map_map; reflexivity).
  rewrite Hrows, H, map_map. reflexivity.
Qed.

Section Cart.

Variable py_float : string -> option float.
Variable py_str : float -> string.

(** C10. In every state the window reaches from an empty cart, the cart
    has at most one line per product id; adding a product that is already
    in the cart leaves the number of lines as it is and raises the quantity
    of that product's line by the quantity entered; and the invoice a save
    creates has at most one [invoice_items] row per product. *)
Theorem cart_one_line_per_product (actions : list Action) (st0 : App) :
  cart st0 = [] ->
  let st := run_all py_float py_str actions st0 in
  one_line_per_product (cart st) /\
  (forall row qty,
      qty <= p_stock row ->
      In (p_id row) (map item_id (cart st)) ->
      List.length (cart (add_to_cart (Some row) qty true st)) = List.length (cart st) /\
      forall k line,
        nth_error (cart st) k = Some line ->
        nth_error (cart (add_to_cart (Some row) qty true st)) k
        = Some (if item_id line =? p_id row then add_qty qty line else line)) /\
  (forall mode path fresh,
      db_wf (db st) ->
      cart st <> [] ->
      Sql.invoice_by_number (inv_lbl_num st) (db st) = None ->
      exists inv,
        invoices (db (AnotherUp.save_invoice mode path fresh st)) = invoices (db st) ++ [inv] /\
        NoDup (map ii_product_id
                 (Sql.items_of_invoice (i_id inv)
                    (db (AnotherUp.save_invoice mode path fresh st))))).
Proof.
  intros Hstart st.
  assert (Hnd : one_line_per_product (cart st)).
  { apply run_all_one_line. rewrite Hstart. constructor. }
  split; [exact Hnd|]. split.
  - intros row qty Hstock Hin. unfold add_to_cart. simpl.
    assert (Hgt : (qty >? p_stock row) = false)
      by (rewrite Z.gtb_ltb; apply Z.ltb_ge; lia).
    rewrite Hgt.
    destruct (merge_qty_present (p_id row) qty (cart st) Hin) as (c' & Hc').
    rewrite Hc'. simpl. split.
    + rewrite <- (List.length_map item_id c'), (merge_qty_ids _ _ _ _ Hc').
      apply List.length_map.
    + exact (merge_qty_lines _ _ _ _ Hnd Hc').
  - intros mode path fresh Hwf Hcart Hfree.
    destruct (save_then_reload mode path fresh st Hwf Hcart Hfree)
      as (inv & rows & Hinv & Hre & _ & _ & _ & _ & Hsold).
    exists inv. split; [exact Hinv|].
    unfold reload_invoice in Hre.
    destruct (Sql.invoice_by_number (inv_lbl_num st)
                (db (AnotherUp.save_invoice mode path fresh st))) as [inv'|]; [|discriminate].
    injection Hre as -> <-.
    rewrite (sold_product_ids _ _ Hsold). exact Hnd.
Qed.

End Cart.

Lemma cart_one_line_per_product_witness :
  let st0 := set_db Sample.stocked (initial Py.Before312 "AB12CD34" "2024-05-01") in
  let actions := [AddToCart (Some Sample.tshirt) 2 true;
                  AddToCart (Some Sample.jeans) 1 true;
                  AddToCart (Some Sample.tshirt) 3 true] in
  cart st0 = [] /\
  map (fun i => (item_id i, item_qty i))
      (cart (run_all Sample.float_of_digits Sample.no_text actions st0)) = [(1, 5); (2, 1)] /\
  one_line_per_product (cart (run_all Sample.float_of_digits Sample.no_text actions st0)).
Proof.
  split; [reflexivity|]. split; [reflexivity|].
  exact (proj1 (cart_one_line_per_product Sample.float_of_digits Sample.no_text
                  [AddToCart (Some Sample.tshirt) 2 true;
                   AddToCart (Some Sample.jeans) 1 true;
                   AddToCart (Some Sample.tshirt) 3 true]
                  (set_db Sample.stocked (initial Py.Before312 "AB12CD34" "2024-05-01")) eq_refl)).
Defined.

(** ** Stock *)

Lemma with_stock_same (p : Product) : with_stock (p_stock p) p = p.
Proof. destruct p; reflexivity. Qed.

Lemma products_record_lines (inv_id : Z) (c : list CartItem) (d : DB) :
  products (record_lines inv_id c d)
  = map (fun p => with_stock (p_stock p - sold_qty (p_id p) c) p) (products d).
Proof.
  unfold record_lines. revert d.
  induction c as [|item c IH]; intro d; simpl.
  - rewrite <- (map_id (products d)) at 1. apply map_ext.
    intro p. rewrite Z.sub_0_r. symmetry. apply with_stock_same.
  - rewrite IH. simpl. rewrite map_map. apply map_ext. intro p.
    destruct (p_id p =? item_id item) eqn:E.
    + apply Z.eqb_eq in E. unfold with_stock at 2 3 4. simpl.
      rewrite <- E, Z.eqb_refl. unfold with_stock. simpl. f_equal. lia.
    + rewrite Z.eqb_sym, E. f_equal.
Qed.

Lemma sold_qty_absent (prod_id : Z) (c : list CartItem) :
  ~ In prod_id (map item_id c) -> sold_qty prod_id c = 0.
Proof.
  induction c as [|i c IH]; simpl; intro H; [reflexivity|].
  destruct (item_id i =? prod_id) eqn:E.
  - apply Z.eqb_eq in E. tauto.
  - rewrite IH; tauto.
Qed.

Lemma sold_qty_line (c : list CartItem) (line : CartItem) :
  one_line_per_product c -> In line c -> sold_qty (item_id line) c = item_qty line.
Proof.
  unfold one_line_per_product.
  induction c as [|i c IH]; simpl; intros Hnd Hin; [contradiction|].
  inversion Hnd as [|? ? Hnotin Hnd']; subst.
  destruct Hin as [-> | Hin].
  - rewrite Z.eqb_refl, sold_qty_absent; [lia | exact Hnotin].
  - destruct (item_id i =? item_id line) eqn:E.
    + apply Z.eqb_eq in E. exfalso. apply Hnotin. rewrite E. now apply in_map.
    + rewrite IH; auto.
Qed.

Section Stock.

Variable py_float : string -> option float.
Variable py_str : float -> string.

(** C5. A save of the cart the window has built takes from each product
    on a cart line exactly that line's quantity, touches no other column of
    the [products] rows, removes or adds no row, and leaves every product
    that is on no line as it was. *)
Theorem save_invoice_stock (actions : list Action) (st0 : App) (mode path fresh : string) :
  cart st0 = [] ->
  let st := run_all py_float py_str actions st0 in
  cart st <> [] ->
  Sql.invoice_by_number (inv_lbl_num st) (db st) = None ->
  let st' := AnotherUp.save_invoice mode path fresh st in
  List.length (products (db st')) = List.length (products (db st)) /\
  forall k p,
    nth_error (products (db st)) k = Some p ->
    exists p',
      nth_error (products (db st')) k = Some p' /\
      p' = with_stock (p_stock p') p /\
      (forall line, In line (cart st) -> item_id line = p_id p ->
                    p_stock p' = p_stock p - item_qty line) /\
      (~ In (p_id p) (map item_id (cart st)) -> p' = p).
Proof.
  intros Hstart st Hcart Hfree st'.
  assert (Hnd : one_line_per_product (cart st)).
  { apply run_all_one_line. rewrite Hstart. constructor. }
  destruct (save_invoice_succeeds mode path fresh st Hcart Hfree)
    as (d1 & cust_id & d2 & _ & _ & _ & Hp & _ & _ & _ & Hdb & _).
  assert (Hprod : products (db st')
                  = map (fun p => with_stock (p_stock p - sold_qty (p_id p) (cart st)) p)
                        (products (db st))).
  { unfold st'. rewrite Hdb, products_record_lines, Hp. reflexivity. }
  rewrite Hprod. split; [apply List.length_map|].
  intros k p Hk.
  exists (with_stock (p_stock p - sold_qty (p_id p) (cart st)) p).
  split; [now rewrite nth_error_map, Hk|].
  split; [reflexivity|]. split.
  - intros line Hin Hid. simpl. now rewrite <- Hid, (sold_qty_line _ _ Hnd Hin).
  - intro Hno. rewrite (sold_qty_absent _ _ Hno), Z.sub_0_r. apply with_stock_same.
Qed.

End Stock.

Lemma save_invoice_stock_witness :
  let st0 := set_db Sample.stocked (initial Py.Before312 "AB12CD34" "2024-05-01") in
  let actions := [AddToCart (Some Sample.tshirt) 2 true;
                  AddToCart (Some Sample.tshirt) 3 true] in
  let st := run_all Sample.float_of_digits Sample.no_text actions st0 in
  cart st0 = [] /\ cart st <> [] /\
  Sql.invoice_by_number (inv_lbl_num st) (db st) = None /\
  map p_stock (products (db (AnotherUp.save_invoice "save" "" "0F0F0F0F" st))) = [5; 5] /\
  List.length (products (db (AnotherUp.save_invoice "save" "" "0F0F0F0F" st))) = 2%nat.
Proof.
  split; [reflexivity|]. split; [discriminate|]. split; [reflexivity|].
  split; [reflexivity|].
  exact (proj1 (save_invoice_stock Sample.float_of_digits Sample.no_text
                  [AddToCart (Some Sample.tshirt) 2 true;
                   AddToCart (Some Sample.tshirt) 3 true]
                  (set_db Sample.stocked (initial Py.Before312 "AB12CD34" "2024-05-01"))
                  "save" "" "0F0F0F0F" eq_refl ltac:(discriminate) eq_refl)).
Defined.

(** ** Customer *)

Lemma find_phone_absent (phone : string) (cs : list Customer) :
  (forall c, In c cs -> c_phone c <> phone) ->
  find (fun c => (c_phone c =? phone)%string) cs = None.
Proof.
  induction cs as [|c cs IH]; intro H; simpl; [reflexivity|].
  destruct (String.eqb_spec (c_phone c) phone) as [Heq | _].
  - exfalso. exact (H c (or_introl eq_refl) Heq).
  - apply IH. intros c' Hc'. apply H. now right.
Qed.

Lemma find_phone_unique (phone : string) (cs : list Customer) (c : Customer) :
  NoDup (map c_phone cs) -> In c cs -> c_phone c = phone ->
  find (fun c => (c_phone c =? phone)%string) cs = Some c.
Proof.
  induction cs as [|c0 cs IH]; intros Hnd Hin Hphone; simpl; [contradiction|].
  inversion Hnd as [|? ? Hnotin Hnd']; subst.
  destruct (String.eqb_spec (c_phone c0) (c_phone c)) as [Heq | Hne].
  - destruct Hin as [-> | Hin]; [reflexivity|].
    exfalso. apply Hnotin. rewrite Heq. now apply in_map.
  - destruct Hin as [-> | Hin]; [congruence|]. now apply IH.
Qed.

(** C9 (amended). What a save does about the customer, for the phone and
    name as the handler reads them from the fields: the texts entered with
    the whitespace around them stripped.  The phone column is UNIQUE.
    - A phone that is on file: no customer row is written and the invoice
      carries that customer's id.
    - A phone that is not on file: one customer row is added, with that
      phone and the name entered, or "Walk-in" for a blank name, and the
      invoice carries the new id.
    - No phone: no customer row is written and the invoice's customer_id is
      NULL. *)
Theorem save_invoice_customer (mode path fresh : string) (st : App) :
  cart st <> [] ->
  Sql.invoice_by_number (inv_lbl_num st) (db st) = None ->
  db_wf (db st) ->
  let phone := Py.strip (cust_phone st) in
  let name := Py.strip (cust_name st) in
  let st' := AnotherUp.save_invoice mode path fresh st in
  exists inv,
    invoices (db st') = invoices (db st) ++ [inv] /\
    (phone <> "" ->
     forall c, In c (customers (db st)) -> c_phone c = phone ->
       customers (db st') = customers (db st) /\ i_customer_id inv = Some (c_id c)) /\
    (phone <> "" ->
     (forall c, In c (customers (db st)) -> c_phone c <> phone) ->
       customers (db st') = customers (db st) ++
         [mkCustomer (seq_customers (db st) + 1)
            (if (name =? "")%string then "Walk-in" else name) phone
            None None (Py.float_of_int 0) None] /\
       i_customer_id inv = Some (seq_customers (db st) + 1)) /\
    (phone = "" ->
       customers (db st') = customers (db st) /\ i_customer_id inv = None).
Proof.
  intros Hcart Hfree Hwf phone name st'.
  pose proof (wf_phone_unique _ Hwf) as Huniq.
  destruct (save_invoice_succeeds mode path fresh st Hcart Hfree)
    as (d1 & cust_id & d2 & Hres & Hinv & _ & _ & Hc2 & _ & _ & Hdb & _).
  destruct (record_lines_frame (seq_invoices (db st) + 1) (cart st) d2) as (Hri & Hrc & _).
  assert (Hcust : customers (db st') = customers d1)
    by (unfold st'; rewrite Hdb, Hrc; exact Hc2).
  eexists. split; [unfold st'; rewrite Hdb, Hri; exact Hinv|].
  simpl. rewrite Hcust.
  fold phone name in Hres. unfold resolve_customer, Py.truthy in Hres.
  split; [|split].
  - intros Hne c Hin Hphone.
    apply String.eqb_neq in Hne. rewrite Hne in Hres. simpl in Hres.
    unfold Sql.customer_id_by_phone in Hres.
    rewrite (find_phone_unique phone _ c Huniq Hin Hphone) in Hres. simpl in Hres.
    injection Hres as <- <-. auto.
  - intros Hne Habsent.
    apply String.eqb_neq in Hne. rewrite Hne in Hres. simpl in Hres.
    unfold Sql.customer_id_by_phone in Hres.
    rewrite (find_phone_absent phone _ Habsent) in Hres. simpl in Hres.
    injection Hres as <- <-. simpl. unfold Py.or_else, Py.truthy.
    destruct (name =? "")%string; auto.
  - intro Hempty. rewrite Hempty in Hres. simpl in Hres.
    injection Hres as <- <-. auto.
Qed.

Lemma save_invoice_customer_witness :
  exists inv,
    invoices (db (AnotherUp.save_invoice "save" "" "0F0F0F0F" Sample.billing_new_customer))
      = [inv] /\
    customers (db (AnotherUp.save_invoice "save" "" "0F0F0F0F" Sample.billing_new_customer))
      = [mkCustomer 1 "Asha" "5550100" None None 0 None] /\
    i_customer_id inv = Some 1.
Proof.
  destruct (save_invoice_customer "save" "" "0F0F0F0F" Sample.billing_new_customer)
    as (inv & Hinv & _ & Hnew & _).
  - discriminate.
  - reflexivity.
  - constructor; simpl; first [intros ? [] | constructor].
  - exists inv. split; [exact Hinv|].
    apply Hnew; [discriminate | intros c []].
Defined.

(** C9, as the specification states it.  The phone entered is not empty and
    is, character for character, the phone of customer 1, who was entered
    on the customers tab with a blank after the number.  The save looks up
    the stripped text, finds nobody, adds a second customer and gives the
    invoice the id 2, not 1. *)
Lemma save_invoice_customer_counterexample :
  cust_phone Sample.padded = "5550100 " /\
  map (fun c => (c_id c, c_phone c)) (customers (db Sample.padded)) = [(1, "5550100 ")] /\
  exists inv,
    invoices (db (AnotherUp.save_invoice "save" "" "0F0F0F0F" Sample.padded)) = [inv] /\
    i_customer_id inv = Some 2 /\
    i_customer_id inv <> Some 1 /\
    map (fun c => (c_id c, c_name c, c_phone c))
        (customers (db (AnotherUp.save_invoice "save" "" "0F0F0F0F" Sample.padded)))
    = [(1, "Asha", "5550100 "); (2, "Asha", "5550100")].
Proof.
  split; [reflexivity|]. split; [reflexivity|].
  eexists. split; [reflexivity|].
  split; [reflexivity|]. split; [discriminate | reflexivity].
Qed.

(** ** Ledger *)

Lemma insert_by_date_In (e x : LedgerEntry) (rows : list LedgerEntry) :
  In x (Sql.insert_by_date e rows) -> x = e \/ In x rows.
Proof.
  induction rows as [|r rows IH]; simpl.
  - intros [<- | []]. now left.
  - destruct (le_entry_date r <=? le_entry_date e)%string; simpl.
    + intros [<- | Hin]; [right; now left|].
      destruct (IH Hin); [now left | right; now right].
    + intros [<- | Hin]; [now left | now right].
Qed.

Lemma order_by_entry_date_In (x : LedgerEntry) (rows : list LedgerEntry) :
  In x (Sql.order_by_entry_date rows) -> In x rows.
Proof.
  unfold Sql.order_by_entry_date.
  assert (Hgen : forall acc,
             In x (fold_left (fun acc e => Sql.insert_by_date e acc) rows acc) ->
             In x rows \/ In x acc).
  { induction rows as [|r rows IH]; intros acc H; simpl in *; [now right|].
    destruct (IH _ H) as [Hin | Hin]; [left; now right|].
    destruct (insert_by_date_In _ _ _ Hin) as [<- | Hacc]; [left; now left | now right]. }
  intro H. destruct (Hgen [] H) as [Hin | []]. exact Hin.
Qed.

Lemma entry_at_In (lid : Z) (k : nat) (e : LedgerEntry) (d : DB) :
  nth_error (Sql.entries_of_ledger lid d) k = Some e ->
  In e (ledger_entries d) /\ le_ledger_id e = lid.
Proof.
  intro H. apply nth_error_In, order_by_entry_date_In, filter_In in H.
  destruct H as [Hin Hlid]. split; [exact Hin | now apply Z.eqb_eq].
Qed.

Lemma NoDup_map_In_inj {A B : Type} (f : A -> B) (l : list A) (x y : A) :
  NoDup (map f l) -> In x l -> In y l -> f x = f y -> x = y.
Proof.
  induction l as [|z l IH]; simpl; intros Hnd Hx Hy Hf; [contradiction|].
  inversion Hnd as [|? ? Hnotin Hnd']; subst.
  destruct Hx as [-> | Hx], Hy as [-> | Hy]; auto.
  - exfalso. apply Hnotin. rewrite Hf. now apply in_map.
  - exfalso. apply Hnotin. rewrite <- Hf. now apply in_map.
Qed.

Lemma nth_error_set_remaining (k : nat) (text : string) (t : list LedgerRow) :
  nth_error (AnotherUp.set_remaining k text t) k
  = option_map (fun r => mkLedgerRow (cell_date r) (cell_particulars r) (cell_bill r)
                           (cell_paid r) text)
               (nth_error t k).
Proof.
  revert t. induction k as [|k IH]; intros [|r t]; simpl; try reflexivity. apply IH.
Qed.

Section LedgerEdit.

Variable py_float : string -> option float.
Variable py_str : float -> string.

(** One run of the slot for the table row at position [row] of the selected
    ledger writes to the entry that stands at that position among the
    ledger's entries ordered by entry_date, as the database holds them at
    that moment: its date, particulars, bill amount and paid amount become
    the row's cell values and its remaining the difference, each float
    stored as SQLite stores it.  Every other entry is as before. *)
Lemma one_run_edits_by_position (row : Z) (st : App)
    (lid : Z) (e : LedgerEntry) (cells : LedgerRow) (bill paid : float) :
  db_wf (db st) ->
  0 <= row ->
  Sql.ledger_id_by_name (Py.strip (ledger_combo st)) (db st) = Some lid ->
  nth_error (Sql.entries_of_ledger lid (db st)) (Z.to_nat row) = Some e ->
  nth_error (ledger_table st) (Z.to_nat row) = Some cells ->
  py_float (cell_bill cells) = Some bill ->
  py_float (cell_paid cells) = Some paid ->
  let st' := fst (AnotherUp.ledger_cell_run py_float py_str row st) in
  In e (ledger_entries (db st)) /\
  List.length (ledger_entries (db st')) = List.length (ledger_entries (db st)) /\
  snd (AnotherUp.ledger_cell_run py_float py_str row st)
  = negb (py_str (bill - paid)%float =? cell_remaining cells)%string /\
  forall k x,
    nth_error (ledger_entries (db st)) k = Some x ->
    (x = e ->
     nth_error (ledger_entries (db st')) k
     = Some (mkLedgerEntry (le_id e) (le_ledger_id e) (cell_date cells)
               (cell_particulars cells) (Sql.real bill) (Sql.real paid)
               (Sql.real (bill - paid)%float))) /\
    (x <> e -> nth_error (ledger_entries (db st')) k = Some x).
Proof.
  intros Hwf Hrow Hlid He Hcells Hbill Hpaid st'.
  pose proof (wf_entry_ids _ Hwf) as Hnd.
  destruct (entry_at_In _ _ _ _ He) as [Hin _].
  assert (Hrun : AnotherUp.ledger_cell_run py_float py_str row st
                 = (set_ledger_table
                      (AnotherUp.set_remaining (Z.to_nat row) (py_str (bill - paid)%float)
                         (ledger_table st))
                      (set_db (Sql.update_ledger_entry (cell_date cells) (cell_particulars cells)
                                 bill paid (bill - paid)%float (le_id e) (db st)) st),
                    negb (py_str (bill - paid)%float =? cell_remaining cells)%string)).
  { unfold AnotherUp.ledger_cell_run, Sql.entry_id_at, AnotherUp.table_row.
    rewrite Hlid, He. simpl.
    destruct (row <? 0) eqn:Hneg; [apply Z.ltb_lt in Hneg; lia|].
    rewrite Hcells, Hbill, Hpaid. reflexivity. }
  subst st'. rewrite Hrun. cbn [fst snd].
  split; [exact Hin|]. split; [apply List.length_map|]. split; [reflexivity|].
  intros k x Hk. simpl. rewrite nth_error_map, Hk. simpl. split.
  - intros ->. now rewrite Z.eqb_refl.
  - intro Hne. destruct (le_id x =? le_id e) eqn:E; [|reflexivity].
    exfalso. apply Hne. apply Z.eqb_eq in E.
    apply (NoDup_map_In_inj le_id (ledger_entries (db st))); auto.
    eapply nth_error_In; eassumption.
Qed.

(** The run that the first run's [setText] starts is the last one: it sets
    the text that is already there. *)
Lemma nested_run_is_the_last (row : Z) (st : App) :
  snd (AnotherUp.ledger_cell_run py_float py_str row st) = true ->
  snd (AnotherUp.ledger_cell_run py_float py_str row
         (fst (AnotherUp.ledger_cell_run py_float py_str row st))) = false.
Proof.
  intro Hemit.
  assert (Hfirst : exists lid entry_id cells bill paid,
             Sql.ledger_id_by_name (Py.strip (ledger_combo st)) (db st) = Some lid /\
             AnotherUp.table_row row st = Some cells /\
             py_float (cell_bill cells) = Some bill /\
             py_float (cell_paid cells) = Some paid /\
             fst (AnotherUp.ledger_cell_run py_float py_str row st)
             = set_ledger_table
                 (AnotherUp.set_remaining (Z.to_nat row) (py_str (bill - paid)%float)
                    (ledger_table st))
                 (set_db (Sql.update_ledger_entry (cell_date cells) (cell_particulars cells)
                            bill paid (bill - paid)%float entry_id (db st)) st)).
  { unfold AnotherUp.ledger_cell_run in *.
    destruct (Sql.ledger_id_by_name _ (db st)) as [lid|]; [|discriminate].
    destruct (Sql.entry_id_at lid row (db st)) as [entry_id|]; [|discriminate].
    destruct (AnotherUp.table_row row st) as [cells|]; [|discriminate].
    destruct (py_float (cell_bill cells)) as [bill|] eqn:Hbill; [|discriminate].
    destruct (py_float (cell_paid cells)) as [paid|] eqn:Hpaid; [|discriminate].
    exists lid, entry_id, cells, bill, paid. auto. }
  destruct Hfirst as (lid & entry_id & cells & bill & paid & Hlid & Hcells & Hbill & Hpaid & ->).
  set (st1 := set_ledger_table _ _).
  assert (Hlid1 : Sql.ledger_id_by_name (Py.strip (ledger_combo st1)) (db st1) = Some lid)
    by exact Hlid.
  assert (Hcells1 : AnotherUp.table_row row st1
                    = Some (mkLedgerRow (cell_date cells) (cell_particulars cells)
                              (cell_bill cells) (cell_paid cells)
                              (py_str (bill - paid)%float))).
  { unfold AnotherUp.table_row in *. subst st1. cbn [ledger_table set_ledger_table].
    destruct (row <? 0); [discriminate|].
    rewrite nth_error_set_remaining, Hcells. reflexivity. }
  unfold AnotherUp.ledger_cell_run. rewrite Hlid1.
  destruct (Sql.entry_id_at lid row (db st1)); [|reflexivity].
  rewrite Hcells1. cbn [cell_bill cell_paid]. rewrite Hbill, Hpaid.
  cbn [snd cell_remaining]. now rewrite String.eqb_refl.
Qed.

(** A bill or paid cell that is not a number: the handler warns and
    writes nothing. *)
Lemma ledger_edit_invalid_number (row col : Z) (st : App) (cells : LedgerRow) :
  AnotherUp.table_row row st = Some cells ->
  py_float (cell_bill cells) = None \/ py_float (cell_paid cells) = None ->
  db (AnotherUp.ledger_cell_changed py_float py_str row col st) = db st.
Proof.
  intros Hcells Hbad. unfold AnotherUp.ledger_cell_changed, AnotherUp.ledger_cell_run.
  destruct (Sql.ledger_id_by_name _ _); [|reflexivity].
  destruct (Sql.entry_id_at _ _ _); [|reflexivity].
  rewrite Hcells.
  destruct Hbad as [-> | Hp]; [reflexivity|].
  destruct (py_float (cell_bill cells)); [rewrite Hp|]; reflexivity.
Qed.

End LedgerEdit.

(** C6, at a failing input.  The ledger of [Sample.ledger_loaded] shows
    the entry "cloth" of 2024-05-01 in row 0 and the entry "thread" of
    2024-05-02 in row 1.  The user types the date 2024-05-03 into row 0,
    which is stored in the entry "cloth", and then the bill 500 into the
    same row.  That one edit rewrites two entries.  The first run of the
    slot takes position 0 of the stored order, where "thread" now stands,
    and overwrites it with the cells of row 0; its [setText] changes the
    remaining cell from 0.0 to 500.0, the slot runs again, finds "cloth" at
    position 0 and writes the cells to it as well.  No entry "thread" is
    left. *)
Theorem ledger_edit_rewrites_two_entries :
  let st1 := exec Sample.float_of_text Sample.text_of_float (TypeCell 0 0 "2024-05-03")
               Sample.ledger_loaded in
  let st2 := exec Sample.float_of_text Sample.text_of_float (TypeCell 0 2 "500") st1 in
  ledger_table Sample.ledger_loaded
  = [mkLedgerRow "2024-05-01" "cloth" "0.0" "0.0" "0.0";
     mkLedgerRow "2024-05-02" "thread" "0.0" "0.0" "0.0"] /\
  ledger_entries (db st1)
  = [mkLedgerEntry 1 1 "2024-05-03" "cloth" (Some 0%float) (Some 0%float) (Some 0%float);
     mkLedgerEntry 2 1 "2024-05-02" "thread" (Some 0%float) (Some 0%float) (Some 0%float)] /\
  Sql.entry_id_at 1 0 (db st1) = Some 2 /\
  ledger_entries (db st2)
  = [mkLedgerEntry 1 1 "2024-05-03" "cloth" (Some 500%float) (Some 0%float) (Some 500%float);
     mkLedgerEntry 2 1 "2024-05-03" "cloth" (Some 500%float) (Some 0%float) (Some 500%float)] /\
  ledger_table st2
  = [mkLedgerRow "2024-05-03" "cloth" "500" "0.0" "500.0";
     mkLedgerRow "2024-05-02" "thread" "0.0" "0.0" "0.0"].
Proof. repeat split; vm_compute; reflexivity. Qed.

(** The first run alone already writes to the entry the row does not show:
    the position is looked up in the stored order, and the table is not
    reloaded after a date has been typed. *)
Lemma ledger_edit_follows_stored_order :
  let st1 := exec Sample.float_of_text Sample.text_of_float (TypeCell 0 0 "2024-05-03")
               Sample.ledger_loaded in
  let typed := set_ledger_table (type_row 0 2 "500" (ledger_table st1)) st1 in
  ledger_entries
    (db (fst (AnotherUp.ledger_cell_run Sample.float_of_text Sample.text_of_float 0 typed)))
  = [mkLedgerEntry 1 1 "2024-05-03" "cloth" (Some 0%float) (Some 0%float) (Some 0%float);
     mkLedgerEntry 2 1 "2024-05-03" "cloth" (Some 500%float) (Some 0%float) (Some 500%float)] /\
  snd (AnotherUp.ledger_cell_run Sample.float_of_text Sample.text_of_float 0 typed) = true.
Proof. split; vm_compute; reflexivity. Qed.

(** Two infinities typed as bill and paid of row 0: [float] accepts both,
    their difference is a NaN, which the database holds as NULL, so the
    remaining of the entry is no number and the table reads [None] after a
    reload. *)
Lemma ledger_edit_of_infinities_stores_null :
  let st' := exec_all Sample.float_of_text Sample.text_of_float
               [TypeCell 0 2 "inf"; TypeCell 0 3 "inf"] Sample.ledger_loaded in
  nth_error (ledger_entries (db st')) 0
  = Some (mkLedgerEntry 1 1 "2024-05-01" "cloth" (Some infinity) (Some infinity) None) /\
  option_map cell_remaining (nth_error (ledger_table st') 0) = Some "nan" /\
  option_map cell_remaining
    (nth_error (ledger_table (AnotherUp.load_ledger_entries Sample.text_of_float st')) 0)
  = Some "None".
Proof. repeat split; vm_compute; reflexivity. Qed.

(** ** A stored invoice and the history view *)

(** [app.py]'s history view only reads: the database is untouched. *)
Lemma app_open_history_pdf_reads (selected : option string) (path : string) (st : App) :
  db (AppPy.open_history_pdf selected path st) = db st.
Proof.
  unfold AppPy.open_history_pdf. break_match; reflexivity.
Qed.

(** In [another-up.py], opening the PDF of a stored invoice whose number is
    selected and whose customer is found by phone rewrites the invoice row
    from the cart and the discount fields of the billing tab, whatever they
    hold at that moment. *)
Lemma open_history_pdf_writes_cart_totals (num path : string) (st : App)
    (inv : Invoice) (c : Customer) :
  Sql.invoice_by_number num (db st) = Some inv ->
  Sql.customer_by_id (i_customer_id inv) (db st) = Some c ->
  Sql.customer_id_by_phone (c_phone c) (db st) = Some (c_id c) ->
  Py.truthy path = true ->
  Py.truthy (c_name c) = true ->
  invoices (db (AnotherUp.open_history_pdf (Some num) path st))
  = map (fun i => if i_id i =? i_id inv
                  then mkInvoice (i_id i) (i_invoice_number i) (i_date i) (Some (c_id c))
                         (cart_subtotal (py st) (cart st)) (discount_name st) (discount_percent st)
                         (cart_tax (py st) (cart st))
                         (grand_total (cart_subtotal (py st) (cart st))
                            (discount_amount (cart_subtotal (py st) (cart st)) (discount_percent st))
                            (cart_tax (py st) (cart st)))
                  else i)
        (invoices (db st)).
Proof.
  intros Hinv Hcust Hphone Hpath Hname.
  unfold AnotherUp.open_history_pdf. rewrite Hinv, Hcust, Hpath.
  unfold AnotherUp.record_and_generate_pdf. rewrite Hname. simpl.
  rewrite Hphone, Hinv. reflexivity.
Qed.

(** C2, at a saved invoice.  The sample sale (two T-shirts at 100, tax 18 %,
    discount 10 %, no customer) is stored with subtotal 200, tax 36, total
    216 and a NULL customer.  Opening its PDF from the history tab, with the
    cart empty as the save left it, leaves the row with subtotal 0, tax 0,
    total 0, an empty discount and the id of a customer row created on the
    spot under the invoice number; the same action in [app.py] changes
    nothing. *)
Theorem open_history_pdf_overwrites_invoice :
  let st := Sample.saved in
  let st' := AnotherUp.open_history_pdf (Some "AB12CD34") "AB12CD34.pdf" st in
  cart st = [] /\
  invoices (db st)
  = [mkInvoice 1 "AB12CD34" "2024-05-01" None 200 "SALE" 10 36 216] /\
  customers (db st) = [] /\
  invoices (db st')
  = [mkInvoice 1 "AB12CD34" "2024-05-01" (Some 1) 0 "" 0 0 0] /\
  customers (db st') = [mkCustomer 1 "AB12CD34" "" None None 0 None] /\
  map i_customer_id (invoices (db st')) <> map i_customer_id (invoices (db st)) /\
  map i_total (invoices (db st')) <> map i_total (invoices (db st)) /\
  db (AppPy.open_history_pdf (Some "AB12CD34") "AB12CD34.pdf" st) = db st.
Proof.
  repeat split; try (vm_compute; reflexivity).
  - vm_compute. discriminate.
  - intro H.
    apply (f_equal (fun totals => match totals with
                                  | x :: _ => PrimFloat.eqb x 0
                                  | [] => false
                                  end)) in H.
    vm_compute in H. discriminate.
Qed.

(** ** Deleting *)

(** A declined question box: [delete_product] and [delete_invoice] remove
    nothing, and the box was shown. *)
Lemma declined_delete_keeps_rows (st : App) :
  (forall selected,
      db (destroy (Delete_product selected) No st) = db st) /\
  (forall inv_id,
      db (destroy (Delete_invoice inv_id) No st) = db st /\
      exists title text, log (destroy (Delete_invoice inv_id) No st)
                         = log st ++ [Question title text No]).
Proof.
  split.
  - intros [[prod_id name]|]; reflexivity.
  - intro inv_id. split; [reflexivity|]. simpl. eauto.
Qed.

(** An accepted question box: the product row, or the invoice row with its
    line items, is gone. *)
Lemma accepted_delete_removes_rows (st : App) :
  (forall prod_id name,
      products (db (destroy (Delete_product (Some (prod_id, name))) Yes st))
      = filter (fun p => negb (p_id p =? prod_id)) (products (db st))) /\
  (forall inv_id,
      invoices (db (destroy (Delete_invoice inv_id) Yes st))
      = filter (fun i => negb (i_id i =? inv_id)) (invoices (db st)) /\
      invoice_items (db (destroy (Delete_invoice inv_id) Yes st))
      = filter (fun it => negb (ii_invoice_id it =? inv_id)) (invoice_items (db st))).
Proof.
  split; [reflexivity | intro inv_id; split; reflexivity].
Qed.

(** [delete_ledger_entry] opens no box: whatever the user would answer, the
    entry is removed and nothing is shown. *)
Lemma delete_ledger_entry_asks_nothing (entry_id : Z) (row : nat) (reply : Reply) (st : App) :
  ledger_entries (db (destroy (Delete_ledger_entry entry_id row) reply st))
  = filter (fun e => negb (le_id e =? entry_id)) (ledger_entries (db st)) /\
  log (destroy (Delete_ledger_entry entry_id row) reply st) = log st.
Proof. split; reflexivity. Qed.

(** C8, at a ledger entry.  In the sample ledger the Delete button of the
    first table row (entry 2) removes the entry although the user, asked,
    would decline: no question box is shown at all. *)
Theorem delete_ledger_entry_without_confirmation :
  let st' := destroy (Delete_ledger_entry 2 0) No Sample.books in
  map le_id (ledger_entries (db Sample.books)) = [1; 2] /\
  map le_id (ledger_entries (db st')) = [1] /\
  log st' = [].
Proof.
  repeat split; reflexivity.
Qed.

(** ** The handlers keep the stored rows well formed *)

Lemma db_wf_frame (d d' : DB) :
  invoice_items d' = invoice_items d ->
  seq_invoices d <= seq_invoices d' ->
  ledger_entries d' = ledger_entries d ->
  seq_ledger_entries d' = seq_ledger_entries d ->
  customers d' = customers d ->
  db_wf d -> db_wf d'.
Proof.
  intros Hit Hseq Hle Hls Hc [H1 H2 H3 H4].
  constructor; rewrite ?Hit, ?Hle, ?Hls, ?Hc; auto.
  intros it Hin. specialize (H1 it Hin). lia.
Qed.

Lemma find_phone_none (phone : string) (cs : list Customer) :
  find (fun c => (c_phone c =? phone)%string) cs = None -> ~ In phone (map c_phone cs).
Proof.
  induction cs as [|c cs IH]; simpl; intro H; [tauto|].
  destruct (String.eqb_spec (c_phone c) phone) as [Heq | Hne]; [discriminate|].
  intros [Heq | Hin]; [congruence | exact (IH H Hin)].
Qed.

Lemma insert_customer_wf (name phone : string) (d : DB) :
  Sql.customer_id_by_phone phone d = None ->
  db_wf d -> db_wf (fst (Sql.insert_customer name phone d)).
Proof.
  intros Hnone [H1 H2 H3 H4]. constructor; simpl; auto.
  rewrite map_app. simpl. apply NoDup_snoc; [exact H4|].
  apply find_phone_none. unfold Sql.customer_id_by_phone in Hnone.
  destruct (find _ (customers d)); [discriminate | reflexivity].
Qed.

Lemma resolve_customer_wf (name phone : string) (d : DB) :
  db_wf d -> db_wf (fst (resolve_customer name phone d)).
Proof.
  intro Hwf. unfold resolve_customer.
  destruct (Py.truthy phone); [|exact Hwf].
  destruct (Sql.customer_id_by_phone phone d) eqn:E; [exact Hwf|].
  exact (insert_customer_wf (Py.or_else name "Walk-in") phone d E Hwf).
Qed.

Lemma insert_invoice_wf (num date : string) (c : option Z) (s : float) (dn : string)
    (dp t tot : float) (d d2 : DB) (k : Z) :
  Sql.insert_invoice num date c s dn dp t tot d = Some (d2, k) ->
  db_wf d -> db_wf d2 /\ k = seq_invoices d2.
Proof.
  unfold Sql.insert_invoice. destruct (Sql.invoice_by_number num d); [discriminate|].
  intros [= <- <-] Hwf. split; [|reflexivity].
  apply (db_wf_frame d); simpl; auto; lia.
Qed.

Lemma record_lines_wf (inv_id : Z) (c : list CartItem) (d : DB) :
  inv_id <= seq_invoices d -> db_wf d -> db_wf (record_lines inv_id c d).
Proof.
  intros Hid [H1 H2 H3 H4].
  destruct (record_lines_frame inv_id c d) as (_ & Hc & Hs & Hle & Hls).
  destruct (record_lines_items inv_id c d) as (rows & Hrows & _ & Hall).
  constructor; rewrite ?Hc, ?Hs, ?Hle, ?Hls; auto.
  intros it Hin. rewrite Hrows in Hin. apply in_app_or in Hin.
  destruct Hin as [Hin | Hin]; [auto|].
  rewrite Forall_forall in Hall. rewrite (Hall it Hin). exact Hid.
Qed.

Lemma save_invoice_wf (mode path fresh : string) (st : App) :
  db_wf (db st) -> db_wf (db (AnotherUp.save_invoice mode path fresh st)).
Proof.
  intro Hwf. unfold AnotherUp.save_invoice.
  destruct (cart st) as [|line rest]; [exact Hwf|].
  pose proof (resolve_customer_wf (Py.strip (cust_name st)) (Py.strip (cust_phone st))
                (db st) Hwf) as Hwf1.
  destruct (resolve_customer _ _ (db st)) as [d1 cust_id]. simpl in Hwf1.
  destruct (Sql.insert_invoice _ _ _ _ _ _ _ _ d1) as [[d2 k]|] eqn:E; [|exact Hwf1].
  destruct (insert_invoice_wf _ _ _ _ _ _ _ _ _ _ _ E Hwf1) as [Hwf2 Hk].
  assert (Hwf3 : db_wf (record_lines k (line :: rest) d2))
    by (apply record_lines_wf; [lia | exact Hwf2]).
  destruct (Py.truthy path); exact Hwf3.
Qed.

Lemma or_else_empty (s : string) : Py.or_else s "" = s.
Proof. destruct s; reflexivity. Qed.

Lemma update_invoice_wf (c : option Z) (s : float) (dn : string) (dp t tot : float)
    (k : Z) (d : DB) :
  db_wf d -> db_wf (Sql.update_invoice c s dn dp t tot k d).
Proof. apply db_wf_frame; simpl; auto; lia. Qed.

Lemma record_and_generate_pdf_wf (path : string) (inv_id : Z)
    (inv_num date name phone : string) (st : App) :
  db_wf (db st) ->
  db_wf (db (AnotherUp.record_and_generate_pdf path inv_id inv_num date name phone st)).
Proof.
  intro Hwf. unfold AnotherUp.record_and_generate_pdf.
  assert (Hwf1 : forall r : DB * option Z,
             r = (if Py.truthy name || Py.truthy phone
                  then match Sql.customer_id_by_phone phone (db st) with
                       | Some k => (db st, Some k)
                       | None =>
                           let '(d', k) := Sql.insert_customer (Py.or_else name "Walk-in")
                                             (Py.or_else phone "") (db st) in
                           (d', Some k)
                       end
                  else (db st, None)) ->
             db_wf (fst r)).
  { intros r ->. destruct (Py.truthy name || Py.truthy phone); [|exact Hwf].
    destruct (Sql.customer_id_by_phone phone (db st)) eqn:E; [exact Hwf|].
    rewrite or_else_empty.
    exact (insert_customer_wf (Py.or_else name "Walk-in") phone (db st) E Hwf). }
  specialize (Hwf1 _ eq_refl).
  destruct (if Py.truthy name || Py.truthy phone then _ else _) as [d1 cust_id].
  simpl in Hwf1.
  destruct (Sql.invoice_by_number inv_num d1).
  - simpl. now apply update_invoice_wf.
  - destruct (Sql.insert_invoice _ _ _ _ _ _ _ _ d1) as [[d2 k]|] eqn:E; simpl.
    + apply update_invoice_wf. exact (proj1 (insert_invoice_wf _ _ _ _ _ _ _ _ _ _ _ E Hwf1)).
    + exact Hwf1.
Qed.

Lemma NoDup_map_filter {A B : Type} (f : A -> B) (keep : A -> bool) (l : list A) :
  NoDup (map f l) -> NoDup (map f (filter keep l)).
Proof.
  induction l as [|x l IH]; simpl; intro Hnd; [constructor|].
  inversion Hnd as [|? ? Hnotin Hnd']; subst.
  destruct (keep x); simpl; [|auto].
  constructor; [|auto].
  intro Hin. apply Hnotin. apply in_map_iff in Hin. destruct Hin as (y & Hy & Hiny).
  apply filter_In in Hiny. apply in_map_iff. exists y. tauto.
Qed.

Lemma delete_ledger_entry_wf (entry_id : Z) (d : DB) :
  db_wf d -> db_wf (Sql.delete_ledger_entry entry_id d).
Proof.
  intros [H1 H2 H3 H4]. constructor; simpl; auto.
  - now apply NoDup_map_filter.
  - intros e Hin. apply filter_In in Hin. now apply H3.
Qed.

Lemma update_ledger_entry_wf (date particulars : string) (bill paid rem : float)
    (entry_id : Z) (d : DB) :
  db_wf d -> db_wf (Sql.update_ledger_entry date particulars bill paid rem entry_id d).
Proof.
  intros [H1 H2 H3 H4].
  assert (Hids : map le_id (ledger_entries
                              (Sql.update_ledger_entry date particulars bill paid rem entry_id d))
                 = map le_id (ledger_entries d)).
  { simpl. rewrite map_map. apply map_ext. intro e. now destruct (le_id e =? entry_id). }
  constructor; auto.
  - now rewrite Hids.
  - simpl. intros e Hin. apply in_map_iff in Hin. destruct Hin as (x & <- & Hx).
    specialize (H3 x Hx). now destruct (le_id x =? entry_id).
Qed.

Lemma insert_ledger_entry_wf (lid : Z) (today : string) (d : DB) :
  db_wf d -> db_wf (Sql.insert_ledger_entry lid today d).
Proof.
  intros [H1 H2 H3 H4]. constructor; simpl; auto.
  - rewrite map_app. simpl. apply NoDup_snoc; [exact H2|].
    intro Hin. apply in_map_iff in Hin. destruct Hin as (e & He & Hin).
    specialize (H3 e Hin). lia.
  - intros e Hin. apply in_app_or in Hin. destruct Hin as [Hin | [<- | []]].
    + specialize (H3 e Hin). lia.
    + simpl. lia.
Qed.

Section Integrity.

Variable py_float : string -> option float.
Variable py_str : float -> string.

Lemma run_wf (a : Action) (st : App) :
  db_wf (db st) -> db_wf (db (run py_float py_str a st)).
Proof.
  intro Hwf. destruct a; simpl.
  - unfold add_to_cart. break_match; exact Hwf.
  - unfold remove_from_cart. break_match; exact Hwf.
  - now apply save_invoice_wf.
  - unfold AnotherUp.open_history_pdf.
    destruct selected as [num|]; [|exact Hwf].
    destruct (Sql.invoice_by_number num (db st)); [|exact Hwf].
    destruct (Py.truthy path); [|exact Hwf].
    now apply record_and_generate_pdf_wf.
  - unfold AnotherUp.delete_product.
    destruct selected as [[prod_id name]|]; [|exact Hwf].
    destruct reply; simpl; [|exact Hwf].
    revert Hwf. apply db_wf_frame; simpl; auto; lia.
  - unfold AnotherUp.delete_invoice. destruct reply; simpl; [|exact Hwf].
    destruct Hwf as [H1 H2 H3 H4]. constructor; simpl; auto.
    intros it Hin. apply filter_In in Hin. now apply H1.
  - unfold AnotherUp.delete_ledger_entry. simpl. now apply delete_ledger_entry_wf.
  - unfold AnotherUp.load_ledger_entries. break_match; exact Hwf.
  - unfold AnotherUp.add_ledger_entry, AnotherUp.load_ledger_entries.
    destruct (negb _); [exact Hwf|].
    destruct (Sql.ledger_id_by_name _ (db st)) as [lid|]; [|exact Hwf].
    simpl.
    assert (Hwf' : db_wf (Sql.insert_ledger_entry lid today (db st)))
      by now apply insert_ledger_entry_wf.
    break_match; exact Hwf'.
  - apply (ledger_cell_changed_runs py_float py_str (fun s => db_wf (db s))); [|exact Hwf].
    intros s Hs. unfold AnotherUp.ledger_cell_run. break_match; simpl; try exact Hs.
    now apply update_ledger_entry_wf.
Qed.

(** Started on a well-formed database (an empty one is), the window only
    ever reaches well-formed ones. *)
Lemma run_all_wf (actions : list Action) (st : App) :
  db_wf (db st) -> db_wf (db (run_all py_float py_str actions st)).
Proof.
  unfold run_all. revert st.
  induction actions as [|a actions IH]; intros st Hwf; simpl; [exact Hwf|].
  apply IH. now apply run_wf.
Qed.

End Integrity.

Lemma empty_db_wf : db_wf empty_db.
Proof. constructor; simpl; first [intros ? [] | constructor]. Qed.

(** * Further properties of the code *)

(** ** Settings *)

Lemma find_app_or {A : Type} (f : A -> bool) (l l' : list A) :
  find f (l ++ l') = match find f l with Some x => Some x | None => find f l' end.
Proof.
  induction l as [|x l IH]; simpl; [reflexivity|]. now destruct (f x).
Qed.

Lemma find_filter_out {A : Type} (f : A -> bool) (l : list A) :
  find f (filter (fun x => negb (f x)) l) = None.
Proof.
  induction l as [|x l IH]; simpl; [reflexivity|].
  destruct (f x) eqn:E; simpl; [exact IH | now rewrite E].
Qed.

Lemma find_filter_keep {A : Type} (f keep : A -> bool) (l : list A) :
  (forall x, f x = true -> keep x = true) ->
  find f (filter keep l) = find f l.
Proof.
  intro H. induction l as [|x l IH]; simpl; [reflexivity|].
  destruct (keep x) eqn:Ek; simpl.
  - now destruct (f x).
  - destruct (f x) eqn:Ef; [rewrite (H x Ef) in Ek; discriminate | exact IH].
Qed.

Lemma setting_row_set_same (k v : string) (s : Settings) :
  setting_row k (set_setting k v s) = Some v.
Proof.
  unfold setting_row, set_setting. rewrite find_app_or.
  rewrite (find_filter_out (fun r => (fst r =? k)%string)). simpl.
  now rewrite String.eqb_refl.
Qed.

Lemma setting_row_set_other (k k' v : string) (s : Settings) :
  k' <> k -> setting_row k' (set_setting k v s) = setting_row k' s.
Proof.
  intro Hne. unfold setting_row, set_setting. rewrite find_app_or.
  rewrite find_filter_keep.
  - destruct (find _ s); [reflexivity|]. simpl.
    destruct (String.eqb_spec k k'); [congruence | reflexivity].
  - intros [key val] Hkey. simpl in *. apply String.eqb_eq in Hkey. subst key.
    apply Bool.negb_true_iff, String.eqb_neq. exact Hne.
Qed.

(** X1. A setting written by [set_setting] is what [get_setting] reads back
    under that key, whatever the table held: in [another-up.py] the value
    itself, in [app.py] the value or, for an empty value, the default.
    Every other key reads as before. *)
Theorem setting_written_is_read (k v default : string) (s : Settings) :
  AnotherUp.get_setting k default (set_setting k v s) = v /\
  AppPy.get_setting k default (set_setting k v s)
  = inr (if (v =? "")%string then default else v) /\
  forall k', k' <> k ->
    AnotherUp.get_setting k' default (set_setting k v s) = AnotherUp.get_setting k' default s /\
    AppPy.get_setting k' default (set_setting k v s) = AppPy.get_setting k' default s.
Proof.
  unfold AnotherUp.get_setting, AppPy.get_setting.
  rewrite setting_row_set_same. split; [reflexivity|]. split.
  - unfold Py.or_else, Py.truthy. now destruct (v =? "")%string.
  - intros k' Hne. now rewrite (setting_row_set_other k k' v s Hne).
Qed.

Lemma setting_row_saved (store_name store_addr store_email store_phone : string)
    (dark_mode : bool) (s : Settings) (k : string) :
  setting_row k (save_settings store_name store_addr store_email store_phone dark_mode s)
  = if (k =? "dark_mode")%string then Some (if dark_mode then "1" else "0")
    else if (k =? "store_phone")%string then Some store_phone
    else if (k =? "store_email")%string then Some store_email
    else if (k =? "store_address")%string then Some store_addr
    else if (k =? "store_name")%string then Some store_name
    else setting_row k s.
Proof.
  unfold save_settings.
  repeat match goal with
         | |- context [(k =? ?key)%string] =>
             destruct (String.eqb_spec k key) as [-> | ?];
             [ now rewrite setting_row_set_same
             | rewrite setting_row_set_other by assumption ]
         end.
  reflexivity.
Qed.

Lemma replace_char_absent (c : ascii) (by_text s : string) :
  (forall i, String.get i s <> Some c) -> Py.replace_char c by_text s = s.
Proof.
  induction s as [|x s IH]; intro H; simpl; [reflexivity|].
  destruct (Ascii.eqb_spec x c) as [-> | _].
  - exfalso. exact (H 0%nat eq_refl).
  - rewrite IH; [reflexivity|]. intro i. exact (H (S i)).
Qed.

(** X2. After [save_settings] every invoice PDF carries what was saved: the
    store name, e-mail and phone as typed, and the address with each line
    break replaced by a comma and a blank; this holds whatever the settings
    table held before, for every stored invoice. *)
Theorem saved_settings_reach_the_pdf
    (store_name store_addr store_email store_phone : string) (dark_mode : bool)
    (s : Settings) (inv : Invoice) (inv_num date cust_name cust_phone : string) (d : DB) :
  Sql.invoice_by_id (i_id inv) d = Some inv ->
  exists pdf,
    AnotherUp._make_pdf
      (save_settings store_name store_addr store_email store_phone dark_mode s)
      (i_id inv) inv_num date cust_name cust_phone d = inr pdf /\
    pdf_store_name pdf = store_name /\
    pdf_email pdf = store_email /\
    pdf_store_phone pdf = store_phone /\
    pdf_address pdf = Py.replace_char (ascii_of_nat 10) ", " store_addr /\
    ((forall i, String.get i store_addr <> Some (ascii_of_nat 10)) ->
     pdf_address pdf = store_addr).
Proof.
  intro Hinv. unfold AnotherUp._make_pdf, AnotherUp.get_setting.
  rewrite Hinv, !setting_row_saved. simpl.
  eexists. split; [reflexivity|]. simpl.
  repeat split. apply replace_char_absent.
Qed.

Lemma saved_settings_reach_the_pdf_witness :
  exists pdf,
    AnotherUp._make_pdf
      (save_settings "Silk Road" ("12 Mill Lane" ++ newline ++ "Pune")%string "shop@silk.example"
         "020-5550100" true default_settings)
      1 "AB12CD34" "2024-05-01" "AB12CD34" "" (db Sample.saved) = inr pdf /\
    pdf_store_name pdf = "Silk Road" /\
    pdf_address pdf = "12 Mill Lane, Pune".
Proof.
  destruct (saved_settings_reach_the_pdf "Silk Road" ("12 Mill Lane" ++ newline ++ "Pune")%string
              "shop@silk.example" "020-5550100" true default_settings
              (mkInvoice 1 "AB12CD34" "2024-05-01" None 200 "SALE" 10 36 216)
              "AB12CD34" "2024-05-01" "AB12CD34" "" (db Sample.saved) eq_refl)
    as (pdf & Hpdf & Hname & _ & _ & Haddr & _).
  exists pdf. split; [exact Hpdf|]. split; [exact Hname|].
  rewrite Haddr. reflexivity.
Defined.

Lemma setting_row_insert_or_ignore (s : Settings) (r : string * string) (k : string) :
  setting_row k (insert_or_ignore s r)
  = match setting_row k s with
    | Some v => Some v
    | None => if (fst r =? k)%string then Some (snd r) else None
    end.
Proof.
  unfold insert_or_ignore.
  destruct (setting_row (fst r) s) as [v|] eqn:E.
  - destruct (setting_row k s) eqn:Ek; [reflexivity|].
    destruct (String.eqb_spec (fst r) k) as [Heq | _]; [congruence | reflexivity].
  - unfold setting_row in *. rewrite find_app_or.
    destruct (find (fun r0 => (fst r0 =? k)%string) s); [reflexivity|]. simpl.
    now destruct (fst r =? k)%string.
Qed.

(** The schema script leaves the rows it finds and adds the missing
    defaults. *)
Lemma setting_row_seeded (s : Settings) (k : string) :
  setting_row k (seed_settings s)
  = match setting_row k s with
    | Some v => Some v
    | None => setting_row k default_settings
    end.
Proof.
  unfold seed_settings, default_settings. simpl fold_left.
  rewrite !setting_row_insert_or_ignore. cbn [fst snd].
  destruct (setting_row k s); [reflexivity|].
  unfold setting_row. cbn [find option_map fst snd].
  repeat match goal with
         | |- context [(?key =? k)%string] => destruct (key =? k)%string
         end; reflexivity.
Qed.

(** In every settings table the program produces, the dark mode flag is "0"
    or "1" and there is no [dark_mode_override] row. *)
Lemma settings_after_flags (events : list SettingsEvent) :
  setting_row "dark_mode_override" (settings_after events) = None /\
  (setting_row "dark_mode" (settings_after events) = Some "0" \/
   setting_row "dark_mode" (settings_after events) = Some "1").
Proof.
  unfold settings_after.
  assert (Hgen : forall s,
             setting_row "dark_mode_override" s = None /\
             (setting_row "dark_mode" s = Some "0" \/ setting_row "dark_mode" s = Some "1") ->
             setting_row "dark_mode_override" (fold_left settings_step events s) = None /\
             (setting_row "dark_mode" (fold_left settings_step events s) = Some "0" \/
              setting_row "dark_mode" (fold_left settings_step events s) = Some "1")).
  { induction events as [|e events IH]; intros s Hs; simpl; [exact Hs|].
    apply IH. destruct Hs as [Hover Hdark]. destruct e; simpl.
    - rewrite !setting_row_seeded, Hover.
      split; [reflexivity|]. destruct Hdark as [-> | ->]; auto.
    - rewrite !setting_row_saved. simpl. split; [exact Hover|].
      destruct dark_mode; auto. }
  apply Hgen. split; [reflexivity | left; reflexivity].
Qed.

Section Startup.

(** The built-in [int] on texts, of which only the values at "0" and "1"
    matter here. *)
Variable py_int : string -> option Z.
Hypothesis py_int_0 : py_int "0" = Some 0.
Hypothesis py_int_1 : py_int "1" = Some 1.

(** X3. [another-up.py] never writes a [dark_mode_override] row, so at every
    start, after any history of starts and saved settings on a new database
    file, [__init__] ends up with the theme the system reports: the dark mode
    saved on the settings tab has no effect on the next start. *)
Theorem startup_follows_system_theme (events : list SettingsEvent) (detected : bool) :
  AnotherUp.startup_dark_mode py_int detected (settings_step (settings_after events) Start)
  = Some detected.
Proof.
  assert (Hlast : settings_step (settings_after events) Start
                  = settings_after (events ++ [Start]))
    by (unfold settings_after; now rewrite fold_left_app).
  rewrite Hlast.
  destruct (settings_after_flags (events ++ [Start])) as [Hover Hdark].
  unfold AnotherUp.startup_dark_mode, AnotherUp.get_setting.
  rewrite Hover, py_int_0.
  destruct Hdark as [-> | ->]; [rewrite py_int_0 | rewrite py_int_1]; reflexivity.
Qed.

(** X4. [app.py] starts in the mode that was last saved: after
    [save_settings] with the dark mode flag [dark_mode], the next start reads
    it back, whatever the settings table held before the save. *)
Theorem app_startup_follows_saved_mode
    (store_name store_addr store_email store_phone : string) (dark_mode : bool) (s : Settings) :
  AppPy.startup_dark_mode py_int
    (settings_step
       (settings_step s (SaveSettings store_name store_addr store_email store_phone dark_mode))
       Start)
  = Some dark_mode.
Proof.
  unfold AppPy.startup_dark_mode, AppPy.get_setting. simpl settings_step.
  rewrite setting_row_seeded, setting_row_saved. simpl.
  destruct dark_mode; simpl.
  - change (Py.or_else "1" "") with "1". now rewrite py_int_1.
  - change (Py.or_else "0" "") with "0". now rewrite py_int_0.
Qed.

End Startup.

Lemma startup_follows_system_theme_witness :
  AnotherUp.startup_dark_mode Sample.int_of_digits false
    (settings_step
       (settings_after [SaveSettings "Silk Road" "Pune" "shop@silk.example" "020-5550100" true])
       Start)
  = Some false.
Proof.
  exact (startup_follows_system_theme Sample.int_of_digits eq_refl eq_refl
           [SaveSettings "Silk Road" "Pune" "shop@silk.example" "020-5550100" true] false).
Defined.

Lemma app_startup_follows_saved_mode_witness :
  AppPy.startup_dark_mode Sample.int_of_digits
    (settings_step
       (settings_step default_settings
          (SaveSettings "Silk Road" "Pune" "shop@silk.example" "020-5550100" true))
       Start)
  = Some true.
Proof.
  exact (app_startup_follows_saved_mode Sample.int_of_digits eq_refl eq_refl
           "Silk Road" "Pune" "shop@silk.example" "020-5550100" true default_settings).
Defined.

(** ** What the handlers keep true of the database *)

Ltac open_sound H :=
  destruct H as ([?w1 ?w2 ?w3 ?w4] & [?k1 ?k2 ?k3 ?k4 ?k5 ?k6 ?k7 ?k8 ?k9 ?k10]
                 & [?r1 ?r2] & ?b).

Ltac close_sound :=
  split; [constructor | split; [constructor | split; [constructor | unfold balanced]]];
  simpl; auto.

Lemma in_snoc {A : Type} (x y : A) (l : list A) : In x (l ++ [y]) -> In x l \/ x = y.
Proof.
  intro H. apply in_app_or in H. destruct H as [H | [H | []]]; auto.
Qed.

Lemma NoDup_snoc_fresh (k : Z) (ids : list Z) :
  NoDup ids -> (forall x, In x ids -> x <= k) -> NoDup (ids ++ [k + 1]).
Proof.
  intros Hnd Hle. apply NoDup_snoc; [exact Hnd|].
  intro Hin. specialize (Hle _ Hin). lia.
Qed.

Lemma map_keeps_key {A B : Type} (key : A -> B) (g : A -> A) (l : list A) :
  (forall x, key (g x) = key x) -> map key (map g l) = map key l.
Proof.
  intro H. rewrite map_map. apply map_ext. exact H.
Qed.

Lemma bound_of_map {A : Type} (key : A -> Z) (k : Z) (l : list A) :
  (forall x, In x l -> key x <= k) -> forall i, In i (map key l) -> i <= k.
Proof.
  intros H i Hin. apply in_map_iff in Hin. destruct Hin as (x & <- & Hx). auto.
Qed.

Lemma find_none_not_in {A : Type} (key : A -> string) (name : string) (l : list A) :
  find (fun x => (key x =? name)%string) l = None -> ~ In name (map key l).
Proof.
  induction l as [|x l IH]; simpl; intro H; [tauto|].
  destruct (String.eqb_spec (key x) name) as [Heq | Hne]; [discriminate|].
  intros [Heq | Hin]; [congruence | exact (IH H Hin)].
Qed.

Lemma insert_customer_sound (name phone : string) (d : DB) :
  Sql.customer_id_by_phone phone d = None ->
  sound d -> sound (fst (Sql.insert_customer name phone d)).
Proof.
  intros Hnone Hs. open_sound Hs. close_sound.
  - rewrite map_app. simpl. apply NoDup_snoc; [assumption|].
    unfold Sql.customer_id_by_phone in Hnone.
    apply find_none_not_in. destruct (find _ (customers d)); [discriminate | reflexivity].
  - rewrite map_app. simpl. apply NoDup_snoc_fresh; [assumption|].
    intros x Hx. apply in_map_iff in Hx. destruct Hx as (c & <- & Hc). apply k4. exact Hc.
  - intros c Hc. apply in_snoc in Hc. destruct Hc as [Hc | ->]; simpl.
    + specialize (k4 c Hc). lia.
    + lia.
  - lia.
Qed.

Lemma resolve_customer_sound (name phone : string) (d : DB) :
  sound d -> sound (fst (resolve_customer name phone d)).
Proof.
  intro Hs. unfold resolve_customer.
  destruct (Py.truthy phone); [|exact Hs].
  destruct (Sql.customer_id_by_phone phone d) eqn:E; [exact Hs|].
  exact (insert_customer_sound (Py.or_else name "Walk-in") phone d E Hs).
Qed.

Lemma insert_invoice_sound (num date : string) (c : option Z) (s : float) (dn : string)
    (dp t tot : float) (d d2 : DB) (k : Z) :
  Sql.insert_invoice num date c s dn dp t tot d = Some (d2, k) ->
  sound d ->
  sound d2 /\ In k (map i_id (invoices d2)) /\ k <= seq_invoices d2.
Proof.
  unfold Sql.insert_invoice, Sql.invoice_by_number.
  destruct (find _ (invoices d)) eqn:E; [discriminate|].
  intros [= <- <-] Hs. split; [|split; simpl; [|lia]].
  - open_sound Hs. close_sound.
    + intros it Hit. specialize (w1 it Hit). lia.
    + rewrite map_app. simpl. apply NoDup_snoc_fresh; [assumption|].
      now apply bound_of_map.
    + intros i Hi. apply in_snoc in Hi. destruct Hi as [Hi | ->]; simpl; [|lia].
      specialize (k7 i Hi). lia.
    + rewrite map_app. simpl. apply NoDup_snoc; [assumption|].
      now apply find_none_not_in.
    + intros it Hit. rewrite map_app, in_app_iff. left. auto.
  - rewrite map_app, in_app_iff. right. now left.
Qed.

Lemma record_line_sound (inv_id : Z) (d : DB) (item : CartItem) :
  In inv_id (map i_id (invoices d)) -> inv_id <= seq_invoices d ->
  sound d -> sound (record_line inv_id d item).
Proof.
  intros Hin Hle Hs. open_sound Hs. close_sound.
  - intros it Hit. apply in_snoc in Hit. destruct Hit as [Hit | ->]; simpl; auto.
  - rewrite map_keeps_key; [assumption|].
    intro p. now destruct (p_id p =? item_id item).
  - intros p Hp. apply in_map_iff in Hp. destruct Hp as (q & <- & Hq).
    specialize (k2 q Hq). now destruct (p_id q =? item_id item).
  - intros it Hit. apply in_snoc in Hit. destruct Hit as [Hit | ->]; simpl; auto.
Qed.

Lemma record_lines_sound (inv_id : Z) (c : list CartItem) (d : DB) :
  In inv_id (map i_id (invoices d)) -> inv_id <= seq_invoices d ->
  sound d -> sound (record_lines inv_id c d).
Proof.
  unfold record_lines. revert d.
  induction c as [|item c IH]; intros d Hin Hle Hs; simpl; [exact Hs|].
  apply IH; [exact Hin | exact Hle | now apply record_line_sound].
Qed.

Lemma save_invoice_sound (mode path fresh : string) (st : App) :
  sound (db st) -> sound (db (AnotherUp.save_invoice mode path fresh st)).
Proof.
  intro Hs. unfold AnotherUp.save_invoice.
  destruct (cart st) as [|line rest]; [exact Hs|].
  pose proof (resolve_customer_sound (Py.strip (cust_name st)) (Py.strip (cust_phone st))
                (db st) Hs) as Hs1.
  destruct (resolve_customer _ _ (db st)) as [d1 cust_id]. simpl in Hs1.
  destruct (Sql.insert_invoice _ _ _ _ _ _ _ _ d1) as [[d2 k]|] eqn:E; [|exact Hs1].
  destruct (insert_invoice_sound _ _ _ _ _ _ _ _ _ _ _ E Hs1) as (Hs2 & Hin & Hle).
  assert (Hs3 : sound (record_lines k (line :: rest) d2))
    by now apply record_lines_sound.
  destruct (Py.truthy path); exact Hs3.
Qed.

Lemma update_invoice_sound (c : option Z) (s : float) (dn : string) (dp t tot : float)
    (k : Z) (d : DB) :
  sound d -> sound (Sql.update_invoice c s dn dp t tot k d).
Proof.
  intro Hs. open_sound Hs.
  assert (Hids : map i_id (map (fun i => if i_id i =? k
                                         then mkInvoice (i_id i) (i_invoice_number i) (i_date i)
                                                c s dn dp t tot
                                         else i) (invoices d))
                 = map i_id (invoices d))
    by (apply map_keeps_key; intro i; now destruct (i_id i =? k)).
  close_sound.
  - now rewrite Hids.
  - intros i Hi. apply in_map_iff in Hi. destruct Hi as (j & <- & Hj).
    specialize (k7 j Hj). now destruct (i_id j =? k).
  - rewrite map_keeps_key; [assumption|]. intro i. now destruct (i_id i =? k).
  - intros it Hit. rewrite Hids. auto.
Qed.

Lemma record_and_generate_pdf_sound (path : string) (inv_id : Z)
    (inv_num date name phone : string) (st : App) :
  sound (db st) ->
  sound (db (AnotherUp.record_and_generate_pdf path inv_id inv_num date name phone st)).
Proof.
  intro Hs. unfold AnotherUp.record_and_generate_pdf.
  assert (Hs1 : forall r : DB * option Z,
             r = (if Py.truthy name || Py.truthy phone
                  then match Sql.customer_id_by_phone phone (db st) with
                       | Some k => (db st, Some k)
                       | None =>
                           let '(d', k) := Sql.insert_customer (Py.or_else name "Walk-in")
                                             (Py.or_else phone "") (db st) in
                           (d', Some k)
                       end
                  else (db st, None)) ->
             sound (fst r)).
  { intros r ->. destruct (Py.truthy name || Py.truthy phone); [|exact Hs].
    destruct (Sql.customer_id_by_phone phone (db st)) eqn:E; [exact Hs|].
    rewrite or_else_empty.
    exact (insert_customer_sound (Py.or_else name "Walk-in") phone (db st) E Hs). }
  specialize (Hs1 _ eq_refl).
  destruct (if Py.truthy name || Py.truthy phone then _ else _) as [d1 cust_id].
  simpl in Hs1.
  destruct (Sql.invoice_by_number inv_num d1).
  - simpl. now apply update_invoice_sound.
  - destruct (Sql.insert_invoice _ _ _ _ _ _ _ _ d1) as [[d2 k]|] eqn:E; simpl.
    + apply update_invoice_sound.
      exact (proj1 (insert_invoice_sound _ _ _ _ _ _ _ _ _ _ _ E Hs1)).
    + exact Hs1.
Qed.

Lemma filter_bound {A : Type} (P : A -> Prop) (keep : A -> bool) (l : list A) :
  (forall x, In x l -> P x) -> forall x, In x (filter keep l) -> P x.
Proof. intros H x Hx. apply filter_In in Hx. now apply H. Qed.

Lemma delete_product_sound (prod_id : Z) (d : DB) :
  sound d -> sound (Sql.delete_product prod_id d).
Proof.
  intro Hs. open_sound Hs. close_sound.
  - now apply NoDup_map_filter.
  - now apply filter_bound.
Qed.

Lemma delete_invoice_sound (inv_id : Z) (d : DB) :
  sound d -> sound (Sql.delete_invoice inv_id (Sql.delete_invoice_items inv_id d)).
Proof.
  intro Hs. open_sound Hs. close_sound.
  - now apply filter_bound.
  - now apply NoDup_map_filter.
  - now apply filter_bound.
  - now apply NoDup_map_filter.
  - intros it Hit. apply filter_In in Hit. destruct Hit as [Hit Hne].
    specialize (r1 it Hit). apply in_map_iff in r1. destruct r1 as (i & Hid & Hi).
    apply in_map_iff. exists i. split; [exact Hid|].
    apply filter_In. split; [exact Hi|]. now rewrite Hid.
Qed.

Lemma delete_ledger_entry_sound (entry_id : Z) (d : DB) :
  sound d -> sound (Sql.delete_ledger_entry entry_id d).
Proof.
  intro Hs. open_sound Hs. close_sound.
  - now apply NoDup_map_filter.
  - now apply filter_bound.
  - now apply filter_bound.
  - intros e He. apply filter_In in He. destruct He as [He _]. exact (b e He).
Qed.

(** A float that is stored as a number is stored as it is. *)
Lemma real_some (x y : float) : Sql.real x = Some y -> x = y.
Proof. unfold Sql.real. destruct (is_nan x); [discriminate | now intros [= ->]]. Qed.

Lemma ledger_id_by_name_In (name : string) (d : DB) (lid : Z) :
  Sql.ledger_id_by_name name d = Some lid -> In lid (map l_id (ledgers d)).
Proof.
  unfold Sql.ledger_id_by_name. destruct (find _ (ledgers d)) as [l|] eqn:E; [|discriminate].
  intros [= <-]. apply find_some in E. apply in_map. tauto.
Qed.

Lemma insert_ledger_entry_sound (lid : Z) (today : string) (d : DB) :
  In lid (map l_id (ledgers d)) ->
  sound d -> sound (Sql.insert_ledger_entry lid today d).
Proof.
  intros Hlid Hs. open_sound Hs. close_sound.
  - rewrite map_app. simpl. apply NoDup_snoc_fresh; [assumption|].
    now apply bound_of_map.
  - intros e He. apply in_snoc in He. destruct He as [He | ->]; simpl; [|lia].
    specialize (w3 e He). lia.
  - intros e He. apply in_snoc in He. destruct He as [He | ->]; simpl; auto.
  - intros e He. apply in_snoc in He. destruct He as [He | ->]; [exact (b e He)|].
    simpl. intros bill paid [= <-] [= <-]. reflexivity.
Qed.

Lemma update_ledger_entry_sound (date particulars : string) (bill paid : float)
    (entry_id : Z) (d : DB) :
  sound d ->
  sound (Sql.update_ledger_entry date particulars bill paid (bill - paid)%float entry_id d).
Proof.
  intro Hs. open_sound Hs. close_sound.
  - rewrite map_keeps_key; [assumption|]. intro e. now destruct (le_id e =? entry_id).
  - intros e He. apply in_map_iff in He. destruct He as (x & <- & Hx).
    specialize (w3 x Hx). now destruct (le_id x =? entry_id).
  - intros e He. apply in_map_iff in He. destruct He as (x & <- & Hx).
    specialize (r2 x Hx). now destruct (le_id x =? entry_id).
  - intros e He. apply in_map_iff in He. destruct He as (x & <- & Hx).
    destruct (le_id x =? entry_id); [|exact (b x Hx)].
    simpl. intros bill' paid' Hb Hp.
    apply real_some in Hb, Hp. now subst.
Qed.

Lemma insert_ledger_sound (name : string) (d d' : DB) :
  Sql.insert_ledger name d = Some d' -> sound d -> sound d'.
Proof.
  unfold Sql.insert_ledger, Sql.ledger_id_by_name.
  destruct (find _ (ledgers d)) eqn:E; [discriminate|].
  intros [= <-] Hs. open_sound Hs. close_sound.
  - rewrite map_app. simpl. apply NoDup_snoc; [assumption|]. now apply find_none_not_in.
  - intros l Hl. apply in_snoc in Hl. destruct Hl as [Hl | ->]; simpl; [|lia].
    specialize (k10 l Hl). lia.
  - intros e He. rewrite map_app, in_app_iff. left. auto.
Qed.

Lemma insert_product_sound (name cat : string) (price cost : float) (stock : Z) (tax : float)
    (barcode desc : string) (d d' : DB) :
  Sql.insert_product name cat price cost stock tax barcode desc d = Some d' ->
  sound d -> sound d'.
Proof.
  unfold Sql.insert_product. destruct (existsb _ (products d)); [discriminate|].
  intros [= <-] Hs. open_sound Hs. close_sound.
  - rewrite map_app. simpl. apply NoDup_snoc_fresh; [assumption|]. now apply bound_of_map.
  - intros p Hp. apply in_snoc in Hp. destruct Hp as [Hp | ->]; simpl; [|lia].
    specialize (k2 p Hp). lia.
Qed.

Lemma insert_customer_contact_sound (name phone email addr : string) (d d' : DB) :
  Sql.insert_customer_contact name phone email addr d = Some d' ->
  sound d -> sound d'.
Proof.
  unfold Sql.insert_customer_contact, Sql.customer_id_by_phone.
  destruct (find _ (customers d)) eqn:E; [discriminate|]. simpl.
  intros [= <-] Hs. open_sound Hs. close_sound.
  - rewrite map_app. simpl. apply NoDup_snoc; [assumption|]. now apply find_none_not_in.
  - rewrite map_app. simpl. apply NoDup_snoc_fresh; [assumption|].
    intros x Hx. apply in_map_iff in Hx. destruct Hx as (c & <- & Hc). apply k4. exact Hc.
  - intros c Hc. apply in_snoc in Hc. destruct Hc as [Hc | ->]; simpl.
    + specialize (k4 c Hc). lia.
    + lia.
  - lia.
Qed.

Section Kept.

Variable py_float : string -> option float.
Variable py_str : float -> string.

Lemma load_ledger_entries_db (st : App) :
  db (AnotherUp.load_ledger_entries py_str st) = db st.
Proof. unfold AnotherUp.load_ledger_entries. break_match; reflexivity. Qed.

Lemma ledger_cell_changed_sound (row col : Z) (st : App) :
  sound (db st) -> sound (db (AnotherUp.ledger_cell_changed py_float py_str row col st)).
Proof.
  intro Hs.
  apply (ledger_cell_changed_runs py_float py_str (fun s => sound (db s))); [|exact Hs].
  intros s Hsound. unfold AnotherUp.ledger_cell_run.
  break_match; simpl; try exact Hsound. now apply update_ledger_entry_sound.
Qed.

Lemma add_ledger_sound (st : App) :
  sound (db st) -> sound (db (AnotherUp.add_ledger py_str st)).
Proof.
  intro Hs. unfold AnotherUp.add_ledger.
  destruct (negb _); [exact Hs|].
  destruct (Sql.insert_ledger _ (db st)) as [d|] eqn:E; [|exact Hs].
  rewrite load_ledger_entries_db. simpl. exact (insert_ledger_sound _ _ _ E Hs).
Qed.

Lemma run_sound (a : Action) (st : App) :
  sound (db st) -> sound (db (run py_float py_str a st)).
Proof.
  intro Hs. destruct a; simpl.
  - unfold add_to_cart. break_match; exact Hs.
  - unfold remove_from_cart. break_match; exact Hs.
  - now apply save_invoice_sound.
  - unfold AnotherUp.open_history_pdf.
    destruct selected as [num|]; [|exact Hs].
    destruct (Sql.invoice_by_number num (db st)); [|exact Hs].
    destruct (Py.truthy path); [|exact Hs].
    now apply record_and_generate_pdf_sound.
  - unfold AnotherUp.delete_product.
    destruct selected as [[prod_id name]|]; [|exact Hs].
    destruct reply; simpl; [|exact Hs]. now apply delete_product_sound.
  - unfold AnotherUp.delete_invoice. destruct reply; simpl; [|exact Hs].
    now apply delete_invoice_sound.
  - unfold AnotherUp.delete_ledger_entry. simpl. now apply delete_ledger_entry_sound.
  - now rewrite load_ledger_entries_db.
  - unfold AnotherUp.add_ledger_entry.
    destruct (negb _); [exact Hs|].
    destruct (Sql.ledger_id_by_name _ (db st)) as [lid|] eqn:E; [|exact Hs].
    rewrite load_ledger_entries_db. simpl.
    apply insert_ledger_entry_sound; [|exact Hs].
    exact (ledger_id_by_name_In _ _ _ E).
  - now apply ledger_cell_changed_sound.
Qed.

Lemma exec_sound (c : Command) (st : App) :
  sound (db st) -> sound (db (exec py_float py_str c st)).
Proof.
  intro Hs. destruct c; simpl.
  - now apply run_sound.
  - exact Hs.
  - now rewrite load_ledger_entries_db.
  - now apply ledger_cell_changed_sound.
  - now apply add_ledger_sound.
  - unfold AnotherUp.save_ledger. destruct (negb _); [exact Hs|].
    simpl. now apply add_ledger_sound.
  - unfold AnotherUp.add_product_dialog. destruct accepted; [|exact Hs].
    destruct (Sql.insert_product _ _ _ _ _ _ _ _ (db st)) as [d|] eqn:E; [|exact Hs].
    simpl. exact (insert_product_sound _ _ _ _ _ _ _ _ _ _ E Hs).
  - unfold AnotherUp.add_customer_dialog. destruct accepted; [|exact Hs].
    destruct (Sql.insert_customer_contact _ _ _ _ (db st)) as [d|] eqn:E; [|exact Hs].
    simpl. exact (insert_customer_contact_sound _ _ _ _ _ _ E Hs).
Qed.

Lemma exec_all_sound (commands : list Command) (st : App) :
  sound (db st) -> sound (db (exec_all py_float py_str commands st)).
Proof.
  unfold exec_all. revert st.
  induction commands as [|c commands IH]; intros st Hs; simpl; [exact Hs|].
  apply IH. now apply exec_sound.
Qed.

(** X5. Referential integrity is kept by hand.  The schema declares no
    foreign key, yet from a database in which keys and references are in
    order ([sound]), whatever the user does in the window of
    [another-up.py], every [invoice_items] row belongs to an invoice that is
    stored (saving inserts the invoice before its lines, deleting an invoice
    deletes its lines first) and every ledger entry belongs to a ledger that
    is stored. *)
Theorem no_orphan_rows (commands : list Command) (st : App) :
  sound (db st) ->
  let d := db (exec_all py_float py_str commands st) in
  (forall it, In it (invoice_items d) -> exists i, In i (invoices d) /\ i_id i = ii_invoice_id it) /\
  (forall e, In e (ledger_entries d) -> exists l, In l (ledgers d) /\ l_id l = le_ledger_id e).
Proof.
  intros Hs d.
  destruct (exec_all_sound commands st Hs) as (_ & _ & [Hit He] & _).
  fold d in Hit, He. split.
  - intros it Hin. specialize (Hit it Hin). apply in_map_iff in Hit.
    destruct Hit as (i & Hid & Hi). eauto.
  - intros e Hin. specialize (He e Hin). apply in_map_iff in He.
    destruct He as (l & Hid & Hl). eauto.
Qed.

(** X6. In every state the window reaches, a ledger entry whose bill and
    paid amounts hold numbers has their binary64 difference as its
    remaining amount: a new entry is stored as 0, 0, 0 and every run of the
    edit slot stores bill - paid together with the two numbers.  The one
    exception is a difference that is no number (two infinities of one
    sign): the database holds a NaN as NULL, and so is the remaining then. *)
Theorem remaining_is_bill_less_paid (commands : list Command) (st : App) :
  sound (db st) ->
  forall e, In e (ledger_entries (db (exec_all py_float py_str commands st))) ->
    forall bill paid, le_bill_amount e = Some bill -> le_paid e = Some paid ->
      le_remaining e = Sql.real (bill - paid)%float /\
      (is_nan (bill - paid)%float = false -> le_remaining e = Some (bill - paid)%float) /\
      (is_nan (bill - paid)%float = true -> le_remaining e = None).
Proof.
  intros Hs e He bill paid Hb Hp.
  pose proof (proj2 (proj2 (proj2 (exec_all_sound commands st Hs))) e He bill paid Hb Hp) as H.
  rewrite H. unfold Sql.real. split; [reflexivity|].
  split; intros ->; reflexivity.
Qed.

(** X7. The conditions the properties of the invoice and ledger code rest
    on hold in every state the window reaches: line items carry invoice ids
    that were handed out, rowids of products, customers, invoices and ledger
    entries are unique and within their counters, customer phones, invoice
    numbers and ledger names are unique. *)
Theorem keys_are_kept (commands : list Command) (st : App) :
  sound (db st) ->
  db_wf (db (exec_all py_float py_str commands st)) /\
  db_keys (db (exec_all py_float py_str commands st)).
Proof.
  intro Hs. destruct (exec_all_sound commands st Hs) as (Hwf & Hkeys & _). auto.
Qed.

End Kept.

Lemma empty_db_sound : sound empty_db.
Proof.
  split; [constructor | split; [constructor | split; [constructor | unfold balanced]]];
    simpl; first [intros ? [] | constructor | lia].
Qed.

Lemma no_orphan_rows_witness :
  let d := db (exec_all Sample.float_of_digits Sample.zero_text Sample.session
                 (initial Py.Before312 "AB12CD34" "2024-05-01")) in
  map ii_invoice_id (invoice_items d) = [1] /\ map i_id (invoices d) = [1] /\
  (forall it, In it (invoice_items d) -> exists i, In i (invoices d) /\ i_id i = ii_invoice_id it).
Proof.
  split; [reflexivity|]. split; [reflexivity|].
  exact (proj1 (no_orphan_rows Sample.float_of_digits Sample.zero_text Sample.session
                  (initial Py.Before312 "AB12CD34" "2024-05-01") empty_db_sound)).
Defined.

Lemma remaining_is_bill_less_paid_witness :
  let d := db (exec_all Sample.float_of_digits Sample.zero_text Sample.session
                 (initial Py.Before312 "AB12CD34" "2024-05-01")) in
  ledger_entries d
  = [mkLedgerEntry 1 1 "2024-05-02" "" (Some 500%float) (Some 0%float) (Some 500%float)] /\
  (forall e, In e (ledger_entries d) ->
     forall bill paid, le_bill_amount e = Some bill -> le_paid e = Some paid ->
       le_remaining e = Sql.real (bill - paid)%float).
Proof.
  split; [reflexivity|].
  intros e He bill paid Hb Hp.
  exact (proj1 (remaining_is_bill_less_paid Sample.float_of_digits Sample.zero_text
                  Sample.session (initial Py.Before312 "AB12CD34" "2024-05-01") empty_db_sound
                  e He bill paid Hb Hp)).
Defined.

Lemma keys_are_kept_witness :
  db_wf (db (exec_all Sample.float_of_digits Sample.zero_text Sample.session
               (initial Py.Before312 "AB12CD34" "2024-05-01"))) /\
  db_keys (db (exec_all Sample.float_of_digits Sample.zero_text Sample.session
                 (initial Py.Before312 "AB12CD34" "2024-05-01"))).
Proof.
  exact (keys_are_kept Sample.float_of_digits Sample.zero_text Sample.session
           (initial Py.Before312 "AB12CD34" "2024-05-01") empty_db_sound).
Defined.

(** ** Ledgers *)

Lemma insert_by_date_perm (e : LedgerEntry) (rows : list LedgerEntry) :
  Permutation (Sql.insert_by_date e rows) (e :: rows).
Proof.
  induction rows as [|r rows IH]; simpl; [reflexivity|].
  destruct (le_entry_date r <=? le_entry_date e)%string; [|reflexivity].
  rewrite IH. apply perm_swap.
Qed.

Lemma order_by_entry_date_perm (rows : list LedgerEntry) :
  Permutation (Sql.order_by_entry_date rows) rows.
Proof.
  unfold Sql.order_by_entry_date.
  assert (Hgen : forall acc,
             Permutation (fold_left (fun acc e => Sql.insert_by_date e acc) rows acc)
                         (rows ++ acc)).
  { induction rows as [|r rows IH]; intro acc; simpl; [reflexivity|].
    rewrite IH, insert_by_date_perm. symmetry. apply Permutation_middle. }
  rewrite (Hgen []). now rewrite app_nil_r.
Qed.

Lemma insert_by_date_sorted (e : LedgerEntry) (rows : list LedgerEntry) :
  Sorted date_le rows -> Sorted date_le (Sql.insert_by_date e rows).
Proof.
  induction 1 as [|r rows Hs IH Hhd]; simpl.
  - constructor; constructor.
  - destruct (le_entry_date r <=? le_entry_date e)%string eqn:E.
    + constructor; [exact IH|].
      destruct rows as [|r' rows]; simpl.
      * constructor. exact E.
      * inversion Hhd; subst.
        destruct (le_entry_date r' <=? le_entry_date e)%string; constructor; assumption.
    + constructor; [constructor; assumption|]. constructor. unfold date_le.
      destruct (String.leb_total (le_entry_date e) (le_entry_date r)) as [H | H];
        [exact H | congruence].
Qed.

Lemma order_by_entry_date_sorted (rows : list LedgerEntry) :
  Sorted date_le (Sql.order_by_entry_date rows).
Proof.
  unfold Sql.order_by_entry_date.
  assert (Hgen : forall acc,
             Sorted date_le acc ->
             Sorted date_le (fold_left (fun acc e => Sql.insert_by_date e acc) rows acc)).
  { induction rows as [|r rows IH]; intros acc Hacc; simpl; [exact Hacc|].
    apply IH. now apply insert_by_date_sorted. }
  apply Hgen. constructor.
Qed.

Lemma lstrip_head (s : string) :
  match Py.lstrip s with
  | String c _ => Py.isspace c = false
  | EmptyString => True
  end.
Proof.
  induction s as [|c s IH]; simpl; [exact I|].
  destruct (Py.isspace c) eqn:E; [exact IH | exact E].
Qed.

Lemma rstrip_idempotent (s : string) : Py.rstrip (Py.rstrip s) = Py.rstrip s.
Proof.
  induction s as [|c s IH]; simpl; [reflexivity|].
  destruct (Py.isspace c && (Py.rstrip s =? "")%string) eqn:E; [reflexivity|].
  simpl. now rewrite IH, E.
Qed.

(** Stripping a stripped text changes nothing. *)
Lemma strip_idempotent (s : string) : Py.strip (Py.strip s) = Py.strip s.
Proof.
  unfold Py.strip.
  assert (Hl : Py.lstrip (Py.rstrip (Py.lstrip s)) = Py.rstrip (Py.lstrip s)).
  { pose proof (lstrip_head s) as Hhead.
    destruct (Py.lstrip s) as [|c t]; [reflexivity|].
    simpl. rewrite Hhead. simpl. now rewrite Hhead. }
  rewrite Hl. apply rstrip_idempotent.
Qed.

Section LedgerTable.

Variable py_str : float -> string.

(** X8. The ledger table shows the stored entries of the selected ledger,
    each once and no other, in ascending order of their date text: the rows
    are made, in order, from a list of entries that is a rearrangement of
    the ledger's stored entries and is sorted by entry_date. *)
Theorem ledger_table_is_the_ledger_by_date (st : App) (lid : Z) :
  Py.strip (ledger_combo st) <> "" ->
  Sql.ledger_id_by_name (Py.strip (ledger_combo st)) (db st) = Some lid ->
  exists shown,
    ledger_table (AnotherUp.load_ledger_entries py_str st)
    = map (fun r => mkLedgerRow (le_entry_date r) (le_particulars r)
                      (AnotherUp.cell_text py_str (le_bill_amount r))
                      (AnotherUp.cell_text py_str (le_paid r))
                      (AnotherUp.cell_text py_str (le_remaining r))) shown /\
    Permutation shown (filter (fun e => le_ledger_id e =? lid) (ledger_entries (db st))) /\
    Sorted date_le shown.
Proof.
  intros Hname Hlid. exists (Sql.entries_of_ledger lid (db st)).
  split; [|split].
  - unfold AnotherUp.load_ledger_entries, Py.truthy.
    apply String.eqb_neq in Hname. rewrite Hname, Hlid. reflexivity.
  - apply order_by_entry_date_perm.
  - apply order_by_entry_date_sorted.
Qed.

Lemma entries_of_new_ledger (d : DB) (lid : Z) :
  sound d -> seq_ledgers d < lid -> Sql.entries_of_ledger lid d = [].
Proof.
  intros Hs Hlt. open_sound Hs. unfold Sql.entries_of_ledger.
  rewrite filter_none; [reflexivity|].
  intros e He. apply Z.eqb_neq. intro Heq.
  specialize (r2 e He). apply in_map_iff in r2. destruct r2 as (l & Hid & Hl).
  specialize (k10 l Hl). lia.
Qed.

(** X9. Adding a ledger under a name that is not stored yet stores exactly
    one new ledger row with that name (the combo text without surrounding
    blanks), after which the name is found again, the combo shows it and the
    table is empty; nothing is reported. *)
Theorem add_ledger_stores_the_name (st : App) :
  sound (db st) ->
  Py.strip (ledger_combo st) <> "" ->
  Sql.ledger_id_by_name (Py.strip (ledger_combo st)) (db st) = None ->
  let name := Py.strip (ledger_combo st) in
  let st' := AnotherUp.add_ledger py_str st in
  ledgers (db st') = ledgers (db st) ++ [mkLedger (seq_ledgers (db st) + 1) name] /\
  Sql.ledger_id_by_name name (db st') = Some (seq_ledgers (db st) + 1) /\
  ledger_entries (db st') = ledger_entries (db st) /\
  ledger_combo st' = name /\
  ledger_table st' = [] /\
  log st' = log st.
Proof.
  intros Hs Hname Hnew name st'.
  apply String.eqb_neq in Hname. fold name in Hname, Hnew.
  set (d' := mkDB (products (db st)) (customers (db st)) (invoices (db st))
                  (invoice_items (db st))
                  (ledgers (db st) ++ [mkLedger (seq_ledgers (db st) + 1) name])
                  (ledger_entries (db st)) (seq_products (db st)) (seq_customers (db st))
                  (seq_invoices (db st)) (seq_invoice_items (db st))
                  (seq_ledgers (db st) + 1) (seq_ledger_entries (db st))).
  assert (Hins : Sql.insert_ledger name (db st) = Some d')
    by (unfold Sql.insert_ledger; now rewrite Hnew).
  assert (Hfound : Sql.ledger_id_by_name name d' = Some (seq_ledgers (db st) + 1)).
  { unfold Sql.ledger_id_by_name in *. unfold d'. simpl. rewrite find_app_or.
    destruct (find _ (ledgers (db st))); [discriminate|].
    simpl. now rewrite String.eqb_refl. }
  assert (Hload : st' = set_ledger_table [] (set_ledger_combo name (set_db d' st))).
  { unfold st', AnotherUp.add_ledger, Py.truthy. fold name. rewrite Hname, Hins. simpl negb.
    unfold AnotherUp.load_ledger_entries. cbn [ledger_combo set_ledger_combo db set_db].
    replace (Py.strip name) with name
      by (unfold name; symmetry; apply strip_idempotent).
    unfold Py.truthy. rewrite Hname, Hfound. simpl negb. cbv iota.
    change (Sql.entries_of_ledger (seq_ledgers (db st) + 1) d')
      with (Sql.entries_of_ledger (seq_ledgers (db st) + 1) (db st)).
    rewrite entries_of_new_ledger; [reflexivity | exact Hs | lia]. }
  rewrite Hload. simpl. repeat split. exact Hfound.
Qed.

(** X10. Saving a ledger that is already stored writes nothing and shows two
    boxes, the warning "Ledger already exists." followed by "Ledger saved.";
    adding it again shows the warning alone. *)
Theorem save_ledger_of_a_stored_ledger (st : App) (lid : Z) :
  Py.strip (ledger_combo st) <> "" ->
  Sql.ledger_id_by_name (Py.strip (ledger_combo st)) (db st) = Some lid ->
  AnotherUp.add_ledger py_str st = show [Warning "Ledger" "Ledger already exists."] st /\
  AnotherUp.save_ledger py_str st
  = show [Warning "Ledger" "Ledger already exists."; Information "Ledger" "Ledger saved."] st /\
  db (AnotherUp.save_ledger py_str st) = db st.
Proof.
  intros Hname Hlid.
  assert (Hadd : AnotherUp.add_ledger py_str st
                 = show [Warning "Ledger" "Ledger already exists."] st).
  { unfold AnotherUp.add_ledger, Py.truthy, Sql.insert_ledger.
    apply String.eqb_neq in Hname. now rewrite Hname, Hlid. }
  split; [exact Hadd|].
  unfold AnotherUp.save_ledger, Py.truthy.
  apply String.eqb_neq in Hname. rewrite Hname, Hadd. simpl.
  unfold show. simpl. rewrite <- app_assoc. auto.
Qed.

End LedgerTable.

(** The conditions on a database given row by row. *)
Ltac check_rows :=
  simpl;
  first
    [ lia
    | solve [repeat constructor; simpl; intuition (discriminate || lia)]
    | let x := fresh "x" in
      let H := fresh "H" in
      intros x H; simpl in H;
      repeat (destruct H as [<- | H];
              [simpl;
               first [lia | reflexivity | tauto
                     | intros ? ? [= <-] [= <-]; vm_compute; reflexivity] |]);
      contradiction ].

Ltac check_sound :=
  split; [constructor | split; [constructor | split; [constructor | unfold balanced]]];
  check_rows.

Lemma books_sound : sound (db Sample.books).
Proof. check_sound. Qed.

Lemma ledger_table_is_the_ledger_by_date_witness :
  exists shown,
    ledger_table (AnotherUp.load_ledger_entries Sample.zero_text Sample.books)
    = map (fun r => mkLedgerRow (le_entry_date r) (le_particulars r)
                      (AnotherUp.cell_text Sample.zero_text (le_bill_amount r))
                      (AnotherUp.cell_text Sample.zero_text (le_paid r))
                      (AnotherUp.cell_text Sample.zero_text (le_remaining r))) shown /\
    Permutation shown (ledger_entries (db Sample.books)) /\
    Sorted date_le shown.
Proof.
  exact (ledger_table_is_the_ledger_by_date Sample.zero_text Sample.books 1
           ltac:(discriminate) eq_refl).
Defined.

Lemma add_ledger_stores_the_name_witness :
  let st := set_ledger_combo "  Tailor " Sample.books in
  let st' := AnotherUp.add_ledger Sample.zero_text st in
  ledgers (db st') = [mkLedger 1 "Supplier"; mkLedger 2 "Tailor"] /\
  Sql.ledger_id_by_name "Tailor" (db st') = Some 2 /\
  ledger_entries (db st') = ledger_entries (db st) /\
  ledger_combo st' = "Tailor" /\
  ledger_table st' = [] /\
  log st' = [].
Proof.
  exact (add_ledger_stores_the_name Sample.zero_text
           (set_ledger_combo "  Tailor " Sample.books)
           ltac:(check_sound) ltac:(discriminate) eq_refl).
Defined.

Lemma save_ledger_of_a_stored_ledger_witness :
  log (AnotherUp.save_ledger Sample.zero_text Sample.books)
  = [Warning "Ledger" "Ledger already exists."; Information "Ledger" "Ledger saved."] /\
  db (AnotherUp.save_ledger Sample.zero_text Sample.books) = db Sample.books.
Proof.
  destruct (save_ledger_of_a_stored_ledger Sample.zero_text Sample.books 1
              ltac:(discriminate) eq_refl) as (_ & Hsave & Hdb).
  split; [now rewrite Hsave | exact Hdb].
Defined.

Lemma filter_removes_one {A : Type} (key : A -> Z) (l : list A) (e : A) :
  NoDup (map key l) -> In e l ->
  exists l1 l2,
    l = l1 ++ e :: l2 /\
    filter (fun x => negb (key x =? key e)) l = l1 ++ l2.
Proof.
  intros Hnd Hin. destruct (in_split e l Hin) as (l1 & l2 & ->).
  exists l1, l2. split; [reflexivity|].
  assert (Hother : forall x, In x l1 \/ In x l2 -> negb (key x =? key e) = true).
  { intros x Hx. apply Bool.negb_true_iff, Z.eqb_neq. intro Heq.
    rewrite map_app in Hnd. simpl in Hnd. apply NoDup_remove_2 in Hnd.
    apply Hnd. rewrite in_app_iff, <- Heq.
    destruct Hx as [Hx | Hx]; [left | right]; now apply in_map. }
  rewrite filter_app. simpl. rewrite Z.eqb_refl. simpl.
  rewrite !filter_all; [reflexivity | |]; apply Forall_forall; auto.
Qed.

Lemma filter_removes_none {A : Type} (key : A -> Z) (l : list A) (k : Z) :
  (forall x, In x l -> key x <> k) ->
  filter (fun x => negb (key x =? k)) l = l.
Proof.
  intro H. apply filter_all, Forall_forall. intros x Hx.
  apply Bool.negb_true_iff, Z.eqb_neq. auto.
Qed.

Section LedgerEntries.

Variable py_str : float -> string.

(** X11. [add_ledger_entry] on a selected, stored ledger appends exactly one
    entry to [ledger_entries]: the next rowid, that ledger, today's date,
    empty particulars and 0, 0, 0; the table is reloaded and has one row more
    than the ledger had entries.  Without a name, or with a name that is not
    stored, nothing is written and a warning says so. *)
Theorem add_ledger_entry_appends_a_zero_entry (today : string) (st : App) :
  let name := Py.strip (ledger_combo st) in
  let st' := AnotherUp.add_ledger_entry py_str today st in
  (name = "" ->
   st' = show [Warning "Ledger" "Select or create a ledger first."] st) /\
  (name <> "" -> Sql.ledger_id_by_name name (db st) = None ->
   st' = show [Warning "Ledger" "Save ledger first."] st) /\
  (forall lid, name <> "" -> Sql.ledger_id_by_name name (db st) = Some lid ->
     ledger_entries (db st')
     = ledger_entries (db st) ++
         [mkLedgerEntry (seq_ledger_entries (db st) + 1) lid today ""
            (Some (Py.float_of_int 0)) (Some (Py.float_of_int 0))
            (Some (Py.float_of_int 0))] /\
     List.length (ledger_table st')
     = S (List.length (filter (fun e => le_ledger_id e =? lid) (ledger_entries (db st)))) /\
     ledgers (db st') = ledgers (db st) /\
     log st' = log st).
Proof.
  intros name st'. unfold st', AnotherUp.add_ledger_entry, Py.truthy. fold name.
  split; [|split].
  - intros ->. reflexivity.
  - intros Hname Hnone. apply String.eqb_neq in Hname. now rewrite Hname, Hnone.
  - intros lid Hname Hlid. apply String.eqb_neq in Hname. rewrite Hname, Hlid. simpl negb.
    cbv iota. unfold AnotherUp.load_ledger_entries.
    cbn [ledger_combo set_db db]. fold name. unfold Py.truthy. rewrite Hname. simpl negb.
    cbv iota.
    assert (Hlid' : Sql.ledger_id_by_name name (Sql.insert_ledger_entry lid today (db st))
                    = Some lid) by exact Hlid.
    rewrite Hlid'. simpl. repeat split.
    rewrite List.length_map. unfold Sql.entries_of_ledger.
    rewrite (Permutation_length (order_by_entry_date_perm _)).
    simpl ledger_entries. rewrite filter_app, List.length_app. simpl.
    rewrite Z.eqb_refl. simpl. lia.
Qed.

(** X12. The Delete button of a ledger row removes the entry of the id it
    was made for and nothing else: the other entries stay, in order and
    unchanged; an id that is no longer stored removes nothing. *)
Theorem delete_ledger_entry_removes_that_entry (row : nat) (st : App) :
  sound (db st) ->
  (forall e, In e (ledger_entries (db st)) ->
     exists before after,
       ledger_entries (db st) = before ++ e :: after /\
       ledger_entries (db (AnotherUp.delete_ledger_entry (le_id e) row st))
       = before ++ after) /\
  (forall entry_id, (forall e, In e (ledger_entries (db st)) -> le_id e <> entry_id) ->
     ledger_entries (db (AnotherUp.delete_ledger_entry entry_id row st))
     = ledger_entries (db st)).
Proof.
  intro Hs. open_sound Hs. split.
  - intros e He. exact (filter_removes_one le_id _ e w2 He).
  - intros entry_id Habsent. exact (filter_removes_none le_id _ entry_id Habsent).
Qed.

End LedgerEntries.

Lemma add_ledger_entry_appends_a_zero_entry_witness :
  let st' := AnotherUp.add_ledger_entry Sample.zero_text "2024-05-03" Sample.books in
  map le_id (ledger_entries (db st')) = [1; 2; 3] /\
  List.length (ledger_table st') = 3%nat.
Proof.
  destruct (add_ledger_entry_appends_a_zero_entry Sample.zero_text "2024-05-03" Sample.books)
    as (_ & _ & Hadd).
  destruct (Hadd 1 ltac:(discriminate) eq_refl) as (Hrows & Hlen & _).
  split; [now rewrite Hrows | exact Hlen].
Defined.

Lemma delete_ledger_entry_removes_that_entry_witness :
  exists before after,
    ledger_entries (db Sample.books)
    = before ++ mkLedgerEntry 2 1 "2024-05-01" "thread" (Some 0%float) (Some 0%float) (Some 0%float) :: after /\
    ledger_entries (db (AnotherUp.delete_ledger_entry 2 0 Sample.books)) = before ++ after.
Proof.
  apply (proj1 (delete_ledger_entry_removes_that_entry 0 Sample.books ltac:(check_sound))
           (mkLedgerEntry 2 1 "2024-05-01" "thread" (Some 0%float) (Some 0%float) (Some 0%float))).
  simpl. auto.
Defined.

(** ** Invoices *)

(** X13. Deleting the invoice a save has just stored takes the invoice row
    and its line items out again, so that [invoices] and [invoice_items] are
    as before the save; it does not undo the rest: the stock stays reduced
    by the quantities sold, a customer created by the save stays, and the
    rowid is not handed out again. *)
Theorem delete_invoice_undoes_rows_not_stock (mode path fresh : string) (st : App) :
  sound (db st) ->
  cart st <> [] ->
  Sql.invoice_by_number (inv_lbl_num st) (db st) = None ->
  let st1 := AnotherUp.save_invoice mode path fresh st in
  let st2 := AnotherUp.delete_invoice (seq_invoices (db st) + 1) Yes st1 in
  invoices (db st2) = invoices (db st) /\
  invoice_items (db st2) = invoice_items (db st) /\
  products (db st2)
  = map (fun p => with_stock (p_stock p - sold_qty (p_id p) (cart st)) p) (products (db st)) /\
  customers (db st2) = customers (db st1) /\
  seq_invoices (db st2) = seq_invoices (db st) + 1.
Proof.
  intros Hs Hcart Hfree st1 st2. open_sound Hs.
  destruct (save_invoice_succeeds mode path fresh st Hcart Hfree)
    as (d1 & cust_id & d2 & _ & Hinv & Hseq & Hp & _ & Hit & _ & Hdb & _).
  fold st1 in Hdb.
  destruct (record_lines_frame (seq_invoices (db st) + 1) (cart st) d2)
    as (Hri & _ & Hrs & _).
  destruct (record_lines_items (seq_invoices (db st) + 1) (cart st) d2)
    as (rows & Hrows & _ & Hall).
  unfold st2, AnotherUp.delete_invoice. simpl. rewrite Hdb.
  rewrite Hri, Hinv, Hrows, Hit, Hrs, Hseq, products_record_lines, Hp.
  rewrite !filter_app. repeat split.
  - simpl. rewrite Z.eqb_refl. simpl. rewrite app_nil_r.
    apply filter_removes_none. intros i Hi. specialize (k7 i Hi). lia.
  - rewrite (filter_none _ rows), app_nil_r.
    + apply filter_removes_none. intros it Hin. specialize (w1 it Hin). lia.
    + intros it Hin. rewrite Forall_forall in Hall. rewrite (Hall it Hin).
      now rewrite Z.eqb_refl.
Qed.

Lemma delete_invoice_undoes_rows_not_stock_witness :
  let st2 := AnotherUp.delete_invoice 1 Yes Sample.saved in
  invoices (db st2) = [] /\ invoice_items (db st2) = [] /\
  map p_stock (products (db st2)) = [8; 5] /\
  seq_invoices (db st2) = 1.
Proof.
  destruct (delete_invoice_undoes_rows_not_stock "save" "" "0F0F0F0F" Sample.billing)
    as (Hinv & Hit & Hp & _ & Hseq).
  - check_sound.
  - discriminate.
  - reflexivity.
  - split; [exact Hinv|]. split; [exact Hit|]. split; [|exact Hseq].
    change (AnotherUp.delete_invoice 1 Yes Sample.saved)
      with (AnotherUp.delete_invoice (seq_invoices (db Sample.billing) + 1) Yes
              (AnotherUp.save_invoice "save" "" "0F0F0F0F" Sample.billing)).
    rewrite Hp. reflexivity.
Defined.

Lemma customer_found_after_insert (name phone : string) (d : DB) :
  Sql.customer_id_by_phone phone d = None ->
  Sql.customer_id_by_phone phone (fst (Sql.insert_customer name phone d))
  = Some (seq_customers d + 1).
Proof.
  unfold Sql.customer_id_by_phone. simpl. rewrite find_app_or.
  destruct (find _ (customers d)); [discriminate|]. intros _.
  simpl. now rewrite String.eqb_refl.
Qed.

Lemma resolve_customer_again (name phone : string) (d : DB) :
  resolve_customer name phone (fst (resolve_customer name phone d))
  = (fst (resolve_customer name phone d), snd (resolve_customer name phone d)).
Proof.
  unfold resolve_customer. destruct (Py.truthy phone); [|reflexivity].
  destruct (Sql.customer_id_by_phone phone d) as [k|] eqn:E; simpl.
  - now rewrite E.
  - pose proof (customer_found_after_insert (Py.or_else name "Walk-in") phone d E) as Hfound.
    simpl in Hfound. now rewrite Hfound.
Qed.

Lemma customer_id_by_phone_frame (phone : string) (d d' : DB) :
  map (fun c => (c_id c, c_phone c)) (customers d')
  = map (fun c => (c_id c, c_phone c)) (customers d) ->
  Sql.customer_id_by_phone phone d' = Sql.customer_id_by_phone phone d.
Proof.
  unfold Sql.customer_id_by_phone.
  generalize (customers d) (customers d'). intros l l'. revert l.
  induction l' as [|c' l' IH]; intros [|c l] H; simpl in *; try discriminate; [reflexivity|].
  injection H as Hid Hphone Hrest. rewrite Hphone.
  destruct (c_phone c =? phone)%string; simpl; [now rewrite Hid | now apply IH].
Qed.

(** X14. In [app.py], cancelling the file dialog of a save returns before
    the billing tab is reset: the invoice, its lines and the stock change
    are stored, but the cart and the invoice number stay as they were.  A
    second press of a save button then fails on the UNIQUE invoice number
    with an IntegrityError and changes nothing.  [another-up.py] empties the
    cart either way. *)
Theorem app_cancelled_save_keeps_the_cart (mode mode' path' fresh : string) (st : App) :
  cart st <> [] ->
  Sql.invoice_by_number (inv_lbl_num st) (db st) = None ->
  let st1 := AppPy.save_invoice mode "" fresh st in
  let st2 := AppPy.save_invoice mode' path' fresh st1 in
  cart st1 = cart st /\
  inv_lbl_num st1 = inv_lbl_num st /\
  Sql.invoice_by_number (inv_lbl_num st) (db st1) <> None /\
  db st2 = db st1 /\
  log st2 = log st1 ++ [Raised Py.IntegrityError] /\
  cart (AnotherUp.save_invoice mode "" fresh st) = [].
Proof.
  intros Hcart Hfree st1 st2.
  destruct (save_invoice_succeeds mode "" fresh st Hcart Hfree)
    as (_ & _ & _ & _ & _ & _ & _ & _ & _ & _ & _ & Hup).
  destruct (app_save_invoice_invoices mode "" fresh st Hcart Hfree) as (cid & Hinv).
  fold st1 in Hinv.
  assert (Hstored : Sql.invoice_by_number (inv_lbl_num st) (db st1) <> None).
  { unfold Sql.invoice_by_number in *. rewrite Hinv, find_app_or, Hfree. simpl.
    rewrite String.eqb_refl. discriminate. }
  (* the state after the first save *)
  assert (Hst1 : exists d4,
             st1 = set_db d4 st /\
             resolve_customer (cust_name st) (cust_phone st) d4
             = (d4, snd (resolve_customer (cust_name st) (cust_phone st) d4))).
  { unfold st1, AppPy.save_invoice.
    destruct (cart st) as [|line rest] eqn:Ec; [congruence|].
    pose proof (resolve_customer_again (cust_name st) (cust_phone st) (db st)) as Hagain.
    pose proof (resolve_customer_frame (cust_name st) (cust_phone st) (db st)) as Hframe.
    destruct (resolve_customer (cust_name st) (cust_phone st) (db st)) as [d1 cust_id].
    simpl in Hagain, Hframe. destruct Hframe as (_ & Hi & _).
    assert (Hfree1 : Sql.invoice_by_number (inv_lbl_num st) d1 = None)
      by (unfold Sql.invoice_by_number in *; now rewrite Hi).
    destruct (insert_invoice_fresh (inv_lbl_num st) (inv_date st) cust_id
                (cart_subtotal Py.From312 (line :: rest)) (discount_name st) (discount_percent st)
                (cart_tax Py.From312 (line :: rest))
                (grand_total (cart_subtotal Py.From312 (line :: rest))
                   (discount_amount (cart_subtotal Py.From312 (line :: rest)) (discount_percent st))
                   (cart_tax Py.From312 (line :: rest))) d1 Hfree1)
      as (d2 & Hins & _ & _ & _ & Hc2 & _).
    rewrite Hins. simpl.
    eexists. split; [reflexivity|].
    assert (Hsame : forall d4 : DB,
               map (fun c => (c_id c, c_phone c)) (customers d4)
               = map (fun c => (c_id c, c_phone c)) (customers d1) ->
               resolve_customer (cust_name st) (cust_phone st) d4
               = (d4, snd (resolve_customer (cust_name st) (cust_phone st) d4))).
    { intros d4 H4. unfold resolve_customer in *.
      destruct (Py.truthy (cust_phone st)) eqn:Et; [|reflexivity].
      rewrite (customer_id_by_phone_frame _ _ _ H4).
      destruct (Sql.customer_id_by_phone (cust_phone st) d1) eqn:El; [reflexivity|].
      exfalso. simpl in Hagain.
      apply (f_equal (fun r : DB * option Z => seq_customers (fst r))) in Hagain.
      simpl in Hagain. lia. }
    apply Hsame.
    destruct (record_lines_frame (seq_invoices d1 + 1) (line :: rest) d2) as (_ & Hrc & _).
    change (record_lines (seq_invoices d1 + 1) rest (record_line (seq_invoices d1 + 1) d2 line))
      with (record_lines (seq_invoices d1 + 1) (line :: rest) d2).
    destruct cust_id as [k|]; [destruct (k =? 0)|];
      unfold Sql.update_customer_purchases, with_customers; cbn [customers];
      rewrite Hrc, Hc2; try reflexivity.
    rewrite map_map. apply map_ext. intro c. now destruct (c_id c =? k). }
  destruct Hst1 as (d4 & Hst1 & Hres).
  assert (Hst2 : st2 = show [Raised Py.IntegrityError] st1).
  { unfold st2, AppPy.save_invoice. rewrite Hst1 in *. simpl.
    destruct (cart st) as [|line rest] eqn:Ec;
      [exfalso; apply Hcart; first [exact Ec | reflexivity]|].
    rewrite Hres.
    unfold Sql.insert_invoice.
    destruct (Sql.invoice_by_number (inv_lbl_num st) d4) eqn:E2; [reflexivity|].
    exfalso. apply Hstored. exact E2. }
  rewrite Hst2, Hst1. simpl. repeat split; try assumption.
  now rewrite Hst1 in Hstored.
Qed.

Lemma app_cancelled_save_keeps_the_cart_witness :
  let st1 := AppPy.save_invoice "save" "" "0F0F0F0F" Sample.billing in
  let st2 := AppPy.save_invoice "save" "out.pdf" "0F0F0F0F" st1 in
  cart st1 = cart Sample.billing /\
  db st2 = db st1 /\
  log st2 = [Raised Py.IntegrityError].
Proof.
  destruct (app_cancelled_save_keeps_the_cart "save" "save" "out.pdf" "0F0F0F0F" Sample.billing
              ltac:(discriminate) eq_refl) as (Hc & _ & _ & Hdb & Hlog & _).
  split; [exact Hc|]. split; [exact Hdb|]. exact Hlog.
Defined.

Lemma update_customer_purchases_rows (amount : float) (date : string) (c : Customer) (d : DB) :
  NoDup (map c_id (customers d)) -> In c (customers d) ->
  forall k x, nth_error (customers d) k = Some x ->
    (x = c ->
     nth_error (customers (Sql.update_customer_purchases amount date (c_id c) d)) k
     = Some (mkCustomer (c_id c) (c_name c) (c_phone c) (c_email c) (c_address c)
               (c_total_purchases c + amount)%float (Some date))) /\
    (x <> c ->
     nth_error (customers (Sql.update_customer_purchases amount date (c_id c) d)) k = Some x).
Proof.
  intros Hnd Hc k x Hk. simpl. rewrite nth_error_map, Hk. simpl. split.
  - intros ->. now rewrite Z.eqb_refl.
  - intro Hne. destruct (c_id x =? c_id c) eqn:E; [|reflexivity].
    exfalso. apply Hne. apply Z.eqb_eq in E.
    apply (NoDup_map_In_inj c_id (customers d)); auto.
    eapply nth_error_In; eassumption.
Qed.

(** X15. In [app.py] a save for a phone that is on file adds the invoice
    total to that customer's total_purchases and sets last_visit to the
    invoice date; no other customer row changes and none is added. *)
Theorem app_save_adds_to_customer_purchases (mode path fresh : string) (st : App)
    (c : Customer) :
  db_wf (db st) -> db_keys (db st) ->
  cart st <> [] ->
  Sql.invoice_by_number (inv_lbl_num st) (db st) = None ->
  cust_phone st <> "" ->
  In c (customers (db st)) -> c_phone c = cust_phone st ->
  let total := grand_total (cart_subtotal Py.From312 (cart st))
                 (discount_amount (cart_subtotal Py.From312 (cart st)) (discount_percent st))
                 (cart_tax Py.From312 (cart st)) in
  let st' := AppPy.save_invoice mode path fresh st in
  List.length (customers (db st')) = List.length (customers (db st)) /\
  forall k x, nth_error (customers (db st)) k = Some x ->
    (x = c ->
     nth_error (customers (db st')) k
     = Some (mkCustomer (c_id c) (c_name c) (c_phone c) (c_email c) (c_address c)
               (c_total_purchases c + total)%float (Some (inv_date st)))) /\
    (x <> c -> nth_error (customers (db st')) k = Some x).
Proof.
  intros Hwf Hkeys Hcart Hfree Hphone Hc Hcphone total st'.
  assert (Hres : resolve_customer (cust_name st) (cust_phone st) (db st)
                 = (db st, Some (c_id c))).
  { unfold resolve_customer, Py.truthy, Sql.customer_id_by_phone.
    apply String.eqb_neq in Hphone. rewrite Hphone. simpl.
    now rewrite (find_phone_unique _ _ c (wf_phone_unique _ Hwf) Hc Hcphone). }
  assert (Hid : (c_id c =? 0) = false).
  { apply Z.eqb_neq. pose proof (k_customers_seq _ Hkeys c Hc). lia. }
  assert (Hcust : customers (db st')
                  = customers (Sql.update_customer_purchases total (inv_date st) (c_id c) (db st))).
  { unfold st', AppPy.save_invoice.
    destruct (cart st) as [|line rest] eqn:Ec; [congruence|].
    rewrite Hres.
    destruct (insert_invoice_fresh (inv_lbl_num st) (inv_date st) (Some (c_id c))
                (cart_subtotal Py.From312 (line :: rest)) (discount_name st) (discount_percent st)
                (cart_tax Py.From312 (line :: rest))
                (grand_total (cart_subtotal Py.From312 (line :: rest))
                   (discount_amount (cart_subtotal Py.From312 (line :: rest)) (discount_percent st))
                   (cart_tax Py.From312 (line :: rest))) (db st) Hfree)
      as (d2 & Hins & _ & _ & _ & Hc2 & _).
    rewrite Hins, Hid.
    destruct (record_lines_frame (seq_invoices (db st) + 1) (line :: rest) d2)
      as (_ & Hrc & _).
    assert (Hd4 : customers
                    (Sql.update_customer_purchases
                       (grand_total (cart_subtotal Py.From312 (line :: rest))
                          (discount_amount (cart_subtotal Py.From312 (line :: rest)) (discount_percent st))
                          (cart_tax Py.From312 (line :: rest)))
                       (inv_date st) (c_id c)
                       (record_lines (seq_invoices (db st) + 1) (line :: rest) d2))
                  = customers (Sql.update_customer_purchases total (inv_date st) (c_id c) (db st))).
    { unfold Sql.update_customer_purchases, with_customers. cbn [customers].
      rewrite Hrc, Hc2. reflexivity. }
    destruct (negb (Py.truthy path)); exact Hd4. }
  rewrite Hcust. split.
  - simpl. apply List.length_map.
  - exact (update_customer_purchases_rows total (inv_date st) c (db st)
             (k_customers _ Hkeys) Hc).
Qed.

Lemma app_save_adds_to_customer_purchases_witness :
  customers (db (AppPy.save_invoice "save" "" "0F0F0F0F" Sample.regular))
  = [mkCustomer 1 "Asha" "5550100" None None 266 (Some "2024-05-01")].
Proof.
  destruct (app_save_adds_to_customer_purchases "save" "" "0F0F0F0F" Sample.regular
              (mkCustomer 1 "Asha" "5550100" None None 50 None))
    as (Hlen & Hrows).
  - constructor; check_rows.
  - constructor; check_rows.
  - discriminate.
  - reflexivity.
  - discriminate.
  - simpl. auto.
  - reflexivity.
  - destruct (Hrows 0%nat (mkCustomer 1 "Asha" "5550100" None None 50 None) eq_refl)
      as (Hc & _).
    specialize (Hc eq_refl).
    destruct (customers (db (AppPy.save_invoice "save" "" "0F0F0F0F" Sample.regular)))
      as [|x [|y rest]]; try discriminate Hlen.
    simpl in Hc. injection Hc as ->. reflexivity.
Defined.

(** ** The history tab *)

Lemma insert_row_perm (before : HistoryRow -> HistoryRow -> bool) (r : HistoryRow)
    (rows : list HistoryRow) :
  Permutation (insert_row before r rows) (r :: rows).
Proof.
  induction rows as [|x rows IH]; simpl; [reflexivity|].
  destruct (before x r); [|reflexivity]. rewrite IH. apply perm_swap.
Qed.

Lemma order_rows_perm (before : HistoryRow -> HistoryRow -> bool) (rows : list HistoryRow) :
  Permutation (order_rows before rows) rows.
Proof.
  unfold order_rows.
  assert (Hgen : forall acc,
             Permutation (fold_left (fun acc r => insert_row before r acc) rows acc)
                         (rows ++ acc)).
  { induction rows as [|r rows IH]; intro acc; simpl; [reflexivity|].
    rewrite IH, insert_row_perm. symmetry. apply Permutation_middle. }
  rewrite (Hgen []). now rewrite app_nil_r.
Qed.

Lemma insert_row_sorted (before : HistoryRow -> HistoryRow -> bool) (r : HistoryRow)
    (rows : list HistoryRow) :
  (forall a b, before a b = false -> before b a = true) ->
  Sorted (fun a b => before a b = true) rows ->
  Sorted (fun a b => before a b = true) (insert_row before r rows).
Proof.
  intro Htotal. induction 1 as [|x rows Hs IH Hhd]; simpl.
  - constructor; constructor.
  - destruct (before x r) eqn:E.
    + constructor; [exact IH|].
      destruct rows as [|x' rows]; simpl.
      * constructor. exact E.
      * inversion Hhd; subst. destruct (before x' r); constructor; assumption.
    + constructor; [constructor; assumption|]. constructor. now apply Htotal.
Qed.

Lemma order_rows_sorted (before : HistoryRow -> HistoryRow -> bool) (rows : list HistoryRow) :
  (forall a b, before a b = false -> before b a = true) ->
  Sorted (fun a b => before a b = true) (order_rows before rows).
Proof.
  intro Htotal. unfold order_rows.
  assert (Hgen : forall acc,
             Sorted (fun a b => before a b = true) acc ->
             Sorted (fun a b => before a b = true)
                    (fold_left (fun acc r => insert_row before r acc) rows acc)).
  { induction rows as [|r rows IH]; intros acc Hacc; simpl; [exact Hacc|].
    apply IH. now apply insert_row_sorted. }
  apply Hgen. constructor.
Qed.

Lemma newer_total (a b : HistoryRow) : newer a b = false -> newer b a = true.
Proof.
  unfold newer. rewrite (String.eqb_sym (h_date b) (h_date a)).
  destruct (h_date a =? h_date b)%string.
  - intro H. apply Z.leb_gt in H. apply Z.leb_le. lia.
  - intro H. destruct (String.leb_total (h_date a) (h_date b)) as [Hle | Hle];
      [exact Hle | congruence].
Qed.

Lemma filter_by_unique_id {A : Type} (key : A -> Z) (k : Z) (l : list A) :
  NoDup (map key l) ->
  filter (fun x => key x =? k) l
  = match find (fun x => key x =? k) l with Some x => [x] | None => [] end.
Proof.
  induction l as [|x l IH]; simpl; intro Hnd; [reflexivity|].
  inversion Hnd as [|? ? Hnotin Hnd']; subst.
  destruct (key x =? k) eqn:E.
  - f_equal. apply filter_none. intros y Hy. apply Z.eqb_neq. intro Heq.
    apply Z.eqb_eq in E. apply Hnotin. rewrite E, <- Heq. now apply in_map.
  - now apply IH.
Qed.

Lemma flat_map_singletons {A B : Type} (f : A -> list B) (g : A -> B) (l : list A) :
  (forall x, In x l -> f x = [g x]) -> flat_map f l = map g l.
Proof.
  induction l as [|x l IH]; simpl; intro H; [reflexivity|].
  rewrite (H x (or_introl eq_refl)), IH; [reflexivity|].
  intros y Hy. apply H. now right.
Qed.

(** X16. The history tab of [another-up.py] lists every stored invoice
    exactly once, with the name of its customer or, when it has none on
    file, its own invoice number in the customer column; the rows stand
    newest date first and, within a date, highest rowid first. *)
Theorem history_lists_every_invoice_once (d : DB) :
  db_keys d ->
  Permutation (AnotherUp.load_history d)
              (map (fun i => history_row i (customer_column d i)) (invoices d)) /\
  Sorted (fun a b => newer a b = true) (AnotherUp.load_history d).
Proof.
  intro Hkeys. unfold AnotherUp.load_history. split.
  - rewrite order_rows_perm.
    rewrite (flat_map_singletons _ (fun i => history_row i (customer_column d i)));
      [reflexivity|].
    intros i _. unfold customers_of, customer_column, Sql.customer_by_id.
    destruct (i_customer_id i) as [k|]; [|reflexivity].
    rewrite (filter_by_unique_id c_id k _ (k_customers _ Hkeys)).
    now destruct (find _ (customers d)).
  - apply order_rows_sorted. exact newer_total.
Qed.

Lemma history_lists_every_invoice_once_witness :
  Permutation (AnotherUp.load_history (db Sample.saved))
              [mkHistoryRow 1 "AB12CD34" "2024-05-01" "AB12CD34" 200 "SALE" 36 216] /\
  Sorted (fun a b => newer a b = true) (AnotherUp.load_history (db Sample.saved)).
Proof.
  exact (history_lists_every_invoice_once (db Sample.saved) ltac:(constructor; check_rows)).
Defined.

Lemma in_order_rows (before : HistoryRow -> HistoryRow -> bool) (rows : list HistoryRow)
    (r : HistoryRow) :
  In r (order_rows before rows) <-> In r rows.
Proof.
  split; apply Permutation_in; [|symmetry]; apply order_rows_perm.
Qed.

(** A row of [app.py]'s history belongs to an invoice whose customer is on
    file. *)
Lemma app_history_row (d : DB) (r : HistoryRow) :
  In r (AppPy.load_history d) ->
  exists i c, In i (invoices d) /\ In c (customers d) /\
              i_customer_id i = Some (c_id c) /\ r = history_row i (c_name c).
Proof.
  unfold AppPy.load_history. rewrite in_order_rows, in_flat_map.
  intros (i & Hi & Hr). apply in_map_iff in Hr. destruct Hr as (c & <- & Hc).
  unfold customers_of in Hc. destruct (i_customer_id i) as [k|] eqn:E; [|contradiction].
  apply filter_In in Hc. destruct Hc as [Hc Hk]. apply Z.eqb_eq in Hk.
  exists i, c. repeat split; auto. now rewrite Hk.
Qed.

(** The invoice row [app.py] stores, with the customer it resolved. *)
Lemma app_save_invoice_row (mode path fresh : string) (st : App) :
  cart st <> [] ->
  Sql.invoice_by_number (inv_lbl_num st) (db st) = None ->
  invoices (db (AppPy.save_invoice mode path fresh st)) = invoices (db st) ++
    [mkInvoice (seq_invoices (db st) + 1) (inv_lbl_num st) (inv_date st)
       (snd (resolve_customer (cust_name st) (cust_phone st) (db st)))
       (cart_subtotal Py.From312 (cart st)) (discount_name st) (discount_percent st)
       (cart_tax Py.From312 (cart st))
       (grand_total (cart_subtotal Py.From312 (cart st))
          (discount_amount (cart_subtotal Py.From312 (cart st)) (discount_percent st))
          (cart_tax Py.From312 (cart st)))].
Proof.
  intros Hcart Hfree. unfold AppPy.save_invoice.
  destruct (cart st) as [|line rest] eqn:Ec; [congruence|].
  pose proof (resolve_customer_frame (cust_name st) (cust_phone st) (db st)) as Hframe.
  destruct (resolve_customer _ _ (db st)) as [d1 cust_id].
  simpl in Hframe. destruct Hframe as (Hp & Hi & Hit & Hs & Hle).
  assert (Hfree1 : Sql.invoice_by_number (inv_lbl_num st) d1 = None).
  { unfold Sql.invoice_by_number in *. rewrite Hi. exact Hfree. }
  destruct (insert_invoice_fresh (inv_lbl_num st) (inv_date st) cust_id
              (cart_subtotal Py.From312 (line :: rest)) (discount_name st) (discount_percent st)
              (cart_tax Py.From312 (line :: rest))
              (grand_total (cart_subtotal Py.From312 (line :: rest))
                 (discount_amount (cart_subtotal Py.From312 (line :: rest)) (discount_percent st))
                 (cart_tax Py.From312 (line :: rest))) d1 Hfree1)
    as (d2 & Hins & Hinv & Hseq & _).
  rewrite Hins. rewrite Hs, Hi in Hinv.
  destruct (record_lines_frame (seq_invoices (db st) + 1) (line :: rest) d2) as (Hri & _).
  rewrite Hs. cbn [snd].
  assert (Hd4 : forall d4 : DB,
             invoices d4 = invoices (record_lines (seq_invoices (db st) + 1) (line :: rest) d2) ->
             invoices d4 = invoices (db st) ++
               [mkInvoice (seq_invoices (db st) + 1) (inv_lbl_num st) (inv_date st) cust_id
                  (cart_subtotal Py.From312 (line :: rest)) (discount_name st) (discount_percent st)
                  (cart_tax Py.From312 (line :: rest))
                  (grand_total (cart_subtotal Py.From312 (line :: rest))
                     (discount_amount (cart_subtotal Py.From312 (line :: rest)) (discount_percent st))
                     (cart_tax Py.From312 (line :: rest)))]).
  { intros d4 H4. rewrite H4, Hri. exact Hinv. }
  destruct (negb (Py.truthy path)); simpl; apply Hd4;
    destruct cust_id as [k|]; try reflexivity;
    destruct (k =? 0); reflexivity.
Qed.

(** X17. [app.py] fills its history from an inner JOIN with [customers]: an
    invoice saved without a phone number is stored with a NULL customer and
    is never listed there, although the LEFT JOIN of [another-up.py] over
    the same rows lists it. *)
Theorem app_history_omits_invoices_without_customer (mode path fresh : string) (st : App) :
  cart st <> [] ->
  Sql.invoice_by_number (inv_lbl_num st) (db st) = None ->
  cust_phone st = "" ->
  let d' := db (AppPy.save_invoice mode path fresh st) in
  Sql.invoice_by_number (inv_lbl_num st) d' <> None /\
  ~ In (inv_lbl_num st) (map h_invoice_number (AppPy.load_history d')) /\
  In (inv_lbl_num st) (map h_invoice_number (AnotherUp.load_history d')).
Proof.
  intros Hcart Hfree Hphone d'.
  pose proof (app_save_invoice_row mode path fresh st Hcart Hfree) as Hinv.
  fold d' in Hinv.
  assert (Hnone : snd (resolve_customer (cust_name st) (cust_phone st) (db st)) = None)
    by (unfold resolve_customer; rewrite Hphone; reflexivity).
  rewrite Hnone in Hinv.
  assert (Hold : forall i, In i (invoices (db st)) -> i_invoice_number i <> inv_lbl_num st).
  { intros i Hi Heq. unfold Sql.invoice_by_number in Hfree.
    apply (find_none_not_in i_invoice_number _ _ Hfree). rewrite <- Heq. now apply in_map. }
  split; [|split].
  - unfold Sql.invoice_by_number in *. rewrite Hinv, find_app_or, Hfree. simpl.
    rewrite String.eqb_refl. discriminate.
  - intro Hin. apply in_map_iff in Hin. destruct Hin as (r & Hnum & Hr).
    apply app_history_row in Hr. destruct Hr as (i & c & Hi & _ & Hcid & ->).
    simpl in Hnum. rewrite Hinv in Hi. apply in_snoc in Hi. destruct Hi as [Hi | ->].
    + exact (Hold i Hi Hnum).
    + discriminate Hcid.
  - apply in_map_iff.
    exists (history_row
              (mkInvoice (seq_invoices (db st) + 1) (inv_lbl_num st) (inv_date st) None
                 (cart_subtotal Py.From312 (cart st)) (discount_name st) (discount_percent st)
                 (cart_tax Py.From312 (cart st))
                 (grand_total (cart_subtotal Py.From312 (cart st))
                    (discount_amount (cart_subtotal Py.From312 (cart st)) (discount_percent st))
                    (cart_tax Py.From312 (cart st))))
              (inv_lbl_num st)).
    split; [reflexivity|].
    unfold AnotherUp.load_history. rewrite in_order_rows, in_flat_map.
    eexists. split; [rewrite Hinv; apply in_or_app; right; left; reflexivity|].
    simpl. now left.
Qed.

Lemma app_history_omits_invoices_without_customer_witness :
  let d' := db (AppPy.save_invoice "save" "out.pdf" "0F0F0F0F" Sample.billing) in
  List.length (invoices d') = 1%nat /\
  AppPy.load_history d' = [] /\
  In "AB12CD34" (map h_invoice_number (AnotherUp.load_history d')).
Proof.
  split; [reflexivity|]. split; [reflexivity|].
  exact (proj2 (proj2 (app_history_omits_invoices_without_customer "save" "out.pdf" "0F0F0F0F"
                         Sample.billing ltac:(discriminate) eq_refl eq_refl))).
Defined.

(** ** The billing tab, the invoice PDF and the products *)

Lemma fold_two_sums {A : Type} (f g : A -> float) (l : list A) (s t : float) :
  fold_left (fun (acc : float * float) x =>
               let '(s, t) := acc in ((s + f x)%float, (t + g x)%float)) l (s, t)
  = (fold_left PrimFloat.add (map f l) s, fold_left PrimFloat.add (map g l) t).
Proof.
  revert s t. induction l as [|x l IH]; intros s t; simpl; [reflexivity | apply IH].
Qed.

(** The one loop of [refresh_cart] keeps the running totals of the line
    amounts and of the line taxes. *)
Lemma refresh_cart_totals (st : App) :
  AnotherUp.refresh_cart st
  = (map line_amount (cart st),
     mkLabels (Py.add_up (map line_amount (cart st)))
              (discount_amount (Py.add_up (map line_amount (cart st))) (discount_percent st))
              (Py.add_up (map line_tax (cart st)))
              (grand_total (Py.add_up (map line_amount (cart st)))
                 (discount_amount (Py.add_up (map line_amount (cart st))) (discount_percent st))
                 (Py.add_up (map line_tax (cart st))))).
Proof.
  unfold AnotherUp.refresh_cart.
  set (sums := fold_left _ (cart st) _).
  assert (Hsums : sums = (Py.add_up (map line_amount (cart st)),
                          Py.add_up (map line_tax (cart st))))
    by exact (fold_two_sums line_amount line_tax (cart st) (Py.float_of_int 0)
                (Py.float_of_int 0)).
  rewrite Hsums. reflexivity.
Qed.

(** What a save that goes through leaves in the window, and the PDF it
    reports. *)
Lemma save_invoice_resets (mode path fresh : string) (st : App) :
  cart st <> [] ->
  Sql.invoice_by_number (inv_lbl_num st) (db st) = None ->
  let after := AnotherUp.save_invoice mode path fresh st in
  discount_percent after = Py.float_of_int 0 /\ discount_name after = "" /\
  cust_name after = "" /\ cust_phone after = "" /\ inv_lbl_num after = fresh /\
  (Py.truthy path = true ->
   In (PdfWritten path (seq_invoices (db st) + 1)) (log after)).
Proof.
  intros Hcart Hfree. unfold AnotherUp.save_invoice.
  destruct (cart st) as [|line rest] eqn:Ec; [congruence|].
  pose proof (resolve_customer_frame (Py.strip (cust_name st)) (Py.strip (cust_phone st)) (db st))
    as Hframe.
  destruct (resolve_customer _ _ (db st)) as [d1 cust_id].
  simpl in Hframe. destruct Hframe as (_ & Hi & _ & Hs & _).
  assert (Hfree1 : Sql.invoice_by_number (inv_lbl_num st) d1 = None).
  { unfold Sql.invoice_by_number in *. rewrite Hi. exact Hfree. }
  destruct (insert_invoice_fresh (inv_lbl_num st) (inv_date st) cust_id
              (cart_subtotal (py st) (line :: rest)) (discount_name st) (discount_percent st)
              (cart_tax (py st) (line :: rest))
              (grand_total (cart_subtotal (py st) (line :: rest))
                 (discount_amount (cart_subtotal (py st) (line :: rest)) (discount_percent st))
                 (cart_tax (py st) (line :: rest))) d1 Hfree1)
    as (d2 & Hins & _).
  rewrite Hins, Hs. cbv zeta.
  destruct (Py.truthy path); simpl.
  - repeat (split; [reflexivity|]). intros _. apply in_or_app. right. now left.
  - repeat (split; [reflexivity|]). discriminate.
Qed.

(** X18. What the billing tab shows and what a save stores.  The stored
    subtotal is [sum] of the Line Total column and the stored tax is [sum]
    of the line taxes, while the labels hold the running totals that
    [refresh_cart] keeps with [+=]; the stored total and the total label
    are both subtotal less discount plus tax.  Before CPython 3.12 [sum] is
    that running total, so the subtotal, tax and total of the row are
    bit for bit the numbers on the labels.  After the save the labels are
    back to zero. *)
Theorem labels_show_what_is_stored (mode path fresh : string) (st : App) :
  cart st <> [] ->
  Sql.invoice_by_number (inv_lbl_num st) (db st) = None ->
  let column := fst (AnotherUp.refresh_cart st) in
  let labels := snd (AnotherUp.refresh_cart st) in
  let after := AnotherUp.save_invoice mode path fresh st in
  (exists inv,
     Sql.invoice_by_number (inv_lbl_num st) (db after) = Some inv /\
     i_subtotal inv = Py.sum (py st) column /\
     lbl_subtotal labels = Py.add_up column /\
     i_total inv = (i_subtotal inv - i_subtotal inv * discount_percent st / Py.float_of_int 100
                    + i_tax inv)%float /\
     lbl_total labels = (lbl_subtotal labels - lbl_discount labels + lbl_tax labels)%float /\
     lbl_discount labels
     = (lbl_subtotal labels * discount_percent st / Py.float_of_int 100)%float /\
     (py st = Py.Before312 ->
      i_subtotal inv = lbl_subtotal labels /\
      i_tax inv = lbl_tax labels /\
      i_total inv = lbl_total labels)) /\
  AnotherUp.refresh_cart after = ([], mkLabels 0 0 0 0).
Proof.
  intros Hcart Hfree column labels after. subst column labels.
  rewrite refresh_cart_totals. cbn [fst snd lbl_subtotal lbl_discount lbl_tax lbl_total].
  destruct (save_invoice_succeeds mode path fresh st Hcart Hfree)
    as (d1 & cust_id & d2 & _ & Hinv & _ & _ & _ & _ & _ & Hdb & Hc).
  destruct (save_invoice_resets mode path fresh st Hcart Hfree) as (Hdp & _).
  fold after in Hdb, Hc, Hdp.
  destruct (record_lines_frame (seq_invoices (db st) + 1) (cart st) d2) as (Hri & _).
  split.
  - eexists. split.
    + unfold Sql.invoice_by_number in *. rewrite Hdb, Hri, Hinv.
      rewrite find_app_none by exact Hfree. simpl. rewrite String.eqb_refl. reflexivity.
    + simpl. repeat (split; [reflexivity|]).
      intro Hpy. rewrite Hpy. repeat split; reflexivity.
  - rewrite refresh_cart_totals, Hc, Hdp. vm_compute. reflexivity.
Qed.

Lemma labels_show_what_is_stored_witness :
  snd (AnotherUp.refresh_cart Sample.billing) = mkLabels 200 20 36 216 /\
  exists inv,
    Sql.invoice_by_number "AB12CD34" (db Sample.saved) = Some inv /\
    i_subtotal inv = 200%float /\ i_tax inv = 36%float /\ i_total inv = 216%float.
Proof.
  split; [vm_compute; reflexivity|].
  destruct (labels_show_what_is_stored "save" "" "0F0F0F0F" Sample.billing
              ltac:(discriminate) eq_refl)
    as ((inv & Hfound & _ & _ & _ & _ & _ & Hsame) & _).
  destruct (Hsame eq_refl) as (Hs & Ht & Htot).
  exists inv. split; [exact Hfound|].
  rewrite Hs, Ht, Htot. vm_compute. repeat split; reflexivity.
Defined.

(** From CPython 3.12 on the row and the labels can differ in the last
    bit: for three items of 0.1, 0.2 and 0.3 the subtotal label holds
    0.6000000000000001 and the row 0.6. *)
Lemma labels_and_row_differ_from_312 :
  lbl_subtotal (snd (AnotherUp.refresh_cart Sample.small_change)) = 0x1.3333333333334p-1%float /\
  exists inv,
    Sql.invoice_by_number "AB12CD34"
      (db (AnotherUp.save_invoice "save" "" "0F0F0F0F" Sample.small_change)) = Some inv /\
    i_subtotal inv = 0x1.3333333333333p-1%float.
Proof.
  split; [vm_compute; reflexivity|].
  eexists. split; [reflexivity|]. vm_compute. reflexivity.
Qed.

Lemma find_misses {A : Type} (f : A -> bool) (l : list A) :
  (forall x, In x l -> f x = false) -> find f l = None.
Proof.
  induction l as [|x l IH]; intro H; simpl; [reflexivity|].
  rewrite (H x (or_introl eq_refl)). apply IH. intros y Hy. apply H. now right.
Qed.

Lemma find_unique_id {A : Type} (key : A -> Z) (l : list A) (x : A) :
  NoDup (map key l) -> In x l -> find (fun y => key y =? key x) l = Some x.
Proof.
  intros Hnd Hin.
  destruct (find (fun y => key y =? key x) l) as [y|] eqn:E.
  - apply find_some in E. destruct E as [Hy Hk]. apply Z.eqb_eq in Hk.
    f_equal. exact (NoDup_map_In_inj key l y x Hnd Hy Hin Hk).
  - exfalso. pose proof (find_none _ _ E x Hin) as Hx. simpl in Hx.
    rewrite Z.eqb_refl in Hx. discriminate.
Qed.

(** The lines the PDF routine draws for line items that were written from a
    cart whose products are stored. *)
Lemma pdf_lines_of_cart (rows : list InvoiceItem) (c : list CartItem) (ps : list Product) :
  map sold_of_item rows = map sold_of_cart c ->
  NoDup (map p_id ps) ->
  (forall line, In line c ->
     exists p, In p ps /\ p_id p = item_id line /\ p_name p = item_name line) ->
  map (fun r : InvoiceItem * Product =>
         let '(it, p) := r in
         mkPdfLine (p_name p) (ii_quantity it) (ii_price it)
                   (ii_price it * Py.float_of_int (ii_quantity it))%float)
      (Sql.join_products rows ps)
  = map (fun line => mkPdfLine (item_name line) (item_qty line) (item_price line)
                               (line_amount line)) c.
Proof.
  revert c. induction rows as [|it rows IH]; intros [|line c] Hs Hnd Hex;
    simpl in Hs; try discriminate; [reflexivity|].
  injection Hs as Hid Hq Hp _ _ Htl.
  destruct (Hex line (or_introl eq_refl)) as (p & Hin & Hpid & Hname).
  unfold Sql.join_products in *. cbn [flat_map].
  rewrite (filter_by_unique_id p_id (ii_product_id it) ps Hnd).
  rewrite Hid, <- Hpid, (find_unique_id p_id ps p Hnd Hin). simpl.
  f_equal.
  - unfold line_amount. now rewrite Hname, Hq, Hp.
  - apply IH; auto. intros l Hl. apply Hex. now right.
Qed.

(** X19. The PDF of a save shows the cart that was billed: one line per
    cart line with its name, quantity, price and line total, the subtotal
    the label showed (both are running totals), the discount line when a
    discount was given, and the tax and total of the stored row, which
    before CPython 3.12 are the numbers the labels showed.  It rests on the
    products of the cart still being stored under their names when the PDF
    is drawn. *)
Theorem saved_pdf_shows_the_cart (s : Settings) (mode path fresh : string) (st : App) :
  sound (db st) ->
  cart st <> [] ->
  Sql.invoice_by_number (inv_lbl_num st) (db st) = None ->
  (forall line, In line (cart st) ->
     exists p, In p (products (db st)) /\ p_id p = item_id line /\ p_name p = item_name line) ->
  let after := AnotherUp.save_invoice mode path fresh st in
  (Py.truthy path = true -> In (PdfWritten path (seq_invoices (db st) + 1)) (log after)) /\
  exists pdf,
    AnotherUp.saved_pdf s (seq_invoices (db st) + 1) st after = inr pdf /\
    pdf_lines pdf = map (fun line => mkPdfLine (item_name line) (item_qty line)
                                               (item_price line) (line_amount line))
                        (cart st) /\
    pdf_subtotal pdf = lbl_subtotal (snd (AnotherUp.refresh_cart st)) /\
    pdf_discount pdf = (if (0 <? discount_percent st)%float
                        then Some (discount_name st,
                                   lbl_discount (snd (AnotherUp.refresh_cart st)))
                        else None) /\
    pdf_tax pdf = cart_tax (py st) (cart st) /\
    pdf_total pdf = grand_total (cart_subtotal (py st) (cart st))
                      (discount_amount (cart_subtotal (py st) (cart st)) (discount_percent st))
                      (cart_tax (py st) (cart st)) /\
    (py st = Py.Before312 ->
     pdf_tax pdf = lbl_tax (snd (AnotherUp.refresh_cart st)) /\
     pdf_total pdf = lbl_total (snd (AnotherUp.refresh_cart st))).
Proof.
  intros (Hwf & Hkeys & _ & _) Hcart Hfree Hstored after.
  rewrite refresh_cart_totals. cbn [fst snd lbl_subtotal lbl_discount lbl_tax lbl_total].
  destruct (save_invoice_succeeds mode path fresh st Hcart Hfree)
    as (d1 & cust_id & d2 & _ & Hinv & Hseq & Hp2 & _ & Hit & _ & Hdb & _).
  destruct (save_invoice_resets mode path fresh st Hcart Hfree) as (_ & _ & _ & _ & _ & Hlog).
  fold after in Hdb, Hlog.
  split; [exact Hlog|].
  destruct (record_lines_frame (seq_invoices (db st) + 1) (cart st) d2) as (Hri & _).
  destruct (items_of_new_invoice (cart st) d2) as (rows & Hrows & Hsold).
  { intros it Hin. rewrite Hit in Hin. rewrite Hseq.
    pose proof (wf_item_invoice _ Hwf it Hin). lia. }
  rewrite Hseq in Hrows.
  assert (Hfind : Sql.invoice_by_id (seq_invoices (db st) + 1) (db after)
                  = Some (mkInvoice (seq_invoices (db st) + 1) (inv_lbl_num st) (inv_date st)
                            cust_id (cart_subtotal (py st) (cart st)) (discount_name st)
                            (discount_percent st) (cart_tax (py st) (cart st))
                            (grand_total (cart_subtotal (py st) (cart st))
                               (discount_amount (cart_subtotal (py st) (cart st)) (discount_percent st))
                               (cart_tax (py st) (cart st))))).
  { unfold Sql.invoice_by_id. rewrite Hdb, Hri, Hinv, find_app_none.
    - simpl. now rewrite Z.eqb_refl.
    - apply find_misses. intros i Hi. apply Z.eqb_neq.
      pose proof (k_invoices_seq _ Hkeys i Hi). lia. }
  assert (Hlines :
            map (fun r : InvoiceItem * Product =>
                   let '(it, p) := r in
                   mkPdfLine (p_name p) (ii_quantity it) (ii_price it)
                             (ii_price it * Py.float_of_int (ii_quantity it))%float)
                (Sql.join_products (Sql.items_of_invoice (seq_invoices (db st) + 1) (db after))
                                   (products (db after)))
            = map (fun line => mkPdfLine (item_name line) (item_qty line) (item_price line)
                                         (line_amount line)) (cart st)).
  { rewrite Hdb, Hrows. apply pdf_lines_of_cart; [exact Hsold | |].
    - rewrite products_record_lines, Hp2, map_map. simpl. exact (k_products _ Hkeys).
    - intros line Hline. destruct (Hstored line Hline) as (p & Hin & Hpid & Hname).
      rewrite products_record_lines, Hp2.
      exists (with_stock (p_stock p - sold_qty (p_id p) (cart st)) p).
      split; [|split; [exact Hpid | exact Hname]].
      apply (in_map (fun p => with_stock (p_stock p - sold_qty (p_id p) (cart st)) p)).
      exact Hin. }
  unfold AnotherUp.saved_pdf, AnotherUp._make_pdf. rewrite Hfind.
  eexists. split; [reflexivity|].
  cbn [pdf_lines pdf_subtotal pdf_discount pdf_tax pdf_total i_discount_percent
       i_discount_name i_tax i_total].
  rewrite Hlines, map_map. cbn [line_total].
  repeat (split; [reflexivity|]).
  intro Hpy. rewrite Hpy. split; reflexivity.
Qed.

Lemma stocked_sound : sound Sample.stocked.
Proof. check_sound. Qed.

Lemma saved_pdf_shows_the_cart_witness :
  exists pdf,
    AnotherUp.saved_pdf default_settings 1 Sample.billing Sample.saved = inr pdf /\
    pdf_lines pdf = [mkPdfLine "T-shirt" 2 100 200] /\
    pdf_subtotal pdf = 200%float /\
    pdf_discount pdf = Some ("SALE", 20%float) /\
    pdf_tax pdf = 36%float /\ pdf_total pdf = 216%float.
Proof.
  assert (Hstored : forall line, In line (cart Sample.billing) ->
            exists p, In p (products (db Sample.billing)) /\
                      p_id p = item_id line /\ p_name p = item_name line).
  { intros line [<- | []]. exists Sample.tshirt. simpl. auto. }
  destruct (saved_pdf_shows_the_cart default_settings "save" "" "0F0F0F0F" Sample.billing
              stocked_sound ltac:(discriminate) eq_refl Hstored)
    as (_ & pdf & Hpdf & Hl & Hs & Hd & Ht & Htot & _).
  exists pdf. split; [exact Hpdf|].
  rewrite Hl, Hs, Hd, Ht, Htot. vm_compute. repeat split; reflexivity.
Defined.

Lemma filter_other_id (k prod_id : Z) (ps : list Product) :
  (k =? prod_id) = false ->
  filter (fun p => p_id p =? k) (filter (fun p => negb (p_id p =? prod_id)) ps)
  = filter (fun p => p_id p =? k) ps.
Proof.
  intro E. induction ps as [|p ps IH]; simpl; [reflexivity|].
  destruct (p_id p =? prod_id) eqn:Ep; simpl.
  - apply Z.eqb_eq in Ep. rewrite Ep, Z.eqb_sym, E. exact IH.
  - destruct (p_id p =? k); [f_equal|]; exact IH.
Qed.

(** Joining with the products that are left after a delete is joining the
    other products' line items with all products. *)
Lemma join_after_delete (prod_id : Z) (items : list InvoiceItem) (ps : list Product) :
  Sql.join_products items (filter (fun p => negb (p_id p =? prod_id)) ps)
  = Sql.join_products (filter (fun it => negb (ii_product_id it =? prod_id)) items) ps.
Proof.
  unfold Sql.join_products.
  induction items as [|it items IH]; simpl; [reflexivity|].
  destruct (ii_product_id it =? prod_id) eqn:E; simpl.
  - apply Z.eqb_eq in E. rewrite filter_none; [exact IH|].
    intros p Hp. apply filter_In in Hp. destruct Hp as [_ Hp].
    apply negb_true_iff in Hp. rewrite E. exact Hp.
  - rewrite IH. f_equal. f_equal. apply filter_other_id. exact E.
Qed.

(** X20. Deleting a product rewrites the PDFs of past invoices.  The delete
    leaves the [invoices] and [invoice_items] rows alone, but the PDF
    routine finds the lines through a JOIN with [products]: the lines of
    the deleted product are no longer drawn and no longer count in the
    printed subtotal, while the tax and total are printed as stored.  An
    invoice of that product alone prints no line and a subtotal of zero. *)
Theorem deleted_product_leaves_the_pdf (s : Settings) (prod_id : Z) (name : string)
    (inv_id : Z) (num date cname cphone : string) (st : App) (pdf : Pdf) :
  AnotherUp._make_pdf s inv_id num date cname cphone (db st) = inr pdf ->
  let after := AnotherUp.delete_product (Some (prod_id, name)) Yes st in
  invoices (db after) = invoices (db st) /\
  invoice_items (db after) = invoice_items (db st) /\
  exists pdf',
    AnotherUp._make_pdf s inv_id num date cname cphone (db after) = inr pdf' /\
    pdf_lines pdf'
    = map (fun r : InvoiceItem * Product =>
             let '(it, p) := r in
             mkPdfLine (p_name p) (ii_quantity it) (ii_price it)
                       (ii_price it * Py.float_of_int (ii_quantity it))%float)
          (Sql.join_products
             (filter (fun it => negb (ii_product_id it =? prod_id))
                     (Sql.items_of_invoice inv_id (db st)))
             (products (db st))) /\
    pdf_subtotal pdf' = Py.add_up (map line_total (pdf_lines pdf')) /\
    pdf_tax pdf' = pdf_tax pdf /\
    pdf_total pdf' = pdf_total pdf /\
    ((forall it, In it (Sql.items_of_invoice inv_id (db st)) -> ii_product_id it = prod_id) ->
     pdf_lines pdf' = [] /\ pdf_subtotal pdf' = Py.float_of_int 0).
Proof.
  intros Hpdf after.
  split; [reflexivity|]. split; [reflexivity|].
  unfold AnotherUp._make_pdf in *.
  assert (Hinv : Sql.invoice_by_id inv_id (db after) = Sql.invoice_by_id inv_id (db st))
    by reflexivity.
  assert (Hitems : Sql.items_of_invoice inv_id (db after) = Sql.items_of_invoice inv_id (db st))
    by reflexivity.
  assert (Hps : products (db after)
                = filter (fun p => negb (p_id p =? prod_id)) (products (db st)))
    by reflexivity.
  rewrite Hinv, Hitems, Hps, join_after_delete.
  destruct (Sql.invoice_by_id inv_id (db st)) as [inv|]; [|discriminate].
  injection Hpdf as <-.
  eexists. split; [reflexivity|].
  cbn [pdf_lines pdf_subtotal pdf_tax pdf_total].
  repeat (split; [reflexivity|]).
  intro Hall. rewrite filter_none; [split; reflexivity|].
  intros it Hit. apply negb_false_iff, Z.eqb_eq. exact (Hall it Hit).
Qed.

Lemma deleted_product_leaves_the_pdf_witness :
  let after := AnotherUp.delete_product (Some (1, "T-shirt")) Yes Sample.saved in
  List.length (invoice_items (db after)) = 1%nat /\
  exists pdf',
    AnotherUp._make_pdf default_settings 1 "AB12CD34" "2024-05-01" "AB12CD34" "" (db after)
    = inr pdf' /\
    pdf_lines pdf' = [] /\ pdf_subtotal pdf' = 0%float /\
    pdf_tax pdf' = 36%float /\ pdf_total pdf' = 216%float.
Proof.
  split; [reflexivity|].
  destruct (deleted_product_leaves_the_pdf default_settings 1 "T-shirt" 1 "AB12CD34"
              "2024-05-01" "AB12CD34" "" Sample.saved _ eq_refl)
    as (_ & _ & pdf' & Hpdf & _ & _ & Ht & Htot & Hnone).
  exists pdf'. split; [exact Hpdf|].
  destruct Hnone as [Hl Hs].
  { intros it Hit. vm_compute in Hit. destruct Hit as [<- | []]. reflexivity. }
  rewrite Hl, Hs, Ht, Htot. vm_compute. repeat split; reflexivity.
Defined.

(** ** The customers and products tabs *)

(** Which phone text makes the lookup of [save_invoice] come back with the
    customer that was added last. *)
Lemma resolve_registered (k : Z) (new : Customer) (name typed : string) (d : DB) (old : list Customer) :
  customers d = old ++ [new] ->
  seq_customers d = k -> c_id new = k ->
  (forall c, In c old -> c_id c <= k - 1) ->
  find (fun c => (c_phone c =? c_phone new)%string) old = None ->
  snd (resolve_customer name typed d) = Some k <-> typed = c_phone new /\ c_phone new <> "".
Proof.
  intros Hcs Hseq Hid Hold Hnone. unfold resolve_customer, Py.truthy.
  destruct (String.eqb_spec typed "") as [Hempty | Hfull]; simpl.
  - split; [discriminate|]. intros [-> Hne]. contradiction.
  - unfold Sql.customer_id_by_phone. rewrite Hcs, find_app_or.
    destruct (find (fun c => (c_phone c =? typed)%string) old) as [c|] eqn:E.
    + apply find_some in E. destruct E as [Hin Hphone]. apply String.eqb_eq in Hphone.
      simpl. split.
      * intro H. injection H as H. pose proof (Hold c Hin). lia.
      * intros [-> _]. exfalso.
        apply (find_none_not_in c_phone (c_phone new) old Hnone).
        rewrite <- Hphone. now apply in_map.
    + simpl. destruct (String.eqb_spec (c_phone new) typed) as [Heq | Hne]; simpl.
      * split; [|intros _; now rewrite Hid].
        intros _. split; [now symmetry | congruence].
      * split.
        -- intro H. injection H as H. lia.
        -- intros [Heq _]. congruence.
Qed.

(** X21. The Customers tab stores the phone as typed, the billing tab looks
    it up stripped.  After [add_customer_dialog] a save bills the customer
    who was added exactly when the phone typed into the billing tab, with
    the whitespace around it taken off, is the stored text and not empty.
    So a customer registered with a space before or after the number is
    billed by no save. *)
Theorem added_customer_is_billed_by_stripped_phone (name phone email addr : string)
    (mode path fresh : string) (st st' : App) :
  db_keys (db st) ->
  Sql.customer_id_by_phone phone (db st) = None ->
  db st' = db (AnotherUp.add_customer_dialog true name phone email addr st) ->
  cart st' <> [] ->
  Sql.invoice_by_number (inv_lbl_num st') (db st') = None ->
  let k := seq_customers (db st) + 1 in
  customers (db st') = customers (db st) ++
    [mkCustomer k name phone (Some email) (Some addr) (Py.float_of_int 0) None] /\
  exists inv,
    Sql.invoice_by_number (inv_lbl_num st') (db (AnotherUp.save_invoice mode path fresh st'))
    = Some inv /\
    (i_customer_id inv = Some k <-> Py.strip (cust_phone st') = phone /\ phone <> "") /\
    (Py.strip phone <> phone -> i_customer_id inv <> Some k).
Proof.
  intros Hkeys Hnone Hdb Hcart Hfree k.
  assert (Hreg : customers (db st') = customers (db st) ++
            [mkCustomer k name phone (Some email) (Some addr) (Py.float_of_int 0) None] /\
          seq_customers (db st') = k).
  { rewrite Hdb. unfold AnotherUp.add_customer_dialog, Sql.insert_customer_contact.
    rewrite Hnone. simpl. split; reflexivity. }
  destruct Hreg as [Hcs Hseq]. split; [exact Hcs|].
  destruct (save_invoice_succeeds mode path fresh st' Hcart Hfree)
    as (d1 & cust_id & d2 & Hres & Hinv & _ & _ & _ & _ & _ & Hafter & _).
  destruct (record_lines_frame (seq_invoices (db st') + 1) (cart st') d2) as (Hri & _).
  assert (Hbilled : cust_id = Some k <-> Py.strip (cust_phone st') = phone /\ phone <> "").
  { pose proof (resolve_registered k
                  (mkCustomer k name phone (Some email) (Some addr) (Py.float_of_int 0) None)
                  (Py.strip (cust_name st')) (Py.strip (cust_phone st')) (db st')
                  (customers (db st)) Hcs Hseq eq_refl) as H.
    rewrite Hres in H. apply H.
    - intros c Hc. pose proof (k_customers_seq _ Hkeys c Hc). unfold k. lia.
    - unfold Sql.customer_id_by_phone in Hnone. simpl.
      destruct (find _ (customers (db st))); [discriminate | reflexivity]. }
  eexists. split; [|split].
  - unfold Sql.invoice_by_number in *. rewrite Hafter, Hri, Hinv.
    rewrite find_app_none by exact Hfree. simpl. rewrite String.eqb_refl. reflexivity.
  - exact Hbilled.
  - simpl. intros Hpad Hk. apply Hbilled in Hk. destruct Hk as [Hk _].
    apply Hpad. rewrite <- Hk. apply strip_idempotent.
Qed.

Lemma added_customer_is_billed_by_stripped_phone_witness :
  let registered := AnotherUp.add_customer_dialog true "Asha" "5550100 " "" "" Sample.billing in
  let typed := fill_billing "2024-05-01" "Asha" "5550100 " "SALE" 10 registered in
  let after := AnotherUp.save_invoice "save" "" "0F0F0F0F" typed in
  map (fun c => (c_id c, c_name c, c_phone c)) (customers (db after))
  = [(1, "Asha", "5550100 "); (2, "Asha", "5550100")] /\
  exists inv,
    Sql.invoice_by_number "AB12CD34" (db after) = Some inv /\ i_customer_id inv <> Some 1.
Proof.
  intros registered typed after.
  split; [reflexivity|].
  destruct (added_customer_is_billed_by_stripped_phone "Asha" "5550100 " "" "" "save" ""
              "0F0F0F0F" Sample.billing typed
              ltac:(constructor; check_rows) eq_refl eq_refl ltac:(discriminate) eq_refl)
    as (_ & inv & Hfound & _ & Hpad).
  exists inv. split; [exact Hfound|]. apply Hpad. discriminate.
Defined.

(** X22. A barcode can be stored once.  [add_product_dialog] takes the text
    of the barcode field as it is, also when it is empty, and the column is
    UNIQUE: whatever the first dialog did, a second one with the same
    barcode text raises [IntegrityError] and stores nothing, so at most one
    product can be entered without a barcode. *)
Theorem barcode_is_stored_once (name cat name' cat' : string) (price cost price' cost' : float)
    (stock stock' : Z) (tax tax' : float) (barcode desc desc' : string) (st : App) :
  let first := AnotherUp.add_product_dialog true name cat price cost stock tax barcode desc st in
  let second :=
    AnotherUp.add_product_dialog true name' cat' price' cost' stock' tax' barcode desc' first in
  db second = db first /\
  log second = log first ++ [Raised Py.IntegrityError] /\
  List.length (filter (fun p => (p_barcode p =? barcode)%string) (products (db second)))
  = Nat.max 1 (List.length (filter (fun p => (p_barcode p =? barcode)%string)
                                   (products (db st)))).
Proof.
  intros first second. subst second first.
  unfold AnotherUp.add_product_dialog, Sql.insert_product.
  destruct (existsb (fun p => (p_barcode p =? barcode)%string) (products (db st))) eqn:E.
  - simpl. rewrite E. simpl. repeat split.
    apply existsb_exists in E. destruct E as (p & Hin & Hp).
    induction (products (db st)) as [|q ps IH]; [contradiction|].
    simpl. destruct Hin as [-> | Hin].
    + rewrite Hp. simpl. now destruct (List.length _).
    + destruct (p_barcode q =? barcode)%string; simpl; [now destruct (List.length _)|].
      now apply IH.
  - simpl. rewrite existsb_app. simpl. rewrite String.eqb_refl, orb_true_r. simpl.
    repeat split.
    rewrite filter_app. simpl. rewrite String.eqb_refl.
    rewrite filter_none; [reflexivity|].
    intros p Hp. destruct (p_barcode p =? barcode)%string eqn:Ep; [|reflexivity].
    rewrite <- E. symmetry. apply existsb_exists. exists p. auto.
Qed.

Lemma sold_qty_merged (prod_id qty : Z) (c c' : list CartItem) :
  merge_qty prod_id qty c = Some c' ->
  c' <> [] /\ sold_qty prod_id c' = sold_qty prod_id c + qty.
Proof.
  revert c'. induction c as [|i c IH]; intros c' H; simpl in H; [discriminate|].
  destruct (item_id i =? prod_id) eqn:E.
  - injection H as <-. split; [discriminate|]. simpl. rewrite E. lia.
  - destruct (merge_qty prod_id qty c) as [c1|]; [|discriminate].
    injection H as <-. split; [discriminate|]. simpl. rewrite E.
    destruct (IH c1 eq_refl) as [_ ->]. lia.
Qed.

Lemma sold_qty_app (prod_id : Z) (c c' : list CartItem) :
  sold_qty prod_id (c ++ c') = sold_qty prod_id c + sold_qty prod_id c'.
Proof.
  induction c as [|i c IH]; simpl; [reflexivity|]. rewrite IH. lia.
Qed.

(** X23. The stock check of [add_to_cart] compares the quantity asked for
    with the stock shown in the product row and does not count what the
    cart already holds of the product: a quantity within the stock is
    accepted without a warning however much is in the cart, the save then
    takes the whole cart quantity from the stock, and the stock goes below
    zero when the cart quantity is more than there was. *)
Theorem stock_check_ignores_the_cart (p : Product) (qty : Z) (mode path fresh : string)
    (st : App) :
  In p (products (db st)) ->
  qty <= p_stock p ->
  Sql.invoice_by_number (inv_lbl_num st) (db st) = None ->
  let filled := add_to_cart (Some p) qty true st in
  let after := AnotherUp.save_invoice mode path fresh filled in
  let in_cart := sold_qty (p_id p) (cart st) + qty in
  log filled = log st /\
  sold_qty (p_id p) (cart filled) = in_cart /\
  In (with_stock (p_stock p - in_cart) p) (products (db after)) /\
  (p_stock p < in_cart ->
   exists q, In q (products (db after)) /\ p_id q = p_id p /\ p_stock q < 0).
Proof.
  intros Hin Hqty Hfree filled after in_cart.
  assert (Hfilled : log filled = log st /\ db filled = db st /\
                    inv_lbl_num filled = inv_lbl_num st /\
                    cart filled <> [] /\ sold_qty (p_id p) (cart filled) = in_cart).
  { subst filled in_cart. unfold add_to_cart. simpl.
    assert (Hcheck : (qty >? p_stock p) = false) by (rewrite Z.gtb_ltb; apply Z.ltb_ge; lia).
    rewrite Hcheck.
    destruct (merge_qty (p_id p) qty (cart st)) as [c|] eqn:E; simpl.
    - destruct (sold_qty_merged _ _ _ _ E) as [Hne Hsold]. auto.
    - repeat split.
      + intro H. apply app_eq_nil in H. destruct H as [_ H]. discriminate.
      + rewrite sold_qty_app. simpl. rewrite Z.eqb_refl. lia. }
  destruct Hfilled as (Hlog & Hdb & Hnum & Hcart & Hsold).
  assert (Hfree' : Sql.invoice_by_number (inv_lbl_num filled) (db filled) = None)
    by (rewrite Hnum, Hdb; exact Hfree).
  destruct (save_invoice_succeeds mode path fresh filled Hcart Hfree')
    as (d1 & cust_id & d2 & _ & _ & _ & Hp2 & _ & _ & _ & Hafter & _).
  fold after in Hafter.
  assert (Hrow : In (with_stock (p_stock p - in_cart) p) (products (db after))).
  { rewrite Hafter, products_record_lines, Hp2, Hdb, <- Hsold.
    apply (in_map (fun q => with_stock (p_stock q - sold_qty (p_id q) (cart filled)) q)).
    exact Hin. }
  repeat split; auto.
  intro Hover. exists (with_stock (p_stock p - in_cart) p).
  split; [exact Hrow|]. split; [reflexivity|]. simpl. lia.
Qed.

Lemma stock_check_ignores_the_cart_witness :
  let once := add_to_cart (Some Sample.tshirt) 8 true (set_cart [] Sample.billing) in
  let twice := add_to_cart (Some Sample.tshirt) 8 true once in
  log twice = [] /\
  map item_qty (cart twice) = [16] /\
  map (fun q => (p_id q, p_stock q))
      (products (db (AnotherUp.save_invoice "save" "" "0F0F0F0F" twice)))
  = [(1, -6); (2, 5)] /\
  exists q, In q (products (db (AnotherUp.save_invoice "save" "" "0F0F0F0F" twice))) /\
            p_id q = 1 /\ p_stock q < 0.
Proof.
  intros once twice.
  split; [reflexivity|]. split; [reflexivity|]. split; [reflexivity|].
  exact (proj2 (proj2 (proj2
           (stock_check_ignores_the_cart Sample.tshirt 8 "save" "" "0F0F0F0F" once
              (or_introl eq_refl) ltac:(simpl; lia) eq_refl)))
         ltac:(simpl; lia)).
Defined.
